(** * Ghana post-clearance audit engine: agents, orchestrator, rule packs

    A shallow embedding of the rule-evaluation and multi-agent aggregation
    core of the repository:

    - the four audit agents of [ghana-audit-agents]
      ([ECOWASOriginVerificationAgent], [PetroleumATGAnalyzer],
      [GhanaTaxComplianceAgent], [TSAPaymentReconciliationAgent]);
    - the simulation scoring pass of [GhanaRulePackService]
      ([evaluateDeclaration]) and its default rule pack;
    - the orchestrator [GhanaAuditRunner] ([executeAudit],
      [executeParallel], [executeSequential], [processDeclaration],
      [shouldAgentRun], [filterDeclarations], [calculateGhanaMetrics],
      [cancelExecution]), as functions and, for the statements about the
      course of an execution, as a transition system;
    - further parts of the same services: the agent registry and the
      agent performance of the orchestrator; the removal of a rule and
      the simulation of a rule pack in [GhanaRulePackService]; the
      execution queue and the event history of [ProductionAuditEngine];
      the document validators of [GhanaEvidenceValidationService].

    Conventions of the embedding.

    - JavaScript numbers that carry money, volumes, weights and rates are
      exact rationals ([Q]), on which bounds and comparisons are stated;
      IEEE rounding is modelled where a result is compared with a closed
      formula for equality, in [Binary64], on primitive doubles.  Risk scores
      and counters, which the code only ever builds from integer
      constants, are integers.
    - A property that the code tests for presence is an [option]; a
      property that is only tested for truthiness is a [bool].
    - A call that throws returns [None].  A loop that need not terminate
      takes fuel and returns [None] when the fuel runs out.
    - Wall-clock readings ([Date.now()]) are inputs: every agent takes the
      measured duration as an argument.
    - The free-text members of a finding (description, evidence,
      recommendation) are not modelled; nothing in the engine reads them.
    - [Math.random()] is an input: a function that gives the number drawn
      by each call, in the order of the calls.
    - [toLowerCase] and [toUpperCase] are parameters of the validators
      that call them; the ASCII versions instantiate them on sample
      data. *)

From Stdlib Require Import QArith Qabs ZArith Ascii String List Lia.
From Stdlib Require PrimFloat FloatOps.
From stdpp Require Import gmap strings list fin_maps.

(** ** JavaScript library functions used by the engine *)

(** [s.startsWith(p)] *)
Definition startsWith (s p : string) : bool := String.prefix p s.

(** [l.includes(x)] on an array of strings *)
Definition includes (l : list string) (x : string) : bool :=
  bool_decide (x ∈ l).

(** [l.some(f)] *)
Definition some {A} (f : A → bool) (l : list A) : bool := existsb f l.

(** Truthiness of a possibly missing string: [undefined] and [''] are falsy. *)
Definition truthyString (s : option string) : bool :=
  match s with
  | Some s => negb (String.eqb s "")
  | None => false
  end.

(** Truthiness of a number: [0] is falsy. *)
Definition truthyNum (q : Q) : bool := negb (Qeq_bool q 0).

(** Truthiness of a possibly missing number. *)
Definition truthyOptNum (q : option Q) : bool :=
  match q with
  | Some q => truthyNum q
  | None => false
  end.

(** [x < y] and [x > y] on numbers *)
Definition Qlt_bool (x y : Q) : bool := negb (Qle_bool y x).
Definition Qgt_bool (x y : Q) : bool := Qlt_bool y x.

(** [a || b] on possibly missing strings *)
Definition orString (a b : option string) : option string :=
  if truthyString a then a else b.

(** ** Data model *)

Inductive Severity := low | medium | high | critical.

#[global] Instance Severity_eq_dec : EqDecision Severity.
Proof. solve_decision. Defined.

Module Finding.
Record t := mk { type : string; severity : Severity }.
End Finding.

(** The [metadata] member of an agent result is a free-form JavaScript
    object ([z.record(z.any())]): a finite map from property names to
    values. *)
Inductive MetaValue :=
| MUndefined
| MBool (b : bool)
| MNum (q : Q)
| MInt (z : Z)
| MStr (s : string)
| MStrs (l : list string).

Definition MOptStr (s : option string) : MetaValue :=
  match s with
  | Some s => MStr s
  | None => MUndefined
  end.

Module AgentResult.
Record t := mk {
  agentId : string;
  agentType : string;
  declarationId : option string;
  hasViolation : bool;
  confidence : Q;
  riskScore : Z;
  findings : list Finding.t;
  processingTime : Z;
  metadata : option (gmap string MetaValue);
}.
End AgentResult.

Module TaxBreakdown.
Record t := mk {
  vat : option Q;
  getFund : option Q;
  nhil : option Q;
  covid : option Q;
  importDuty : option Q;
  excise : option Q;
}.
End TaxBreakdown.

Module PaymentConfirmation.
Record t := mk { amount : Q; verified : bool }.
End PaymentConfirmation.

Module ATGReadings.
Record t := mk { finalVolume : Q }.
End ATGReadings.

(** A declaration is an untyped object in the source ([declaration: any]).
    The record lists the properties the engine reads.  [hsCode] is
    optional although the data model requires it: the code calls
    [declaration.hsCode.startsWith] without a guard in several places, and
    a declaration without an HS code is how a per-declaration step or the
    filter throws. *)
Module Declaration.
Record t := mk {
  id : option string;
  declarationId : option string;
  shipmentId : option string;
  hsCode : option string;
  originCountry : string;
  destinationCountry : string;
  transitCountries : option (list string);
  value : Q;
  weight : option Q;
  volume : option Q;
  date : Z;
  sector : string;
  riskScore : option Q;
  ecowasOrigin : bool;
  documents : option (list string);
  atgApplicable : bool;
  atgCertificate : bool;
  atgReadings : option ATGReadings.t;
  qualityCertificate : bool;
  taxes : option TaxBreakdown.t;
  declarantTin : option string;
  exemptions : option (list string);
  paymentStatus : option string;
  paymentMethod : option string;
  tsaReference : option string;
  paymentConfirmation : option PaymentConfirmation.t;
  currency : option string;
  exchangeRate : option Q;
}.

(** [declaration.id || declaration.declarationId] *)
Definition idOrDeclarationId (d : t) : option string :=
  orString (id d) (declarationId d).
End Declaration.

(** ** The agents *)

(** The state every [analyze] accumulates in its local variables. *)
Record Acc := mkAcc {
  acc_hasViolation : bool;
  acc_riskScore : Z;
  acc_findings : list Finding.t;
  acc_confidence : Q;
}.

(** [findings.push(...issues); riskScore += issues.length * w] *)
Definition pushIssues (issues : list Finding.t) (w : Z) (a : Acc) : Acc :=
  mkAcc (acc_hasViolation a)
        (acc_riskScore a + Z.of_nat (length issues) * w)
        (acc_findings a ++ issues)
        (acc_confidence a).

(** [GhanaAuditAgent.generateResult] *)
Definition generateResult (agentId agentType : string)
    (declarationId : option string) (hasViolation : bool) (confidence : Q)
    (riskScore : Z) (findings : list Finding.t) (processingTime : Z)
    (metadata : option (gmap string MetaValue)) : AgentResult.t :=
  AgentResult.mk agentId agentType declarationId hasViolation confidence
                 riskScore findings processingTime metadata.

Module ECOWASOriginVerificationAgent.
Import Declaration.

Definition agentId : string := "ecowas-origin-001".
Definition agentType : string := "ecowas-origin".

Definition ecowasCountries : list string :=
  ["NG"; "BJ"; "CI"; "BF"; "ML"; "NE"; "SN"; "SL"; "TG"].

Definition isHighRiskHSCode (hsCode : string) : bool :=
  some (fun pattern => startsWith hsCode pattern)
       ["5201"; "5203"; "6203"; "6204"; "6403"].

(** Returns whether one of the two patterns fired; the description and
    the evidence it carries are free text. *)
Definition checkSuspiciousPatterns (d : t) : bool :=
  if String.eqb (destinationCountry d) "GH"
     && String.eqb (originCountry d) "CN"
     && ecowasOrigin d
  then true
  else if match transitCountries d with
          | Some l => includes l "AE"
          | None => false
          end && ecowasOrigin d
  then true
  else false.

Definition marketValueMultipliers : list (string * Q) :=
  [("5201", 1.3); ("5203", 1.4); ("6203", 1.5); ("6204", 1.5);
   ("6403", 1.6)]%Q.

(** The loop of [isUnderValued] over the multiplier table. *)
Fixpoint isUnderValued_loop (hs : string) (v : Q)
    (table : list (string * Q)) : bool :=
  match table with
  | [] => false
  | (pattern, multiplier) :: rest =>
      if startsWith hs pattern
      then let marketValue := (v * multiplier)%Q in
           Qlt_bool v (marketValue * 0.8)%Q
      else isUnderValued_loop hs v rest
  end.

(** [declaration.hsCode.startsWith] throws when the HS code is missing. *)
Definition isUnderValued (d : t) : option bool :=
  match hsCode d with
  | None => None
  | Some hs => Some (isUnderValued_loop hs (value d) marketValueMultipliers)
  end.

Definition verifyDocuments (d : t) : list Finding.t :=
  if match documents d with
     | None => true
     | Some docs => negb (includes docs "certificate-of-origin")
     end
  then [Finding.mk "missing-document" high]
  else [].

(** The block guarded by [if (declaration.ecowasOrigin)]. *)
Definition originClaimChecks (d : t) (a0 : Acc) : option Acc :=
  let a1 :=
    if negb (includes ecowasCountries (originCountry d))
    then mkAcc true (acc_riskScore a0 + 40)
               (acc_findings a0 ++ [Finding.mk "origin-fraud" critical])
               0.95%Q
    else a0 in
  let a2 :=
    if match hsCode d with
       | Some hs => negb (String.eqb hs "") && isHighRiskHSCode hs
       | None => false
       end
    then if checkSuspiciousPatterns d
         then mkAcc true (acc_riskScore a1 + 25)
                    (acc_findings a1 ++ [Finding.mk "suspicious-pattern" high])
                    (acc_confidence a1)
         else a1
    else a1 in
  if truthyNum (value d)
  then match isUnderValued d with
       | None => None
       | Some true =>
           Some (mkAcc true (acc_riskScore a2 + 20)
                       (acc_findings a2 ++ [Finding.mk "under-valuation" medium])
                       (acc_confidence a2))
       | Some false => Some a2
       end
  else Some a2.

Definition analyze (elapsed : Z) (d : t) : option AgentResult.t :=
  let a0 := mkAcc false 0 [] 0.85%Q in
  a ← (if ecowasOrigin d then originClaimChecks d a0 else Some a0);
  let documentIssues := verifyDocuments d in
  let a :=
    if (0 <? Z.of_nat (length documentIssues))%Z
    then pushIssues documentIssues 10 a
    else a in
  let riskScore := Z.min 100 (acc_riskScore a) in
  Some (generateResult agentId agentType
          (idOrDeclarationId d)
          (acc_hasViolation a)
          (acc_confidence a)
          riskScore
          (acc_findings a)
          elapsed
          (Some (<["ecowasCompliance" := MBool (negb (acc_hasViolation a))]>
                (<["verifiedOrigin" := MStr (originCountry d)]>
                (<["riskFactors" := MStrs (map Finding.type (acc_findings a))]>
                 ∅))))).
End ECOWASOriginVerificationAgent.

(** ** Further library functions: substrings, digit patterns, max *)

(** [s.includes(sub)] on strings *)
Definition strIncludes (s sub : string) : bool :=
  match String.index 0 sub s with
  | Some _ => true
  | None => false
  end.

Definition isDigit (c : Ascii.ascii) : bool :=
  let n := Ascii.nat_of_ascii c in (48 <=? n)%nat && (n <=? 57)%nat.

Fixpoint allDigits (s : string) : bool :=
  match s with
  | EmptyString => true
  | String c rest => isDigit c && allDigits rest
  end.

(** The regular expressions [/^TIN\d{7,10}$/] and [/^TSA\d{12}$/]: a
    literal prefix followed by between [lo] and [hi] decimal digits and
    nothing else. *)
Definition prefixThenDigits (p : string) (lo hi : nat) (s : string) : bool :=
  startsWith s p
  && let rest := String.substring (String.length p)
                   (String.length s - String.length p) s in
     (lo <=? String.length rest)%nat && (String.length rest <=? hi)%nat
     && allDigits rest.

(** [Math.max(0, x)] *)
Definition Qmax0 (x : Q) : Q := if Qle_bool 0 x then x else 0%Q.

(** [values.reduce((sum, x) => sum + x, 0)] *)
Definition sumQ (l : list Q) : Q := fold_left Qplus l 0%Q.

(** [taxes[k] || 0] *)
Definition orZero (x : option Q) : Q :=
  match x with
  | Some q => if truthyNum q then q else 0%Q
  | None => 0%Q
  end.

Module PetroleumATGAnalyzer.
Import Declaration.

Definition agentId : string := "petroleum-atg-002".
Definition agentType : string := "petroleum-atg".

Definition petroleumHSCodes : list string := ["2709"; "2710"; "2711"; "2713"].

Definition checkATGCompliance (d : t) : list Finding.t :=
  (if negb (atgCertificate d)
   then [Finding.mk "missing-atg-certificate" critical]
   else [])
  ++
  match atgReadings d with
  | Some readings =>
      (* [expectedVolume] is [undefined] without a declared volume and
         the comparison with [NaN] is false *)
      match volume d with
      | Some expectedVolume =>
          let actualVolume := ATGReadings.finalVolume readings in
          if Qlt_bool actualVolume (expectedVolume * 0.95)%Q
          then [Finding.mk "atg-shortfall" critical]
          else []
      | None => []
      end
  | None => []
  end.

(** Called under the guard [declaration.volume && declaration.weight]. *)
Definition analyzeVolumeWeight (vol wt : Q) : list Finding.t :=
  let expectedWeight := (vol * 0.85)%Q in
  let weightTolerance := (expectedWeight * 0.1)%Q in
  if Qgt_bool (Qabs (wt - expectedWeight)) weightTolerance
  then [Finding.mk "volume-weight-discrepancy" high]
  else [].

Definition exciseRates : list (string * Q) :=
  [("270900", 0.20); ("271019", 0.15); ("271112", 0.10);
   ("271119", 0.10)]%Q.

Fixpoint calculateExciseDuty_loop (hs : string) (v : Q)
    (table : list (string * Q)) : Q :=
  match table with
  | [] => 0%Q
  | (code, rate) :: rest =>
      if startsWith hs code then (v * rate)%Q
      else calculateExciseDuty_loop hs v rest
  end.

(** [hs] is the declaration's HS code, present on every path that
    reaches this call. *)
Definition calculateExciseDuty (hs : string) (d : t) : Q :=
  calculateExciseDuty_loop hs (value d) exciseRates.

Definition checkPetroleumTaxes (hs : string) (d : t) : list Finding.t :=
  let expectedTaxes : list ((TaxBreakdown.t → option Q) * Q) :=
    [ (TaxBreakdown.vat, value d * 0.15);
      (TaxBreakdown.getFund, value d * 0.025);
      (TaxBreakdown.nhil, value d * 0.025);
      (TaxBreakdown.covid, value d * 0.01);
      (TaxBreakdown.excise, calculateExciseDuty hs d) ]%Q in
  match taxes d with
  | Some tx =>
      flat_map (fun '(taxType, expected) =>
        let actual := orZero (taxType tx) in
        let tolerance := (expected * 0.05)%Q in
        if Qgt_bool (Qabs (actual - expected)) tolerance
        then [Finding.mk "tax-discrepancy" medium]
        else []) expectedTaxes
  | None => []
  end.

Definition checkQualitySpecifications (d : t) : list Finding.t :=
  if negb (qualityCertificate d)
  then [Finding.mk "missing-quality-certificate" medium]
  else [].

Definition petroleumTypes : list (string * string) :=
  [("270900", "Crude Petroleum Oil"); ("271019", "Other Oils");
   ("271112", "Propane"); ("271119", "Other LPG");
   ("271320", "Petroleum Bitumen")].

Fixpoint identifyPetroleumType_loop (hs : string)
    (table : list (string * string)) : string :=
  match table with
  | [] => "Unknown Petroleum Product"
  | (code, type) :: rest =>
      if startsWith hs code then type
      else identifyPetroleumType_loop hs rest
  end.

Definition identifyPetroleumType (hsCode : string) : string :=
  identifyPetroleumType_loop hsCode petroleumTypes.

Definition calculateShortfall (d : t) : Q :=
  match atgReadings d, volume d with
  | Some readings, Some vol =>
      if truthyNum vol
      then let shortfall := (vol - ATGReadings.finalVolume readings)%Q in
           if Qgt_bool shortfall 0
           then (shortfall * value d / vol)%Q
           else 0%Q
      else 0%Q
  | _, _ => 0%Q
  end.

Definition analyze (elapsed : Z) (d : t) : option AgentResult.t :=
  (* [declaration.hsCode.startsWith] throws without an HS code *)
  hs ← hsCode d;
  let isPetroleum := some (fun code => startsWith hs code) petroleumHSCodes in
  if negb isPetroleum
  then Some (generateResult agentId agentType (idOrDeclarationId d)
               false 1.0%Q 0 [] elapsed
               (Some (<["note" := MStr "Not a petroleum shipment"]> ∅)))
  else
    let a0 := mkAcc false 0 [] 0.9%Q in
    let a1 :=
      if atgApplicable d
      then let atgIssues := checkATGCompliance d in
           let a := pushIssues atgIssues 15 a0 in
           mkAcc (0 <? Z.of_nat (length atgIssues))%Z (acc_riskScore a)
                 (acc_findings a) (acc_confidence a)
      else mkAcc true (acc_riskScore a0 + 30)
                 (acc_findings a0 ++ [Finding.mk "atg-not-applied" high])
                 (acc_confidence a0) in
    let a2 :=
      match volume d, weight d with
      | Some vol, Some wt =>
          if truthyNum vol && truthyNum wt
          then pushIssues (analyzeVolumeWeight vol wt) 20 a1
          else a1
      | _, _ => a1
      end in
    let taxIssues := checkPetroleumTaxes hs d in
    let a3 := pushIssues taxIssues 10 a2 in
    let a4 := pushIssues (checkQualitySpecifications d) 15 a3 in
    let riskScore := Z.min 100 (acc_riskScore a4) in
    let confidence :=
      if (70 <? riskScore)%Z then 0.96%Q
      else if (40 <? riskScore)%Z then 0.88%Q
      else acc_confidence a4 in
    Some (generateResult agentId agentType (idOrDeclarationId d)
            (acc_hasViolation a4) confidence riskScore (acc_findings a4)
            elapsed
            (Some (<["petroleumType" := MStr (identifyPetroleumType hs)]>
                  (<["atgCompliant" :=
                       MBool (negb (some (fun f => strIncludes (Finding.type f) "atg")
                                         (acc_findings a4)))]>
                  (<["taxCompliant" :=
                       MBool (Nat.eqb (length taxIssues) 0)]>
                  (<["estimatedShortfall" := MNum (calculateShortfall d)]>
                   ∅)))))).
End PetroleumATGAnalyzer.

(** [calculateTotalTaxLiability], defined identically in the tax agent and
    in the payment agent, as a sum of exact rationals.
    [Binary64.calculateTotalTaxLiability] is the same function on
    doubles. *)
Definition totalTaxLiability (v : Q) (ecowasOrigin : bool) : Q :=
  let taxes :=
    [ v * 0.15; v * 0.025; v * 0.025; v * 0.01;
      if ecowasOrigin then 0 else v * 0.05 ]%Q in
  sumQ taxes.

Module GhanaTaxComplianceAgent.
Import Declaration.

Definition agentId : string := "tax-compliance-003".
Definition agentType : string := "tax-compliance".

Definition validateAllTaxes (d : t) : list Finding.t :=
  let expectedTaxes : list ((TaxBreakdown.t → option Q) * Q) :=
    [ (TaxBreakdown.vat, value d * 0.15);
      (TaxBreakdown.getFund, value d * 0.025);
      (TaxBreakdown.nhil, value d * 0.025);
      (TaxBreakdown.covid, value d * 0.01);
      (TaxBreakdown.importDuty,
       if ecowasOrigin d then 0 else value d * 0.05) ]%Q in
  match taxes d with
  | Some tx =>
      flat_map (fun '(taxType, expected) =>
        let actual := orZero (taxType tx) in
        let tolerance := (expected * 0.02)%Q in
        if Qgt_bool (Qabs (actual - expected)) tolerance
        then let difference := Qabs (actual - expected) in
             [Finding.mk "tax-calculation-error"
                (if Qgt_bool difference (expected * 0.1)%Q
                 then high else medium)]
        else []) expectedTaxes
  | None => [Finding.mk "missing-tax-breakdown" critical]
  end.

Definition tinPattern (s : string) : bool := prefixThenDigits "TIN" 7 10 s.

Definition validateTIN (d : t) : list Finding.t :=
  match declarantTin d with
  | Some tin =>
      if String.eqb tin "" then [Finding.mk "missing-tin" critical]
      else if negb (tinPattern tin)
      then [Finding.mk "invalid-tin-format" high]
      else []
  | None => [Finding.mk "missing-tin" critical]
  end.

Definition validExemptions : list string :=
  ["diplomatic"; "un-agency"; "government"; "educational"; "religious";
   "charitable"].

Definition validateExemptions (d : t) : list Finding.t :=
  match exemptions d with
  | Some ex =>
      flat_map (fun exemption =>
        if negb (includes validExemptions exemption)
        then [Finding.mk "invalid-exemption" high]
        else []) ex
  | None => []
  end.

Definition verifyPayments (d : t) : list Finding.t :=
  if negb (bool_decide (paymentStatus d = Some "paid"))
     && Qgt_bool (value d) 100000
  then [Finding.mk "unpaid-high-value" high]
  else [].

Definition calculateTotalTaxLiability (d : t) : Q :=
  totalTaxLiability (value d) (ecowasOrigin d).

(** [Object.values(declaration.taxes)]: the stated amounts that are
    present. *)
Definition statedTaxes (tx : TaxBreakdown.t) : list Q :=
  omap (fun f => f tx)
    [TaxBreakdown.vat; TaxBreakdown.getFund; TaxBreakdown.nhil;
     TaxBreakdown.covid; TaxBreakdown.importDuty; TaxBreakdown.excise].

Definition calculateTaxGap (d : t) : Q :=
  match taxes d with
  | None => calculateTotalTaxLiability d
  | Some tx =>
      let expected := calculateTotalTaxLiability d in
      let paid := sumQ (statedTaxes tx) in
      Qmax0 (expected - paid)
  end.

Definition analyze (elapsed : Z) (d : t) : option AgentResult.t :=
  let a0 := mkAcc false 0 [] 1.0%Q in
  let a1 := pushIssues (validateAllTaxes d) 12 a0 in
  let a2 := pushIssues (validateTIN d) 15 a1 in
  let a3 := pushIssues (validateExemptions d) 20 a2 in
  let a4 := pushIssues (verifyPayments d) 10 a3 in
  let hasViolation := (0 <? Z.of_nat (length (acc_findings a4)))%Z in
  let riskScore := Z.min 100 (acc_riskScore a4) in
  Some (generateResult agentId agentType (idOrDeclarationId d)
          hasViolation 1.0%Q riskScore (acc_findings a4) elapsed
          (Some (<["totalTaxLiability" := MNum (calculateTotalTaxLiability d)]>
                (<["taxGap" := MNum (calculateTaxGap d)]>
                (<["complianceScore" := MInt (Z.max 0 (100 - riskScore))]>
                 ∅))))).
End GhanaTaxComplianceAgent.

Module TSAPaymentReconciliationAgent.
Import Declaration.

Definition agentId : string := "tsa-reconciliation-004".
Definition agentType : string := "tsa-reconciliation".

Definition isValidTSAReference (reference : string) : bool :=
  prefixThenDigits "TSA" 12 12 reference.

Definition verifyTSAPayments (d : t) : list Finding.t :=
  (if negb (truthyString (tsaReference d))
   then [Finding.mk "missing-tsa-reference" critical]
   else [])
  ++
  match tsaReference d with
  | Some reference =>
      if negb (String.eqb reference "") && negb (isValidTSAReference reference)
      then [Finding.mk "invalid-tsa-reference" high]
      else []
  | None => []
  end.

Definition calculateTotalTaxLiability (d : t) : Q :=
  totalTaxLiability (value d) (ecowasOrigin d).

Definition reconcileBankPayments (d : t) : list Finding.t :=
  match paymentConfirmation d with
  | Some confirmation =>
      let expectedAmount := calculateTotalTaxLiability d in
      let paidAmount := PaymentConfirmation.amount confirmation in
      if Qgt_bool (Qabs (paidAmount - expectedAmount)) (expectedAmount * 0.01)%Q
      then [Finding.mk "payment-mismatch" high]
      else []
  | None => []
  end.

Definition validateExchangeRates (d : t) : list Finding.t :=
  match exchangeRate d with
  | Some rate =>
      if negb (bool_decide (currency d = Some "GHS")) && truthyNum rate
      then let officialRate := 12.5%Q in
           let tolerance := (officialRate * 0.02)%Q in
           if Qgt_bool (Qabs (rate - officialRate)) tolerance
           then [Finding.mk "exchange-rate-discrepancy" medium]
           else []
      else []
  | None => []
  end.

Definition getTSAStatus (d : t) : string :=
  if negb (truthyString (tsaReference d)) then "not-initiated"
  else match paymentConfirmation d with
       | None => "pending"
       | Some confirmation =>
           if PaymentConfirmation.verified confirmation then "verified"
           else "unverified"
       end.

Definition getReconciledAmount (d : t) : Q :=
  orZero (PaymentConfirmation.amount <$> paymentConfirmation d).

Definition analyze (elapsed : Z) (d : t) : option AgentResult.t :=
  let a0 := mkAcc false 0 [] 1.0%Q in
  let a1 := pushIssues (verifyTSAPayments d) 25 a0 in
  let a2 := pushIssues (reconcileBankPayments d) 15 a1 in
  let a3 := pushIssues (validateExchangeRates d) 10 a2 in
  let hasViolation := (0 <? Z.of_nat (length (acc_findings a3)))%Z in
  let riskScore := Z.min 100 (acc_riskScore a3) in
  Some (generateResult agentId agentType (idOrDeclarationId d)
          hasViolation 1.0%Q riskScore (acc_findings a3) elapsed
          (Some (<["tsaStatus" := MStr (getTSAStatus d)]>
                (<["reconciledAmount" := MNum (getReconciledAmount d)]>
                (<["paymentMethod" := MOptStr (paymentMethod d)]>
                 ∅))))).
End TSAPaymentReconciliationAgent.

(** ** Rule packs and the simulation scoring pass *)

Module GhanaCompliance.
Record t := mk {
  vatRequirement : bool;
  getFundRequirement : bool;
  nhilRequirement : bool;
  covidLevyRequirement : bool;
  ecowasOriginCheck : bool;
  atgRequirement : option bool;
}.
End GhanaCompliance.

Module Criteria.
Record t := mk {
  valueThreshold : option Q;
  weightThreshold : option Q;
  hsCodePatterns : option (list string);
  countryPatterns : option (list string);
  riskScoreThreshold : option Q;
}.
End Criteria.

Module GhanaRule.
Record t := mk {
  id : string;
  category : string;
  isActive : bool;
  ghanaCompliance : GhanaCompliance.t;
  criteria : Criteria.t;
}.
End GhanaRule.

Module RulePack.
Record t := mk {
  id : string;
  isActive : bool;
  rules : list GhanaRule.t;
}.
End RulePack.

(** [pattern.replace('*', '')]: a string pattern replaces its first
    occurrence only. *)
Fixpoint replaceStar (pattern : string) : string :=
  match pattern with
  | EmptyString => EmptyString
  | String c rest =>
      if Ascii.eqb c "*"%char then rest else String c (replaceStar rest)
  end.

Module GhanaRulePackService.
Import Declaration.

(** [patterns.some(pattern => declaration.hsCode.startsWith(...))]: the
    callback, and with it the dereference of [hsCode], runs only when
    there is a pattern to try. *)
Definition matchesPattern (patterns : list string) (d : t) : option bool :=
  match patterns with
  | [] => Some false
  | _ :: _ =>
      hs ← hsCode d;
      Some (some (fun pattern => startsWith hs (replaceStar pattern)) patterns)
  end.

(** What one rule adds to [riskScore]: the four [if] blocks of the loop
    body before the threshold test. *)
Definition ruleScore (rule : GhanaRule.t) (d : t) : option Z :=
  let c := GhanaRule.criteria rule in
  hsPoints ←
    match Criteria.hsCodePatterns c with
    | Some patterns =>
        matches ← matchesPattern patterns d;
        Some (if matches : bool then 20 else 0)%Z
    | None => Some 0%Z
    end;
  let valuePoints :=
    match Criteria.valueThreshold c with
    | Some threshold =>
        if truthyNum threshold && Qlt_bool (value d) threshold
        then 15 else 0
    | None => 0
    end%Z in
  let originPoints :=
    match Criteria.countryPatterns c with
    | Some countryPatterns =>
        if GhanaCompliance.ecowasOriginCheck (GhanaRule.ghanaCompliance rule)
        then let isEcowaSCountry := includes countryPatterns (originCountry d) in
             if ecowasOrigin d && negb isEcowaSCountry then 30 else 0
        else 0
    | None => 0
    end%Z in
  let sectorPoints :=
    (if String.eqb (GhanaRule.category rule) (sector d) then 10 else 0)%Z in
  Some (hsPoints + valuePoints + originPoints + sectorPoints)%Z.

(** [rule.criteria.riskScoreThreshold && riskScore >= rule.criteria.riskScoreThreshold] *)
Definition meetsThreshold (rule : GhanaRule.t) (riskScore : Z) : bool :=
  match Criteria.riskScoreThreshold (GhanaRule.criteria rule) with
  | Some threshold =>
      truthyNum threshold && Qle_bool threshold (inject_Z riskScore)
  | None => false
  end.

Record Evaluation := mkEvaluation { hasViolation : bool; riskScore : Z }.

(** The [for (const rule of rulePack.rules)] loop, started from the
    current values of the two local variables. *)
Fixpoint evaluateRules (rules : list GhanaRule.t) (d : t)
    (acc : Evaluation) : option Evaluation :=
  match rules with
  | [] => Some acc
  | rule :: rest =>
      if negb (GhanaRule.isActive rule) then evaluateRules rest d acc
      else
        points ← ruleScore rule d;
        let riskScore := (riskScore acc + points)%Z in
        let hasViolation :=
          if meetsThreshold rule riskScore then true else hasViolation acc in
        evaluateRules rest d (mkEvaluation hasViolation riskScore)
  end.

Definition evaluateDeclaration (rulePack : RulePack.t) (d : t)
    : option Evaluation :=
  evaluateRules (RulePack.rules rulePack) d (mkEvaluation false 0).
(** [generateGhanaRules]: the rules of the default rule pack. *)
Definition textilePatterns : list string :=
  ["520*"; "530*"; "540*"; "550*"; "560*"; "570*"; "580*"; "590*"; "600*";
   "610*"].

Definition vehiclePatterns : list string :=
  ["8701*"; "8702*"; "8703*"; "8704*"; "8705*"].

Definition generateGhanaRules : list GhanaRule.t :=
  [ GhanaRule.mk "petro-atg-001" "petroleum" true
      (GhanaCompliance.mk true true true true true (Some true))
      (Criteria.mk (Some 50000%Q) None (Some ["2709*"; "2710*"; "2711*"])
         None (Some 75%Q));
    GhanaRule.mk "petro-tax-002" "petroleum" true
      (GhanaCompliance.mk true true true true false None)
      (Criteria.mk (Some 10000%Q) None (Some ["2709*"; "2710*"; "2711*"])
         None None);
    GhanaRule.mk "textile-origin-003" "textiles" true
      (GhanaCompliance.mk true true true true true None)
      (Criteria.mk None None (Some textilePatterns)
         (Some ["NG"; "BJ"; "CI"; "BF"; "ML"; "NE"; "SN"; "SL"; "TG"])
         (Some 70%Q));
    GhanaRule.mk "textile-hs-004" "textiles" true
      (GhanaCompliance.mk true true true true false None)
      (Criteria.mk (Some 25000%Q) None (Some textilePatterns) None None);
    GhanaRule.mk "vehicle-value-005" "vehicles" true
      (GhanaCompliance.mk true true true true false None)
      (Criteria.mk (Some 10000%Q) None (Some vehiclePatterns) None
         (Some 80%Q));
    GhanaRule.mk "vehicle-docs-006" "vehicles" true
      (GhanaCompliance.mk true true true true false None)
      (Criteria.mk None (Some 1000%Q) (Some vehiclePatterns) None None) ].

(** The rule pack [initializeDefaultRulePacks] registers. *)
Definition defaultRulePack : RulePack.t :=
  RulePack.mk "ghana-rule-pack-v1" true generateGhanaRules.
End GhanaRulePackService.

(** ** The orchestrator: configuration and execution records *)

Inductive Scope := scope_all | scope_hs_codes | scope_shipments | scope_declarations.

Module TargetFilters.
Record t := mk {
  hsCodes : option (list string);
  shipmentIds : option (list string);
  declarationIds : option (list string);
  dateRange : option (Z * Z);
  countries : option (list string);
  riskThreshold : option Q;
  sectors : option (list string);
}.
End TargetFilters.

Module AgentConfig.
Record t := mk {
  enableECOWASAgent : bool;
  enablePetroleumAgent : bool;
  enableTaxAgent : bool;
  enableTSAgent : bool;
}.
End AgentConfig.

(** [maxConcurrency] is [z.number()]: any number passes validation.  The
    model takes it to be an integer, of either sign. *)
Module ExecutionOptions.
Record t := mk {
  parallelExecution : bool;
  maxConcurrency : Z;
  timeoutMs : Z;
  enableRealTimeUpdates : bool;
}.
End ExecutionOptions.

Module AuditExecutionConfig.
Record t := mk {
  caseId : string;
  scope : Scope;
  targetFilters : TargetFilters.t;
  agentConfig : AgentConfig.t;
  executionOptions : ExecutionOptions.t;
}.
End AuditExecutionConfig.

Inductive Status := running | completed | failed | cancelled.

#[global] Instance Status_eq_dec : EqDecision Status.
Proof. solve_decision. Defined.

Module SectorStats.
Record t := mk { violations : nat; recovery : Q; declarations : nat }.
End SectorStats.

Module GhanaMetrics.
Record t := mk {
  totalViolations : nat;
  totalRecoveryAmount : Q;
  sectoralBreakdown : gmap string SectorStats.t;
  violationTypes : gmap string nat;
  riskDistribution : gmap string nat;
  complianceRate : Q;
}.

(** The object literal [executeAudit] starts from. *)
Definition initial : t :=
  mk 0 0%Q ∅ ∅
     (<["low" := 0]> (<["medium" := 0]> (<["high" := 0]>
       (<["critical" := 0]> ∅))))
     0%Q.
End GhanaMetrics.

Module ExecutionError.
Record t := mk { declarationId : option string; agentType : string }.
End ExecutionError.

(** The execution object.  Time stamps are reduced to whether [endTime]
    has been set; [agentPerformance] and [performanceMetrics], which are
    functions of the recorded durations and of the wall clock, are left
    out. *)
Module AuditExecutionResult.
Record t := mk {
  caseId : string;
  status : Status;
  hasEndTime : bool;
  totalDeclarations : nat;
  processedDeclarations : nat;
  failedDeclarations : nat;
  agentResults : list AgentResult.t;
  ghanaMetrics : GhanaMetrics.t;
  errors : list ExecutionError.t;
}.

Definition setStatus (s : Status) (e : t) : t :=
  mk (caseId e) s (hasEndTime e) (totalDeclarations e)
     (processedDeclarations e) (failedDeclarations e) (agentResults e)
     (ghanaMetrics e) (errors e).

Definition setEndTime (e : t) : t :=
  mk (caseId e) (status e) true (totalDeclarations e)
     (processedDeclarations e) (failedDeclarations e) (agentResults e)
     (ghanaMetrics e) (errors e).

Definition setTotalDeclarations (n : nat) (e : t) : t :=
  mk (caseId e) (status e) (hasEndTime e) n
     (processedDeclarations e) (failedDeclarations e) (agentResults e)
     (ghanaMetrics e) (errors e).

Definition setGhanaMetrics (m : GhanaMetrics.t) (e : t) : t :=
  mk (caseId e) (status e) (hasEndTime e) (totalDeclarations e)
     (processedDeclarations e) (failedDeclarations e) (agentResults e)
     m (errors e).

(** [execution.errors.push(...)] *)
Definition pushError (err : ExecutionError.t) (e : t) : t :=
  mk (caseId e) (status e) (hasEndTime e) (totalDeclarations e)
     (processedDeclarations e) (failedDeclarations e) (agentResults e)
     (ghanaMetrics e) (errors e ++ [err]).

(** [execution.failedDeclarations++; execution.errors.push(...)], the
    body of both per-declaration [catch] blocks. *)
Definition recordFailure (d : Declaration.t) (e : t) : t :=
  mk (caseId e) (status e) (hasEndTime e) (totalDeclarations e)
     (processedDeclarations e) (S (failedDeclarations e)) (agentResults e)
     (ghanaMetrics e)
     (errors e ++ [ExecutionError.mk (Declaration.idOrDeclarationId d) "system"]).

(** [execution.agentResults.push(...results); execution.processedDeclarations++] *)
Definition recordResults (results : list AgentResult.t) (e : t) : t :=
  mk (caseId e) (status e) (hasEndTime e) (totalDeclarations e)
     (S (processedDeclarations e)) (failedDeclarations e)
     (agentResults e ++ results)
     (ghanaMetrics e) (errors e).

(** The execution object [executeAudit] creates. *)
Definition initial (config : AuditExecutionConfig.t) (declarations : list Declaration.t) : t :=
  mk (AuditExecutionConfig.caseId config) running false (length declarations)
     0 0 [] GhanaMetrics.initial [].
End AuditExecutionResult.

(** ** Array helpers of the orchestrator *)

(** [array.slice(start, end)], with the clamping of negative and
    out-of-range indices. *)
Definition slice {T} (array : list T) (start end_ : Z) : list T :=
  let len := Z.of_nat (length array) in
  let k := if (start <? 0)%Z then Z.max (len + start) 0 else Z.min start len in
  let final := if (end_ <? 0)%Z then Z.max (len + end_) 0 else Z.min end_ len in
  take (Z.to_nat (final - k)) (drop (Z.to_nat k) array).

(** The loop of [chunkArray], entered with the loop variable at [i].  The
    loop need not terminate; [fuel] bounds the number of iterations and
    [None] means it was not enough.  The chunk size is an integer, as
    [maxConcurrency] is in every configuration considered here; what is
    stated of the chunks is stated of integer sizes. *)
Fixpoint chunkArray_loop {T} (fuel : nat) (array : list T) (chunkSize i : Z)
    : option (list (list T)) :=
  if (i <? Z.of_nat (length array))%Z
  then match fuel with
       | O => None
       | S fuel =>
           chunks ← chunkArray_loop fuel array chunkSize (i + chunkSize);
           Some (slice array i (i + chunkSize) :: chunks)
       end
  else Some [].

Definition chunkArray {T} (fuel : nat) (array : list T) (chunkSize : Z)
    : option (list (list T)) :=
  chunkArray_loop fuel array chunkSize 0.

(** A filter whose predicate may throw. *)
Fixpoint filterThrowing {T} (f : T → option bool) (l : list T)
    : option (list T) :=
  match l with
  | [] => Some []
  | x :: rest =>
      keep ← f x;
      kept ← filterThrowing f rest;
      Some (if keep : bool then x :: kept else kept)
  end.

(** ** The orchestrator: [GhanaAuditRunner] *)

Module GhanaAuditRunner.
Import Declaration.

(** An agent, as the runner sees it: [analyze], given the duration it
    will measure. *)
Definition Agent := Z → Declaration.t → option AgentResult.t.

(** [getEnabledAgents]: the enabled entries of the registry that
    [initializeAgents] fills, in insertion order. *)
Definition getEnabledAgents (config : AuditExecutionConfig.t)
    : list (string * Agent) :=
  let c := AuditExecutionConfig.agentConfig config in
  (if AgentConfig.enableECOWASAgent c
   then [("ecowas-origin", ECOWASOriginVerificationAgent.analyze)] else [])
  ++ (if AgentConfig.enablePetroleumAgent c
      then [("petroleum-atg", PetroleumATGAnalyzer.analyze)] else [])
  ++ (if AgentConfig.enableTaxAgent c
      then [("tax-compliance", GhanaTaxComplianceAgent.analyze)] else [])
  ++ (if AgentConfig.enableTSAgent c
      then [("tsa-reconciliation", TSAPaymentReconciliationAgent.analyze)]
      else []).

Definition isEcowaSCountry (country : string) : bool :=
  includes ["NG"; "BJ"; "CI"; "BF"; "ML"; "NE"; "SN"; "SL"; "TG"] country.

Definition petroleumHSCodes : list string := ["2709"; "2710"; "2711"; "2713"].

Definition shouldAgentRun (agentType : string) (d : t) : option bool :=
  if String.eqb agentType "ecowas-origin"
  then Some (ecowasOrigin d || isEcowaSCountry (originCountry d))
  else if String.eqb agentType "petroleum-atg"
  then hs ← hsCode d;
       Some (some (fun code => startsWith hs code) petroleumHSCodes)
  else if String.eqb agentType "tax-compliance"
  then Some true
  else if String.eqb agentType "tsa-reconciliation"
  then Some (Qgt_bool (value d) 1000)
  else Some true.

Section Runner.
(** The duration each agent call measures, by agent type and declaration. *)
Variable clock : string → Declaration.t → Z.

(** The loop of [processDeclaration] over the enabled agents.  A throw of
    [shouldAgentRun] leaves the function; a throw of [analyze] is caught,
    logged to the console and skipped. *)
Fixpoint processDeclaration_loop (enabledAgents : list (string * Agent))
    (d : t) (results : list AgentResult.t) : option (list AgentResult.t) :=
  match enabledAgents with
  | [] => Some results
  | (agentType, agent) :: rest =>
      run ← shouldAgentRun agentType d;
      if run : bool
      then match agent (clock agentType d) d with
           | Some result => processDeclaration_loop rest d (results ++ [result])
           | None => processDeclaration_loop rest d results
           end
      else processDeclaration_loop rest d results
  end.

Definition processDeclaration (d : t) (config : AuditExecutionConfig.t)
    : option (list AgentResult.t) :=
  processDeclaration_loop (getEnabledAgents config) d [].

(** *** Filtering *)

Definition filterDeclarations (declarations : list t)
    (config : AuditExecutionConfig.t) : option (list t) :=
  let tf := AuditExecutionConfig.targetFilters config in
  filtered ←
    match AuditExecutionConfig.scope config with
    | scope_hs_codes =>
        match TargetFilters.hsCodes tf with
        | Some codes =>
            filterThrowing (fun decl =>
              match codes with
              | [] => Some false
              | _ :: _ =>
                  hs ← hsCode decl;
                  Some (some (fun code => startsWith hs code) codes)
              end) declarations
        | None => Some declarations
        end
    | scope_shipments =>
        match TargetFilters.shipmentIds tf with
        | Some ids =>
            Some (List.filter (fun decl =>
              match shipmentId decl with
              | Some s => includes ids s
              | None => false
              end) declarations)
        | None => Some declarations
        end
    | scope_declarations =>
        match TargetFilters.declarationIds tf with
        | Some ids =>
            Some (List.filter (fun decl =>
              match idOrDeclarationId decl with
              | Some s => includes ids s
              | None => false
              end) declarations)
        | None => Some declarations
        end
    | scope_all => Some declarations
    end;
  let filtered :=
    match TargetFilters.dateRange tf with
    | Some (start, end_) =>
        List.filter (fun decl =>
          (start <=? date decl)%Z && (date decl <=? end_)%Z) filtered
    | None => filtered
    end in
  let filtered :=
    match TargetFilters.countries tf with
    | Some cs =>
        List.filter (fun decl =>
          includes cs (originCountry decl)
          || includes cs (destinationCountry decl)) filtered
    | None => filtered
    end in
  let filtered :=
    match TargetFilters.riskThreshold tf with
    | Some threshold =>
        List.filter (fun decl =>
          Qle_bool threshold (orZero (riskScore decl))) filtered
    | None => filtered
    end in
  let filtered :=
    match TargetFilters.sectors tf with
    | Some ss => List.filter (fun decl => includes ss (sector decl)) filtered
    | None => filtered
    end in
  Some filtered.

(** *** Aggregation *)

(** A numeric member of [metadata], if present. *)
Definition metadataNum (key : string) (r : AgentResult.t) : option Q :=
  m ← AgentResult.metadata r;
  match m !! key with
  | Some (MNum q) => Some q
  | Some (MInt z) => Some (inject_Z z)
  | _ => None
  end.

(** [v.metadata?.recoveryAmount || v.metadata?.estimatedShortfall || 0] *)
Definition recoveryOf (v : AgentResult.t) : Q :=
  if truthyOptNum (metadataNum "recoveryAmount" v)
  then orZero (metadataNum "recoveryAmount" v)
  else orZero (metadataNum "estimatedShortfall" v).

(** [result.metadata?.sector || 'unknown'] *)
Definition sectorOf (r : AgentResult.t) : string :=
  match AgentResult.metadata r ≫= (fun m => m !! "sector") with
  | Some (MStr s) => if String.eqb s "" then "unknown" else s
  | _ => "unknown"
  end.

Definition groupResultsBySector (results : list AgentResult.t)
    : gmap string (list AgentResult.t) :=
  fold_left (fun groups result =>
    let sector := sectorOf result in
    <[sector := default [] (groups !! sector) ++ [result]]> groups)
    results ∅.

Definition sectorStats (results : list AgentResult.t) : SectorStats.t :=
  let sectorViolations := List.filter AgentResult.hasViolation results in
  let sectorRecovery :=
    fold_left (fun sum v => (sum + recoveryOf v)%Q) sectorViolations 0%Q in
  SectorStats.mk (length sectorViolations) sectorRecovery (length results).

(** [obj[key] = (obj[key] || 0) + 1] *)
Definition bump (key : string) (counts : gmap string nat) : gmap string nat :=
  <[key := S (default 0 (counts !! key))]> counts.

(** [result.riskLevel]: an agent result is the object [generateResult]
    builds, which has a [riskScore] and no [riskLevel] property, so the
    read yields [undefined]. *)
Definition riskLevel (result : AgentResult.t) : option Z := None.

(** [x >= n] where [x] may be [undefined]: a comparison with [undefined]
    is false. *)
Definition geNumber (x : option Z) (n : Z) : bool :=
  match x with
  | Some v => (n <=? v)%Z
  | None => false
  end.

Definition riskBucket (result : AgentResult.t) : string :=
  if geNumber (riskLevel result) 80 then "critical"
  else if geNumber (riskLevel result) 60 then "high"
  else if geNumber (riskLevel result) 40 then "medium"
  else "low".

(** [counts[key]++] on a counter that exists *)
Definition increment (key : string) (counts : gmap string nat)
    : gmap string nat :=
  alter S key counts.

Definition calculateGhanaMetrics (execution : AuditExecutionResult.t)
    : AuditExecutionResult.t :=
  let results := AuditExecutionResult.agentResults execution in
  let old := AuditExecutionResult.ghanaMetrics execution in
  let violations := List.filter AgentResult.hasViolation results in
  let totalRecoveryAmount :=
    fold_left (fun sum v => (sum + recoveryOf v)%Q) violations 0%Q in
  let sectoralBreakdown :=
    (sectorStats <$> groupResultsBySector results)
    ∪ GhanaMetrics.sectoralBreakdown old in
  let violationTypes :=
    fold_left (fun counts finding => bump (Finding.type finding) counts)
      (flat_map AgentResult.findings violations)
      (GhanaMetrics.violationTypes old) in
  let riskDistribution :=
    fold_left (fun counts result => increment (riskBucket result) counts)
      results (GhanaMetrics.riskDistribution old) in
  let complianceRate :=
    if (0 <? length results)%nat
    then (inject_Z (Z.of_nat (length results - length violations))
          / inject_Z (Z.of_nat (length results)) * 100)%Q
    else 0%Q in
  AuditExecutionResult.setGhanaMetrics
    (GhanaMetrics.mk (length violations) totalRecoveryAmount
       sectoralBreakdown violationTypes riskDistribution complianceRate)
    execution.

(** [calculateFinalMetrics]: the timing figures are not modelled, the
    Ghana metrics are. *)
Definition calculateFinalMetrics (execution : AuditExecutionResult.t)
    : AuditExecutionResult.t :=
  calculateGhanaMetrics execution.

(** *** The two execution modes *)

(** The body of the [for] loop of [executeSequential]. *)
Definition sequentialStep (config : AuditExecutionConfig.t)
    (execution : AuditExecutionResult.t) (declaration : t)
    : AuditExecutionResult.t :=
  match processDeclaration declaration config with
  | Some results => AuditExecutionResult.recordResults results execution
  | None => AuditExecutionResult.recordFailure declaration execution
  end.

Definition executeSequential (execution : AuditExecutionResult.t)
    (declarations : list t) (config : AuditExecutionConfig.t)
    : AuditExecutionResult.t :=
  fold_left (sequentialStep config) declarations execution.

(** One promise of a chunk: the [try]/[catch] around [processDeclaration].
    It yields the results, or records the failure and yields [null]. *)
Definition settle (config : AuditExecutionConfig.t) (declaration : t)
    (execution : AuditExecutionResult.t)
    : AuditExecutionResult.t * option (list AgentResult.t) :=
  match processDeclaration declaration config with
  | Some results => (execution, Some results)
  | None => (AuditExecutionResult.recordFailure declaration execution, None)
  end.

(** [chunk.map(...)] followed by [Promise.all]: every promise of the
    chunk is settled.  The results come back in the order of the chunk.
    The failures of one chunk reach the error log in the order in which
    the promises reject; the model logs them in the order of the chunk,
    and no statement below reads the order of the log. *)
Fixpoint settleAll (config : AuditExecutionConfig.t) (chunk : list t)
    (execution : AuditExecutionResult.t)
    : AuditExecutionResult.t * list (option (list AgentResult.t)) :=
  match chunk with
  | [] => (execution, [])
  | declaration :: rest =>
      let '(execution, result) := settle config declaration execution in
      let '(execution, results) := settleAll config rest execution in
      (execution, result :: results)
  end.

(** The callback of [results.forEach]: an array, even an empty one, is
    truthy; [null] is not. *)
Definition mergeResult (execution : AuditExecutionResult.t)
    (result : option (list AgentResult.t)) : AuditExecutionResult.t :=
  match result with
  | Some result => AuditExecutionResult.recordResults result execution
  | None => execution
  end.

(** The body of the [for (const chunk of chunks)] loop. *)
Definition parallelChunk (config : AuditExecutionConfig.t)
    (execution : AuditExecutionResult.t) (chunk : list t)
    : AuditExecutionResult.t :=
  let '(execution, results) := settleAll config chunk execution in
  fold_left mergeResult results execution.

Definition executeParallel (fuel : nat) (execution : AuditExecutionResult.t)
    (declarations : list t) (config : AuditExecutionConfig.t)
    : option AuditExecutionResult.t :=
  let maxConcurrency :=
    ExecutionOptions.maxConcurrency
      (AuditExecutionConfig.executionOptions config) in
  chunks ← chunkArray fuel declarations maxConcurrency;
  Some (fold_left (parallelChunk config) chunks execution).

(** The [catch] block of [executeAudit]. *)
Definition executionFailed (execution : AuditExecutionResult.t)
    : AuditExecutionResult.t :=
  AuditExecutionResult.pushError (ExecutionError.mk (Some "system") "system")
    (AuditExecutionResult.setEndTime
       (AuditExecutionResult.setStatus failed execution)).

(** The end of the [try] block of [executeAudit]. *)
Definition executionCompleted (execution : AuditExecutionResult.t)
    : AuditExecutionResult.t :=
  AuditExecutionResult.setEndTime
    (AuditExecutionResult.setStatus completed
       (calculateFinalMetrics execution)).

(** [executeAudit].  [None] means that [fuel] iterations of the chunking
    loop were not enough for the call to return. *)
Definition executeAudit (fuel : nat) (config : AuditExecutionConfig.t)
    (declarations : list t) : option AuditExecutionResult.t :=
  let execution := AuditExecutionResult.initial config declarations in
  match filterDeclarations declarations config with
  | None => Some (executionFailed execution)
  | Some filteredDeclarations =>
      let execution :=
        AuditExecutionResult.setTotalDeclarations
          (length filteredDeclarations) execution in
      execution ←
        (if ExecutionOptions.parallelExecution
              (AuditExecutionConfig.executionOptions config)
         then executeParallel fuel execution filteredDeclarations config
         else Some (executeSequential execution filteredDeclarations config));
      Some (executionCompleted execution)
  end.

End Runner.

(** [cancelExecution], on the execution object it finds in the map. *)
Definition cancelExecution (execution : AuditExecutionResult.t)
    : AuditExecutionResult.t * bool :=
  if bool_decide (AuditExecutionResult.status execution = running)
  then (AuditExecutionResult.setEndTime
          (AuditExecutionResult.setStatus cancelled execution), true)
  else (execution, false).

End GhanaAuditRunner.

(** ** [executeAudit] as a transition system

    [executeAudit] is an [async] function: between two of its steps the
    event loop may run other code, and the progress callbacks it invokes
    are arbitrary code of the caller.  Either may call [cancelExecution]
    on the execution object, which is shared through the [executions]
    map.  The machine below has one internal step per mutation of the
    execution object and an external step for [cancelExecution].  The
    promises of one chunk are settled one after the other, in the order
    of the chunk. *)

Module Machine.
Import Declaration GhanaAuditRunner.

Inductive Pc :=
| AtStart (declarations : list Declaration.t)
    (* the execution object exists; [filterDeclarations] comes next *)
| InSequential (rest : list Declaration.t)
    (* head of the loop of [executeSequential] *)
| Chunking
    (* inside a [chunkArray] that does not return *)
| InChunks (chunks : list (list Declaration.t))
    (* head of the loop of [executeParallel] *)
| InMap (pending : list Declaration.t)
        (settled : list (option (list AgentResult.t)))
        (chunks : list (list Declaration.t))
    (* the promises of the current chunk are being settled *)
| InForEach (results : list (option (list AgentResult.t)))
            (chunks : list (list Declaration.t))
    (* [results.forEach] of the current chunk *)
| Returned.

Definition State : Type := Pc * AuditExecutionResult.t.

Definition initialState (config : AuditExecutionConfig.t)
    (declarations : list Declaration.t) : State :=
  (AtStart declarations, AuditExecutionResult.initial config declarations).

Section Steps.
Variable clock : string → Declaration.t → Z.
Variable config : AuditExecutionConfig.t.

(** The next internal step; [None] once [executeAudit] has returned.
    [chunkArray] runs to its end within one step when it has one, which
    it has within as many iterations as the list has elements or not at
    all; otherwise the machine stays in [Chunking]. *)
Definition next (s : State) : option State :=
  let '(pc, execution) := s in
  match pc with
  | AtStart declarations =>
      match filterDeclarations declarations config with
      | None => Some (Returned, executionFailed execution)
      | Some filtered =>
          let execution :=
            AuditExecutionResult.setTotalDeclarations (length filtered)
              execution in
          let options := AuditExecutionConfig.executionOptions config in
          if ExecutionOptions.parallelExecution options
          then match chunkArray (S (length filtered)) filtered
                       (ExecutionOptions.maxConcurrency options) with
               | Some chunks => Some (InChunks chunks, execution)
               | None => Some (Chunking, execution)
               end
          else Some (InSequential filtered, execution)
      end
  | InSequential [] => Some (Returned, executionCompleted execution)
  | InSequential (declaration :: rest) =>
      Some (InSequential rest, sequentialStep clock config execution declaration)
  | Chunking => Some (Chunking, execution)
  | InChunks [] => Some (Returned, executionCompleted execution)
  | InChunks (chunk :: chunks) => Some (InMap chunk [] chunks, execution)
  | InMap [] settled chunks => Some (InForEach settled chunks, execution)
  | InMap (declaration :: pending) settled chunks =>
      let '(execution, result) := settle clock config declaration execution in
      Some (InMap pending (settled ++ [result]) chunks, execution)
  | InForEach [] chunks => Some (InChunks chunks, execution)
  | InForEach (result :: results) chunks =>
      Some (InForEach results chunks, mergeResult execution result)
  | Returned => None
  end.

(** No other code runs before the first suspension of [executeAudit]. *)
Definition started (pc : Pc) : bool :=
  match pc with
  | AtStart _ => false
  | _ => true
  end.

Inductive step : State → State → Prop :=
| step_internal s s' :
    next s = Some s' → step s s'
| step_cancel pc execution :
    started pc = true →
    step (pc, execution) (pc, fst (cancelExecution execution)).

Definition reachable (declarations : list Declaration.t) (s : State) : Prop :=
  rtc step (initialState config declarations) s.

(** Runs of [executeAudit] alone, without any call of [cancelExecution]. *)
Definition internal (s s' : State) : Prop := next s = Some s'.

End Steps.
End Machine.

(** ** The orchestrator: agent registry and agent performance *)

(** [initializeAgents]: the registry, in insertion order. *)
Definition initializeAgents : list (string * GhanaAuditRunner.Agent) :=
  [ ("ecowas-origin", ECOWASOriginVerificationAgent.analyze);
    ("petroleum-atg", PetroleumATGAnalyzer.analyze);
    ("tax-compliance", GhanaTaxComplianceAgent.analyze);
    ("tsa-reconciliation", TSAPaymentReconciliationAgent.analyze) ].


Module AgentPerformance.
Record t := mk {
  totalProcessed : nat;
  violationsDetected : nat;
  averageConfidence : Q;
  averageProcessingTime : Q;
  accuracy : Q;
}.
End AgentPerformance.



(** ** Rule packs: removing a rule, simulating a pack *)

(** A JavaScript number where a division may have produced a value that
    is not finite. *)
Inductive JsNumber :=
| Finite (q : Q)
| Infinite (negative : bool)
| NaN.

(** [a / b] for finite [a] and a finite [b] that is not negative *)
Definition jsDivide (a b : Q) : JsNumber :=
  if Qeq_bool b 0
  then if Qeq_bool a 0 then NaN
       else Infinite (Qlt_bool a 0)
  else Finite (a / b).

(** [x < c] and [x > c] for a finite [c]; a comparison with [NaN] is
    false. *)
Definition jsLt (x : JsNumber) (c : Q) : bool :=
  match x with
  | Finite q => Qlt_bool q c
  | Infinite negative => negative
  | NaN => false
  end.

Definition jsGt (x : JsNumber) (c : Q) : bool :=
  match x with
  | Finite q => Qgt_bool q c
  | Infinite negative => negb negative
  | NaN => false
  end.

(** [p + r > 0 ? (2 * p * r) / (p + r) : 0] for a finite [p].  With an
    infinite [r] the sum is infinite of the same sign, and the quotient of
    two infinite numbers is [NaN]. *)
Definition jsF1 (p : Q) (r : JsNumber) : JsNumber :=
  match r with
  | Finite r =>
      if Qgt_bool (p + r) 0 then Finite (2 * p * r / (p + r)) else Finite 0
  | Infinite negative => if negative then Finite 0 else NaN
  | NaN => Finite 0
  end.

Module SimulationResult.
(** [sectoralPerformance], whose accuracy and recovery members are drawn
    from [Math.random()], and [processingTime], a wall-clock difference,
    are left out; no other member depends on them. *)
Record t := mk {
  rulePackId : string;
  totalDeclarations : nat;
  violationsDetected : nat;
  falsePositives : nat;
  accuracy : JsNumber;
  precision : Q;
  recall : JsNumber;
  f1Score : JsNumber;
  ghanaComplianceRate : JsNumber;
  recommendations : list string;
}.
End SimulationResult.

Module RulePackSimulation.
Import Declaration GhanaRulePackService.

(** [removeRuleFromPack] on the [rulePacks] map: the new map and the
    returned flag, or [None] for the throw on an unknown pack. *)
Definition removeRuleFromPack (rulePacks : gmap string RulePack.t)
    (rulePackId ruleId : string) : option (gmap string RulePack.t * bool) :=
  rulePack ← rulePacks !! rulePackId;
  let initialLength := length (RulePack.rules rulePack) in
  let rules :=
    List.filter (fun rule => negb (String.eqb (GhanaRule.id rule) ruleId))
      (RulePack.rules rulePack) in
  Some (<[rulePackId := RulePack.mk (RulePack.id rulePack)
                           (RulePack.isActive rulePack) rules]> rulePacks,
        (length rules <? initialLength)%nat).

(** The [rulePacks] map after [initializeDefaultRulePacks]. *)
Definition initializeDefaultRulePacks : gmap string RulePack.t :=
  <[RulePack.id defaultRulePack := defaultRulePack]> ∅.

Definition generateRecommendations (accuracy : JsNumber) (precision : Q)
    (recall : JsNumber) : list string :=
  (if jsLt accuracy 0.8
   then ["Consider adjusting rule thresholds to improve overall accuracy"]
   else [])
  ++ (if Qlt_bool precision 0.8
      then ["Review false positive patterns and refine rule criteria"]
      else [])
  ++ (if jsLt recall 0.7
      then ["Enhance rule coverage to capture more violations"]
      else [])
  ++ (if jsGt accuracy 0.9 && Qgt_bool precision 0.9
      then ["Rule pack is performing excellently - consider deployment to production"]
      else [])
  ++ ["Monitor sectoral performance and adjust focus area weights";
      "Regular validation with real-world data recommended"].

(** The local variables of the loop of [simulateRulePack]. *)
Record Tally := mkTally {
  tally_violationsDetected : nat;
  tally_falsePositives : nat;
}.

Section Simulation.
(** [random k] is what the call number [k] of [Math.random()] returns,
    counting from 0 within one call of [simulateRulePack]. *)
Variable random : nat → Q.

(** The loop over the test dataset.  [evaluateDeclaration] may throw,
    which rejects the simulation.  The loop draws one random number per
    detected violation, so the number of violations so far is the number
    of the next draw. *)
Fixpoint simulate_loop (rulePack : RulePack.t) (testDataset : list t)
    (tally : Tally) : option Tally :=
  match testDataset with
  | [] => Some tally
  | declaration :: rest =>
      evaluation ← evaluateDeclaration rulePack declaration;
      if hasViolation evaluation
      then
        let draw := random (tally_violationsDetected tally) in
        simulate_loop rulePack rest
          (mkTally (S (tally_violationsDetected tally))
             (if Qlt_bool draw 0.1
              then S (tally_falsePositives tally)
              else tally_falsePositives tally))
      else simulate_loop rulePack rest tally
  end.

(** [simulateRulePack].  The quotients of counts are exact here; what is
    stated of them are bounds and comparisons, which the rounding of a
    division keeps. *)
Definition simulateRulePack (rulePacks : gmap string RulePack.t)
    (rulePackId : string) (testDataset : list t)
    : option SimulationResult.t :=
  rulePack ← rulePacks !! rulePackId;
  tally ← simulate_loop rulePack testDataset (mkTally 0 0);
  let violationsDetected := tally_violationsDetected tally in
  let falsePositives := tally_falsePositives tally in
  let ghanaComplianceViolations := 0%nat in
  let totalDeclarations := length testDataset in
  let num (n : nat) : Q := inject_Z (Z.of_nat n) in
  let difference (a b : nat) : Q := (num a - num b)%Q in
  let accuracy :=
    jsDivide (difference violationsDetected falsePositives)
             (num totalDeclarations) in
  let precision :=
    if (0 <? violationsDetected)%nat
    then (difference violationsDetected falsePositives / num violationsDetected)%Q
    else 0%Q in
  let recall := jsDivide (num violationsDetected) (num totalDeclarations) in
  let f1Score := jsF1 precision recall in
  let ghanaComplianceRate :=
    jsDivide (difference totalDeclarations ghanaComplianceViolations)
             (num totalDeclarations) in
  Some (SimulationResult.mk rulePackId totalDeclarations violationsDetected
          falsePositives accuracy precision recall f1Score
          ghanaComplianceRate
          (generateRecommendations accuracy precision recall)).
End Simulation.
End RulePackSimulation.

(** ** The execution queue and the event history of [ProductionAuditEngine] *)

Inductive Priority := priority_low | priority_medium | priority_high.

#[global] Instance Priority_eq_dec : EqDecision Priority.
Proof. solve_decision. Defined.

Inductive EventType :=
| event_started | event_progress | event_completed | event_failed
| event_cancelled.

#[global] Instance EventType_eq_dec : EqDecision EventType.
Proof. solve_decision. Defined.

(** A queue item; its [timestamp] and [attempts] are never read. *)
Module QueueItem.
Record t := mk {
  executionId : string;
  config : AuditExecutionConfig.t;
  declarations : list Declaration.t;
  priority : Priority;
}.
End QueueItem.

(** An audit event; [timestamp] in milliseconds.  The [data] member is
    passed on to the listeners and not read by the engine. *)
Module AuditEvent.
Record t := mk {
  id : string;
  executionId : string;
  type : EventType;
  timestamp : Z;
}.
End AuditEvent.

(** [array.findIndex(f)], with [None] for [-1] *)
Fixpoint findIndex {T} (f : T → bool) (array : list T) : option nat :=
  match array with
  | [] => None
  | x :: rest => if f x then Some 0%nat else S <$> findIndex f rest
  end.

Module ProductionAuditEngine.

(** [queueExecution], on the [executionQueue] array. *)
Definition queueExecution (queueItem : QueueItem.t)
    (executionQueue : list QueueItem.t) : list QueueItem.t :=
  match QueueItem.priority queueItem with
  | priority_high => queueItem :: executionQueue
  | priority_medium =>
      match findIndex (fun item =>
              bool_decide (QueueItem.priority item = priority_low))
              executionQueue with
      | None => executionQueue ++ [queueItem]
      | Some insertIndex =>
          take insertIndex executionQueue
          ++ queueItem :: drop insertIndex executionQueue
      end
  | priority_low => executionQueue ++ [queueItem]
  end.

Definition maxConcurrent : nat := 5.

(** The head of [processQueue]: the item it takes off the queue, if it
    takes one, and the queue it leaves. *)
Definition processQueue_shift (activeExecutions : nat)
    (executionQueue : list QueueItem.t)
    : option QueueItem.t * list QueueItem.t :=
  match executionQueue with
  | [] => (None, executionQueue)
  | queueItem :: rest =>
      if (maxConcurrent <=? activeExecutions)%nat
      then (None, executionQueue)
      else (Some queueItem, rest)
  end.

(** The first half of [cancelExecution]: a pending execution is taken
    out of the queue.  [None] when it is not in the queue and the call
    goes on to the audit runner. *)
Definition cancelQueued (executionId : string)
    (executionQueue : list QueueItem.t) : option (list QueueItem.t) :=
  queueIndex ←
    findIndex (fun item => String.eqb (QueueItem.executionId item) executionId)
      executionQueue;
  Some (delete queueIndex executionQueue).

(** [emitAuditEvent], on the [eventHistory] array. *)
Definition emitAuditEvent (event : AuditEvent.t)
    (eventHistory : list AuditEvent.t) : list AuditEvent.t :=
  let eventHistory := eventHistory ++ [event] in
  if (1000 <? length eventHistory)%nat
  then tail eventHistory
  else eventHistory.

(** [cleanupOldEvents] at the time [now]. *)
Definition cleanupOldEvents (now : Z) (eventHistory : list AuditEvent.t)
    : list AuditEvent.t :=
  let cutoffTime := (now - 24 * 60 * 60 * 1000)%Z in
  List.filter (fun event => (cutoffTime <? AuditEvent.timestamp event)%Z)
    eventHistory.

(** [getExecutionHistory(limit)]: [eventHistory.slice(-limit)] *)
Definition getExecutionHistory (limit : Z) (eventHistory : list AuditEvent.t)
    : list AuditEvent.t :=
  slice eventHistory (- limit) (Z.of_nat (length eventHistory)).

End ProductionAuditEngine.

(** ** Evidence validation: [GhanaEvidenceValidationService] *)

Inductive IssueType := issue_error | issue_warning | issue_info.

#[global] Instance IssueType_eq_dec : EqDecision IssueType.
Proof. solve_decision. Defined.

(** An issue; its [message] is free text. *)
Module Issue.
Record t := mk {
  type : IssueType;
  field : string;
  severity : Severity;
}.
End Issue.

(** The document types of [EvidenceDocumentSchema]. *)
Inductive DocumentType :=
| commercial_invoice | bill_of_lading | certificate_of_origin | packing_list
| insurance_certificate | import_permit | tax_clearance | atg_certificate
| pre_arrival_assessment | customs_declaration | delivery_note
| quality_certificate.

(** What the validators read of the data extracted from a document.  A
    member that is only tested for truthiness is a [bool]. *)
Module ExtractedData.
Record t := mk {
  declarantTin : option string;
  value : option Q;
  taxes : option TaxBreakdown.t;
  originCountry : option string;
  certificateNumber : bool;
  issuingAuthority : option string;
  ecowasProtocol : bool;
  portOfLoading : option string;
  portOfDischarge : option string;
  vesselName : bool;
  flightNumber : bool;
  grossWeight : option Q;
  tin : option string;
  clearanceNumber : bool;
  atgNumber : bool;
  productType : option string;
  volume : option Q;
  documentNumber : bool;
  issueDate : bool;
}.

Definition empty : t :=
  {| declarantTin := None;
     value := None;
     taxes := None;
     originCountry := None;
     certificateNumber := false;
     issuingAuthority := None;
     ecowasProtocol := false;
     portOfLoading := None;
     portOfDischarge := None;
     vesselName := false;
     flightNumber := false;
     grossWeight := None;
     tin := None;
     clearanceNumber := false;
     atgNumber := false;
     productType := None;
     volume := None;
     documentNumber := false;
     issueDate := false |}.
End ExtractedData.

(** What the validators read of the declaration they are given.
    [ecowasOrigin] is compared with [!==], so a member that is missing
    or not a boolean ([None]) differs from both booleans. *)
Module DeclarationData.
Record t := mk {
  value : option Q;
  weight : option Q;
  ecowasOrigin : option bool;
}.
End DeclarationData.

Module EvidenceDocument.
Record t := mk {
  id : string;
  type : DocumentType;
  extractedData : option ExtractedData.t;
}.
End EvidenceDocument.

Module ComplianceFlags.
Record t := mk {
  tinValid : bool;
  portValid : bool;
  taxRatesValid : bool;
  ecowasCompliance : bool;
  sectorRequirements : bool;
}.

Definition allTrue : t := mk true true true true true.
End ComplianceFlags.

Module ValidationResult.
Record t := mk {
  documentId : string;
  isValid : bool;
  validationScore : Z;
  issues : list Issue.t;
  ghanaCompliance : ComplianceFlags.t;
  recommendations : list string;
  riskLevel : Severity;
  processingTime : Z;
}.
End ValidationResult.

Module EvidencePackage.
Record t := mk {
  declarationId : string;
  documents : list EvidenceDocument.t;
  validationResults : list ValidationResult.t;
  overallScore : Q;
  overallCompliance : bool;
}.
End EvidencePackage.

Module GhanaEvidenceValidationService.
Import ExtractedData.

Definition ghanaPorts : list string :=
  ["TEMA"; "TAKORADI"; "KOTOKA"; "KUMASI"; "TAMALE"].

(** The two arrays a validator writes to. *)
Record Validation := mkValidation {
  v_issues : list Issue.t;
  v_ghanaCompliance : ComplianceFlags.t;
}.

(** [issues.push(...)] *)
Definition push (type : IssueType) (field : string) (severity : Severity)
    (v : Validation) : Validation :=
  mkValidation (v_issues v ++ [Issue.mk type field severity])
               (v_ghanaCompliance v).

Definition clearTinValid (v : Validation) : Validation :=
  let c := v_ghanaCompliance v in
  mkValidation (v_issues v)
    (ComplianceFlags.mk false (ComplianceFlags.portValid c)
       (ComplianceFlags.taxRatesValid c) (ComplianceFlags.ecowasCompliance c)
       (ComplianceFlags.sectorRequirements c)).

Definition clearPortValid (v : Validation) : Validation :=
  let c := v_ghanaCompliance v in
  mkValidation (v_issues v)
    (ComplianceFlags.mk (ComplianceFlags.tinValid c) false
       (ComplianceFlags.taxRatesValid c) (ComplianceFlags.ecowasCompliance c)
       (ComplianceFlags.sectorRequirements c)).

Definition clearTaxRatesValid (v : Validation) : Validation :=
  let c := v_ghanaCompliance v in
  mkValidation (v_issues v)
    (ComplianceFlags.mk (ComplianceFlags.tinValid c)
       (ComplianceFlags.portValid c) false
       (ComplianceFlags.ecowasCompliance c)
       (ComplianceFlags.sectorRequirements c)).

Definition clearEcowasCompliance (v : Validation) : Validation :=
  let c := v_ghanaCompliance v in
  mkValidation (v_issues v)
    (ComplianceFlags.mk (ComplianceFlags.tinValid c)
       (ComplianceFlags.portValid c) (ComplianceFlags.taxRatesValid c) false
       (ComplianceFlags.sectorRequirements c)).

(** [validateTIN(tin).isValid]; the message is free text. *)
Definition validateTIN (tin : string) : bool :=
  if String.eqb tin "" then false
  else prefixThenDigits "TIN" 7 10 tin.

(** [Math.abs(actual - expected) > tolerance] where [actual] may be
    missing: the difference is then [NaN] and the comparison false. *)
Definition offBy (actual : option Q) (expected tolerance : Q) : bool :=
  match actual with
  | Some actual => Qgt_bool (Qabs (actual - expected)) tolerance
  | None => false
  end.

(** [declarationData && declarationData.value] and the like: the number,
    when the declaration is given and the member is truthy. *)
Definition declared (member : DeclarationData.t → option Q)
    (declarationData : option DeclarationData.t) : option Q :=
  d ← declarationData;
  x ← member d;
  if truthyNum x then Some x else None.

(** The same for a member of the extracted data. *)
Definition extracted (x : option Q) : option Q :=
  match x with
  | Some q => if truthyNum q then Some q else None
  | None => None
  end.

Section Validators.
(** [String.prototype.toLowerCase] and [String.prototype.toUpperCase] *)
Variable toLowerCase toUpperCase : string → string.

(** [validateGhanaPort(port).isValid].  The result of [toUpperCase]
    holds no lower-case letter, so the lookup in [GHANA_PORTS] can only
    hit one of its own five keys. *)
Definition validateGhanaPort (port : string) : bool :=
  if String.eqb port "" then false
  else includes ghanaPorts (toUpperCase port).

Definition validateCommercialInvoice (data : t)
    (declarationData : option DeclarationData.t) (v : Validation)
    : Validation :=
  let v :=
    match declarantTin data with
    | Some tin =>
        if negb (String.eqb tin "")
        then if negb (validateTIN tin)
             then clearTinValid (push issue_error "declarantTin" high v)
             else v
        else clearTinValid (push issue_error "declarantTin" high v)
    | None => clearTinValid (push issue_error "declarantTin" high v)
    end in
  let v :=
    match extracted (value data), taxes data with
    | Some value, Some taxes =>
        let expectedVAT := (value * (15.0 / 100))%Q in
        let expectedGETFund := (value * (2.5 / 100))%Q in
        let expectedNHIL := (value * (2.5 / 100))%Q in
        let expectedCOVID := (value * (1.0 / 100))%Q in
        let vatTolerance := (expectedVAT * 0.05)%Q in
        let getFundTolerance := (expectedGETFund * 0.05)%Q in
        let nhilTolerance := (expectedNHIL * 0.05)%Q in
        let covidTolerance := (expectedCOVID * 0.05)%Q in
        let v :=
          if offBy (TaxBreakdown.vat taxes) expectedVAT vatTolerance
          then clearTaxRatesValid (push issue_error "taxes.vat" high v)
          else v in
        let v :=
          if offBy (TaxBreakdown.getFund taxes) expectedGETFund getFundTolerance
          then clearTaxRatesValid (push issue_error "taxes.getFund" medium v)
          else v in
        let v :=
          if offBy (TaxBreakdown.nhil taxes) expectedNHIL nhilTolerance
          then clearTaxRatesValid (push issue_error "taxes.nhil" medium v)
          else v in
        if offBy (TaxBreakdown.covid taxes) expectedCOVID covidTolerance
        then push issue_warning "taxes.covid" low v
        else v
    | _, _ => push issue_warning "taxes" medium v
    end in
  match extracted (value data), declared DeclarationData.value declarationData with
  | Some value, Some declaredValue =>
      let valueTolerance := (declaredValue * 0.1)%Q in
      if Qgt_bool (Qabs (value - declaredValue)) valueTolerance
      then push issue_error "value" high v
      else v
  | _, _ => v
  end.

Definition validAuthorities : list string :=
  ["Ministry of Trade and Industry"; "Chamber of Commerce";
   "Export Promotion Authority"].

Definition validateCertificateOfOrigin (data : t)
    (declarationData : option DeclarationData.t) (v : Validation)
    : Validation :=
  let v :=
    match originCountry data, declarationData with
    | Some country, Some declaration =>
        if String.eqb country "" then v
        else
          let ecowasCountries :=
            ["NG"; "BJ"; "CI"; "BF"; "ML"; "NE"; "SN"; "SL"; "TG"] in
          let isEcowaSOrigin := includes ecowasCountries country in
          let v :=
            if negb (bool_decide (DeclarationData.ecowasOrigin declaration
                                  = Some isEcowaSOrigin))
            then clearEcowasCompliance
                   (push issue_error "originCountry" critical v)
            else v in
          if isEcowaSOrigin
          then
            let v :=
              if negb (certificateNumber data)
                 || negb (truthyString (issuingAuthority data))
              then push issue_error "certificate" high v
              else v in
            if negb (ecowasProtocol data)
            then push issue_warning "ecowasProtocol" medium v
            else v
          else v
    | _, _ => v
    end in
  match issuingAuthority data with
  | Some authority =>
      if String.eqb authority "" then v
      else if negb (some (fun auth =>
                      strIncludes (toLowerCase authority) (toLowerCase auth))
                    validAuthorities)
      then push issue_warning "issuingAuthority" medium v
      else v
  | None => v
  end.

Definition validateBillOfLading (data : t)
    (declarationData : option DeclarationData.t) (v : Validation)
    : Validation :=
  let v :=
    if truthyString (portOfLoading data) || truthyString (portOfDischarge data)
    then
      match orString (portOfDischarge data) (portOfLoading data) with
      | Some port =>
          if negb (validateGhanaPort port)
          then clearPortValid (push issue_error "port" high v)
          else v
      | None => v
      end
    else v in
  let v :=
    if negb (vesselName data) && negb (flightNumber data)
    then push issue_error "transport" high v
    else v in
  match extracted (grossWeight data),
        declared DeclarationData.weight declarationData with
  | Some grossWeight, Some declaredWeight =>
      let weightTolerance := (declaredWeight * 0.05)%Q in
      if Qgt_bool (Qabs (grossWeight - declaredWeight)) weightTolerance
      then push issue_warning "grossWeight" medium v
      else v
  | _, _ => v
  end.

Definition validateTaxClearance (data : t)
    (declarationData : option DeclarationData.t) (v : Validation)
    : Validation :=
  let v :=
    match tin data with
    | Some tin =>
        if negb (String.eqb tin "") && negb (validateTIN tin)
        then clearTinValid (push issue_error "tin" critical v)
        else v
    | None => v
    end in
  let v :=
    if negb (clearanceNumber data)
    then push issue_error "clearanceNumber" high v
    else v in
  if negb (bool_decide (issuingAuthority data = Some "Ghana Revenue Authority"))
  then push issue_error "issuingAuthority" critical v
  else v.

Definition validateATGCertificate (data : t)
    (declarationData : option DeclarationData.t) (v : Validation)
    : Validation :=
  let v :=
    if negb (atgNumber data)
    then push issue_error "atgNumber" high v
    else v in
  let v :=
    if match productType data with
       | Some productType =>
           String.eqb productType ""
           || negb (strIncludes (toLowerCase productType) "petroleum")
       | None => true
       end
    then push issue_warning "productType" medium v
    else v in
  match extracted (volume data),
        declared DeclarationData.weight declarationData with
  | Some volume, Some declaredWeight =>
      let expectedWeight := (volume * 0.85)%Q in
      let weightTolerance := (expectedWeight * 0.1)%Q in
      if Qgt_bool (Qabs (declaredWeight - expectedWeight)) weightTolerance
      then push issue_warning "volume" medium v
      else v
  | _, _ => v
  end.

Definition validateGenericDocument (data : t)
    (declarationData : option DeclarationData.t) (v : Validation)
    : Validation :=
  let v :=
    if negb (documentNumber data)
    then push issue_warning "documentNumber" low v
    else v in
  if negb (issueDate data)
  then push issue_warning "issueDate" low v
  else v.

Definition penalty (severity : Severity) : Z :=
  match severity with
  | critical => 25
  | high => 15
  | medium => 10
  | low => 5
  end.

Definition calculateValidationScore (issues : list Issue.t) : Z :=
  let score :=
    fold_left (fun score issue => (score - penalty (Issue.severity issue))%Z)
      issues 100%Z in
  Z.max 0 score.

Definition determineRiskLevel (issues : list Issue.t) (score : Z) : Severity :=
  let hasCritical :=
    some (fun issue => bool_decide (Issue.severity issue = critical)) issues in
  let hasHigh :=
    some (fun issue => bool_decide (Issue.severity issue = high)) issues in
  if hasCritical || (score <? 40)%Z then critical
  else if hasHigh || (score <? 60)%Z then high
  else if (score <? 80)%Z then medium
  else low.

Definition generateRecommendations (issues : list Issue.t)
    (documentType : DocumentType) : list string :=
  match documentType with
  | commercial_invoice =>
      ["Ensure all Ghana taxes (VAT, GETFund, NHIL, COVID) are correctly calculated";
       "Verify declarant TIN format: TIN followed by 7-10 digits"]
  | certificate_of_origin =>
      ["For ECOWAS origin, ensure proper ECOWAS protocol compliance";
       "Verify issuing authority is recognized"]
  | bill_of_lading =>
      ["Confirm port of entry is a valid Ghana port";
       "Ensure vessel/flight information is complete"]
  | tax_clearance =>
      ["Tax clearance must be issued by Ghana Revenue Authority";
       "Verify TIN matches across all documents"]
  | atg_certificate =>
      ["ATG certificate required for petroleum products";
       "Verify volume-weight calculations"]
  | _ => []
  end
  ++ (if some (fun issue => bool_decide (Issue.type issue = issue_error)) issues
      then ["Address all error-level issues before submission"]
      else [])
  ++ (if some (fun issue => bool_decide (Issue.severity issue = critical)) issues
      then ["Critical issues found - immediate attention required"]
      else [])
  ++ ["Consider digital verification for faster processing";
      "Maintain consistent information across all documents"].

(** [extractDocumentData]: the stand-in for the extraction service. *)
Definition extractDocumentData (document : EvidenceDocument.t) : t :=
  match EvidenceDocument.type document with
  | commercial_invoice =>
      {| declarantTin := Some "TIN1234567";
         value := Some 100000%Q;
         taxes := Some (TaxBreakdown.mk (Some 15000%Q) (Some 2500%Q)
                         (Some 2500%Q) (Some 1000%Q) None None);
         originCountry := None;
         certificateNumber := false;
         issuingAuthority := None;
         ecowasProtocol := false;
         portOfLoading := None;
         portOfDischarge := None;
         vesselName := false;
         flightNumber := false;
         grossWeight := None;
         tin := None;
         clearanceNumber := false;
         atgNumber := false;
         productType := None;
         volume := None;
         documentNumber := false;
         issueDate := false |}
  | certificate_of_origin =>
      {| declarantTin := None;
         value := None;
         taxes := None;
         originCountry := Some "NG";
         certificateNumber := true;
         issuingAuthority := Some "Ministry of Trade and Industry";
         ecowasProtocol := true;
         portOfLoading := None;
         portOfDischarge := None;
         vesselName := false;
         flightNumber := false;
         grossWeight := None;
         tin := None;
         clearanceNumber := false;
         atgNumber := false;
         productType := None;
         volume := None;
         documentNumber := false;
         issueDate := false |}
  | bill_of_lading =>
      {| declarantTin := None;
         value := None;
         taxes := None;
         originCountry := None;
         certificateNumber := false;
         issuingAuthority := None;
         ecowasProtocol := false;
         portOfLoading := None;
         portOfDischarge := Some "TEMA";
         vesselName := true;
         flightNumber := false;
         grossWeight := Some 5000%Q;
         tin := None;
         clearanceNumber := false;
         atgNumber := false;
         productType := None;
         volume := None;
         documentNumber := false;
         issueDate := false |}
  | tax_clearance =>
      {| declarantTin := None;
         value := None;
         taxes := None;
         originCountry := None;
         certificateNumber := false;
         issuingAuthority := Some "Ghana Revenue Authority";
         ecowasProtocol := false;
         portOfLoading := None;
         portOfDischarge := None;
         vesselName := false;
         flightNumber := false;
         grossWeight := None;
         tin := Some "TIN1234567";
         clearanceNumber := true;
         atgNumber := false;
         productType := None;
         volume := None;
         documentNumber := false;
         issueDate := false |}
  | atg_certificate =>
      {| declarantTin := None;
         value := None;
         taxes := None;
         originCountry := None;
         certificateNumber := false;
         issuingAuthority := None;
         ecowasProtocol := false;
         portOfLoading := None;
         portOfDischarge := None;
         vesselName := false;
         flightNumber := false;
         grossWeight := None;
         tin := None;
         clearanceNumber := false;
         atgNumber := true;
         productType := Some "Petroleum Products";
         volume := Some 5882%Q;
         documentNumber := false;
         issueDate := false |}
  | _ =>
      {| declarantTin := None;
         value := None;
         taxes := None;
         originCountry := None;
         certificateNumber := false;
         issuingAuthority := None;
         ecowasProtocol := false;
         portOfLoading := None;
         portOfDischarge := None;
         vesselName := false;
         flightNumber := false;
         grossWeight := None;
         tin := None;
         clearanceNumber := false;
         atgNumber := false;
         productType := None;
         volume := None;
         documentNumber := true;
         issueDate := true |}
  end.

Definition validateDocument (elapsed : Z) (document : EvidenceDocument.t)
    (declarationData : option DeclarationData.t) : ValidationResult.t :=
  let v0 := mkValidation [] ComplianceFlags.allTrue in
  let extractedData :=
    match EvidenceDocument.extractedData document with
    | Some data => data
    | None => extractDocumentData document
    end in
  let v :=
    match EvidenceDocument.type document with
    | commercial_invoice =>
        validateCommercialInvoice extractedData declarationData v0
    | certificate_of_origin =>
        validateCertificateOfOrigin extractedData declarationData v0
    | bill_of_lading => validateBillOfLading extractedData declarationData v0
    | tax_clearance => validateTaxClearance extractedData declarationData v0
    | atg_certificate =>
        validateATGCertificate extractedData declarationData v0
    | _ => validateGenericDocument extractedData declarationData v0
    end in
  let issues := v_issues v in
  let validationScore := calculateValidationScore issues in
  let isValid :=
    (70 <=? validationScore)%Z
    && negb (some (fun issue => bool_decide (Issue.type issue = issue_error))
               issues) in
  let riskLevel := determineRiskLevel issues validationScore in
  let recommendations :=
    generateRecommendations issues (EvidenceDocument.type document) in
  ValidationResult.mk (EvidenceDocument.id document) isValid validationScore
    issues (v_ghanaCompliance v) recommendations riskLevel elapsed.

(** The local variables of the loop of [validateEvidencePackage]. *)
Record PackageTally := mkPackageTally {
  p_validationResults : list ValidationResult.t;
  p_totalScore : Z;
  p_allCompliant : bool;
}.

(** [validateEvidencePackage]; [clock] gives the duration measured for
    each document. *)
Definition validateEvidencePackage (clock : EvidenceDocument.t → Z)
    (declarationId : string) (documents : list EvidenceDocument.t)
    (declarationData : option DeclarationData.t) : EvidencePackage.t :=
  let tally :=
    fold_left (fun tally document =>
      let result := validateDocument (clock document) document declarationData in
      mkPackageTally
        (p_validationResults tally ++ [result])
        (p_totalScore tally + ValidationResult.validationScore result)%Z
        (if negb (ValidationResult.isValid result)
            || bool_decide (ValidationResult.riskLevel result = critical)
         then false else p_allCompliant tally))
      documents (mkPackageTally [] 0 true) in
  let overallScore :=
    if (0 <? length documents)%nat
    then (inject_Z (p_totalScore tally)
          / inject_Z (Z.of_nat (length documents)))%Q
    else 0%Q in
  EvidencePackage.mk declarationId documents (p_validationResults tally)
    overallScore (p_allCompliant tally && Qle_bool 70 overallScore).

End Validators.

(** Case conversion restricted to the letters of ASCII, on which it
    agrees with the library functions. *)
Definition asciiLower (c : Ascii.ascii) : Ascii.ascii :=
  let n := Ascii.nat_of_ascii c in
  if (65 <=? n)%nat && (n <=? 90)%nat then Ascii.ascii_of_nat (n + 32) else c.

Definition asciiUpper (c : Ascii.ascii) : Ascii.ascii :=
  let n := Ascii.nat_of_ascii c in
  if (97 <=? n)%nat && (n <=? 122)%nat then Ascii.ascii_of_nat (n - 32) else c.

Fixpoint mapString (f : Ascii.ascii → Ascii.ascii) (s : string) : string :=
  match s with
  | EmptyString => EmptyString
  | String c rest => String (f c) (mapString f rest)
  end.

Definition asciiToLowerCase : string → string := mapString asciiLower.
Definition asciiToUpperCase : string → string := mapString asciiUpper.

End GhanaEvidenceValidationService.

(** ** [calculateTotalTaxLiability] on doubles

    The rates 0.15, 0.025, 0.01 and 0.05 are not binary fractions, so
    every product and every partial sum below is rounded.  This module
    keeps the numbers of the source, IEEE-754 binary64 with rounding to
    nearest even, for the one function whose result is compared with a
    closed formula for equality.  A decimal literal denotes the nearest
    double, in the source as here. *)
Module Binary64.
Import PrimFloat.
#[local] Set Warnings "-inexact-float".
#[local] Open Scope float_scope.

(** The stated breakdown of a declaration, which the function never
    reads. *)
Module TaxBreakdown.
Record t := mk {
  vat : option float;
  getFund : option float;
  nhil : option float;
  covid : option float;
  importDuty : option float;
  excise : option float;
}.
End TaxBreakdown.

(** What the tax agent can read of a declaration when it computes the
    liability.  A missing [value] is [NaN], which is what
    [undefined * 0.15] evaluates to. *)
Module Declaration.
Record t := mk {
  value : float;
  ecowasOrigin : bool;
  taxes : option TaxBreakdown.t;
}.
End Declaration.

(** [calculateTotalTaxLiability]: [Object.values(taxes).reduce(...)] adds
    the five members in the order in which the object literal lists
    them, starting from 0. *)
Definition calculateTotalTaxLiability (declaration : Declaration.t) : float :=
  let value := Declaration.value declaration in
  let taxes :=
    [ value * 0.15;
      value * 0.025;
      value * 0.025;
      value * 0.01;
      if Declaration.ecowasOrigin declaration then 0 else value * 0.05 ] in
  fold_left (fun sum tax => sum + tax) taxes 0.

End Binary64.

(** * Definitions used in the statements *)

(** ** Sample data

    [mockDeclaration] is the declaration that [getTestData] of the API
    route returns; the others vary single properties of it. *)

Definition mockDeclaration : Declaration.t :=
  {| Declaration.id := Some "DECL-001";
     Declaration.declarationId := Some "D20241118001";
     Declaration.shipmentId := None;
     Declaration.hsCode := Some "27101990";
     Declaration.originCountry := "NG";
     Declaration.destinationCountry := "GH";
     Declaration.transitCountries := None;
     Declaration.value := 100000;
     Declaration.weight := Some 5000%Q;
     Declaration.volume := None;
     Declaration.date := 1731888000000;
     Declaration.sector := "petroleum";
     Declaration.riskScore := Some 75%Q;
     Declaration.ecowasOrigin := true;
     Declaration.documents := None;
     Declaration.atgApplicable := true;
     Declaration.atgCertificate := false;
     Declaration.atgReadings := None;
     Declaration.qualityCertificate := false;
     Declaration.taxes := None;
     Declaration.declarantTin := Some "TIN1234567";
     Declaration.exemptions := None;
     Declaration.paymentStatus := None;
     Declaration.paymentMethod := None;
     Declaration.tsaReference := None;
     Declaration.paymentConfirmation := None;
     Declaration.currency := Some "USD";
     Declaration.exchangeRate := None |}.

(** [{ ...d, hsCode, originCountry, ecowasOrigin, documents }] *)
Definition withOrigin (hsCode : option string) (originCountry : string)
    (ecowasOrigin : bool) (documents : option (list string))
    (d : Declaration.t) : Declaration.t :=
  {| Declaration.id := Declaration.id d;
     Declaration.declarationId := Declaration.declarationId d;
     Declaration.shipmentId := Declaration.shipmentId d;
     Declaration.hsCode := hsCode;
     Declaration.originCountry := originCountry;
     Declaration.destinationCountry := Declaration.destinationCountry d;
     Declaration.transitCountries := Declaration.transitCountries d;
     Declaration.value := Declaration.value d;
     Declaration.weight := Declaration.weight d;
     Declaration.volume := Declaration.volume d;
     Declaration.date := Declaration.date d;
     Declaration.sector := Declaration.sector d;
     Declaration.riskScore := Declaration.riskScore d;
     Declaration.ecowasOrigin := ecowasOrigin;
     Declaration.documents := documents;
     Declaration.atgApplicable := Declaration.atgApplicable d;
     Declaration.atgCertificate := Declaration.atgCertificate d;
     Declaration.atgReadings := Declaration.atgReadings d;
     Declaration.qualityCertificate := Declaration.qualityCertificate d;
     Declaration.taxes := Declaration.taxes d;
     Declaration.declarantTin := Declaration.declarantTin d;
     Declaration.exemptions := Declaration.exemptions d;
     Declaration.paymentStatus := Declaration.paymentStatus d;
     Declaration.paymentMethod := Declaration.paymentMethod d;
     Declaration.tsaReference := Declaration.tsaReference d;
     Declaration.paymentConfirmation := Declaration.paymentConfirmation d;
     Declaration.currency := Declaration.currency d;
     Declaration.exchangeRate := Declaration.exchangeRate d |}.

(** [{ ...d, taxes }] *)
Definition withTaxes (taxes : option TaxBreakdown.t) (d : Declaration.t)
    : Declaration.t :=
  {| Declaration.id := Declaration.id d;
     Declaration.declarationId := Declaration.declarationId d;
     Declaration.shipmentId := Declaration.shipmentId d;
     Declaration.hsCode := Declaration.hsCode d;
     Declaration.originCountry := Declaration.originCountry d;
     Declaration.destinationCountry := Declaration.destinationCountry d;
     Declaration.transitCountries := Declaration.transitCountries d;
     Declaration.value := Declaration.value d;
     Declaration.weight := Declaration.weight d;
     Declaration.volume := Declaration.volume d;
     Declaration.date := Declaration.date d;
     Declaration.sector := Declaration.sector d;
     Declaration.riskScore := Declaration.riskScore d;
     Declaration.ecowasOrigin := Declaration.ecowasOrigin d;
     Declaration.documents := Declaration.documents d;
     Declaration.atgApplicable := Declaration.atgApplicable d;
     Declaration.atgCertificate := Declaration.atgCertificate d;
     Declaration.atgReadings := Declaration.atgReadings d;
     Declaration.qualityCertificate := Declaration.qualityCertificate d;
     Declaration.taxes := taxes;
     Declaration.declarantTin := Declaration.declarantTin d;
     Declaration.exemptions := Declaration.exemptions d;
     Declaration.paymentStatus := Declaration.paymentStatus d;
     Declaration.paymentMethod := Declaration.paymentMethod d;
     Declaration.tsaReference := Declaration.tsaReference d;
     Declaration.paymentConfirmation := Declaration.paymentConfirmation d;
     Declaration.currency := Declaration.currency d;
     Declaration.exchangeRate := Declaration.exchangeRate d |}.

(** The second scenario of the specification: Chinese goods of heading
    2710 declared with an ECOWAS origin. *)
Definition chineseOrigin : Declaration.t :=
  withOrigin (Some "27101990") "CN" true None mockDeclaration.

(** Nigerian cotton, once with an ECOWAS origin claim and no documents,
    once without the claim and with an invoice as its only document. *)
Definition nigerianCotton : Declaration.t :=
  withOrigin (Some "52010000") "NG" true None mockDeclaration.

Definition invoicedCotton : Declaration.t :=
  withOrigin (Some "52010000") "NG" false (Some ["invoice"]) mockDeclaration.

(** The first scenario of the specification: 5882 litres declared, 5000
    litres read by the gauge. *)
Definition gaugedPetroleum : Declaration.t :=
  {| Declaration.id := Some "DECL-004";
     Declaration.declarationId := Some "D20241118004";
     Declaration.shipmentId := None;
     Declaration.hsCode := Some "27101990";
     Declaration.originCountry := "NG";
     Declaration.destinationCountry := "GH";
     Declaration.transitCountries := None;
     Declaration.value := 100000;
     Declaration.weight := None;
     Declaration.volume := Some 5882%Q;
     Declaration.date := 1731888000000;
     Declaration.sector := "petroleum";
     Declaration.riskScore := None;
     Declaration.ecowasOrigin := true;
     Declaration.documents := None;
     Declaration.atgApplicable := true;
     Declaration.atgCertificate := false;
     Declaration.atgReadings := Some (ATGReadings.mk 5000);
     Declaration.qualityCertificate := false;
     Declaration.taxes := None;
     Declaration.declarantTin := None;
     Declaration.exemptions := None;
     Declaration.paymentStatus := None;
     Declaration.paymentMethod := None;
     Declaration.tsaReference := None;
     Declaration.paymentConfirmation := None;
     Declaration.currency := None;
     Declaration.exchangeRate := None |}.

(** A declaration that lost its HS code on the way in. *)
Definition noHsCode : Declaration.t :=
  withOrigin None "CN" true None mockDeclaration.

(** A vehicle of heading 8703, worth 30000, declared without an ECOWAS
    origin claim. *)
Definition importedCar : Declaration.t :=
  {| Declaration.id := Some "DECL-002";
     Declaration.declarationId := Some "D20241118002";
     Declaration.shipmentId := None;
     Declaration.hsCode := Some "87032100";
     Declaration.originCountry := "JP";
     Declaration.destinationCountry := "GH";
     Declaration.transitCountries := None;
     Declaration.value := 30000;
     Declaration.weight := Some 1500%Q;
     Declaration.volume := None;
     Declaration.date := 1731888000000;
     Declaration.sector := "vehicles";
     Declaration.riskScore := None;
     Declaration.ecowasOrigin := false;
     Declaration.documents := None;
     Declaration.atgApplicable := false;
     Declaration.atgCertificate := false;
     Declaration.atgReadings := None;
     Declaration.qualityCertificate := false;
     Declaration.taxes := None;
     Declaration.declarantTin := Some "TIN7654321";
     Declaration.exemptions := None;
     Declaration.paymentStatus := None;
     Declaration.paymentMethod := None;
     Declaration.tsaReference := None;
     Declaration.paymentConfirmation := None;
     Declaration.currency := Some "USD";
     Declaration.exchangeRate := None |}.

(** Cotton of heading 5201 from China, bound for Ghana, declared with an
    ECOWAS origin and a certificate: origin fraud (40), route diversion
    (25) and under-valuation (20). *)
Definition divertedCotton : Declaration.t :=
  {| Declaration.id := Some "DECL-003";
     Declaration.declarationId := Some "D20241118003";
     Declaration.shipmentId := None;
     Declaration.hsCode := Some "52010000";
     Declaration.originCountry := "CN";
     Declaration.destinationCountry := "GH";
     Declaration.transitCountries := None;
     Declaration.value := 20000;
     Declaration.weight := Some 800%Q;
     Declaration.volume := None;
     Declaration.date := 1731888000000;
     Declaration.sector := "textiles";
     Declaration.riskScore := None;
     Declaration.ecowasOrigin := true;
     Declaration.documents := Some ["certificate-of-origin"];
     Declaration.atgApplicable := false;
     Declaration.atgCertificate := false;
     Declaration.atgReadings := None;
     Declaration.qualityCertificate := false;
     Declaration.taxes := None;
     Declaration.declarantTin := Some "TIN1234567";
     Declaration.exemptions := None;
     Declaration.paymentStatus := None;
     Declaration.paymentMethod := None;
     Declaration.tsaReference := None;
     Declaration.paymentConfirmation := None;
     Declaration.currency := Some "USD";
     Declaration.exchangeRate := None |}.

(** The configuration the API creates when every option is left at its
    default. *)
Definition defaultConfig : AuditExecutionConfig.t :=
  AuditExecutionConfig.mk "case-1" scope_all
    (TargetFilters.mk None None None None None None None)
    (AgentConfig.mk true true true true)
    (ExecutionOptions.mk true 10 30000 true).

Definition sequentialConfig : AuditExecutionConfig.t :=
  AuditExecutionConfig.mk "case-1" scope_all
    (TargetFilters.mk None None None None None None None)
    (AgentConfig.mk true true true true)
    (ExecutionOptions.mk false 10 30000 true).

(** An audit scoped to HS codes of chapter 27, run sequentially. *)
Definition chapter27Config : AuditExecutionConfig.t :=
  AuditExecutionConfig.mk "case-2" scope_hs_codes
    (TargetFilters.mk (Some ["27"]) None None None None None None)
    (AgentConfig.mk true true true true)
    (ExecutionOptions.mk false 10 30000 true).

(** [{ ...config, executionOptions: { ...options, parallelExecution, maxConcurrency } }] *)
Definition withExecutionMode (parallelExecution : bool) (maxConcurrency : Z)
    (config : AuditExecutionConfig.t) : AuditExecutionConfig.t :=
  let options := AuditExecutionConfig.executionOptions config in
  AuditExecutionConfig.mk
    (AuditExecutionConfig.caseId config)
    (AuditExecutionConfig.scope config)
    (AuditExecutionConfig.targetFilters config)
    (AuditExecutionConfig.agentConfig config)
    (ExecutionOptions.mk parallelExecution maxConcurrency
       (ExecutionOptions.timeoutMs options)
       (ExecutionOptions.enableRealTimeUpdates options)).

(** ** Findings, metadata and agent selection *)

Definition isType (ty : string) (f : Finding.t) : Prop := Finding.type f = ty.

#[global] Instance isType_dec ty f : Decision (isType ty f).
Proof. unfold isType. apply _. Defined.

(** [metadata.key] of an agent result *)
Definition metadataGet (key : string) (r : AgentResult.t) : option MetaValue :=
  AgentResult.metadata r ≫= (fun m => m !! key).

Definition allAgentsEnabled (config : AuditExecutionConfig.t) : Prop :=
  AuditExecutionConfig.agentConfig config = AgentConfig.mk true true true true.

Definition contributes (agentType : string) (results : list AgentResult.t) : Prop :=
  ∃ r, r ∈ results ∧ AgentResult.agentType r = agentType.

(** ** The scoring pass in the words of the specification *)

Module RuleScoring.
Import GhanaRulePackService.

(** The four criteria, in the words of the specification. *)
Definition hsCodeMatches (rule : GhanaRule.t) (hs : string) : bool :=
  match Criteria.hsCodePatterns (GhanaRule.criteria rule) with
  | Some patterns =>
      some (fun pattern => startsWith hs (replaceStar pattern)) patterns
  | None => false
  end.

Definition valueBelowThreshold (rule : GhanaRule.t) (d : Declaration.t) : bool :=
  match Criteria.valueThreshold (GhanaRule.criteria rule) with
  | Some threshold =>
      negb (Qeq_bool threshold 0) && Qlt_bool (Declaration.value d) threshold
  | None => false
  end.

Definition originOutsidePatterns (rule : GhanaRule.t) (d : Declaration.t) : bool :=
  match Criteria.countryPatterns (GhanaRule.criteria rule) with
  | Some countries =>
      GhanaCompliance.ecowasOriginCheck (GhanaRule.ghanaCompliance rule)
      && Declaration.ecowasOrigin d
      && negb (includes countries (Declaration.originCountry d))
  | None => false
  end.

Definition sectorIsCategory (rule : GhanaRule.t) (d : Declaration.t) : bool :=
  String.eqb (GhanaRule.category rule) (Declaration.sector d).

Definition points (rule : GhanaRule.t) (d : Declaration.t) (hs : string) : Z :=
  (if hsCodeMatches rule hs then 20 else 0)
  + (if valueBelowThreshold rule d then 15 else 0)
  + (if originOutsidePatterns rule d then 30 else 0)
  + (if sectorIsCategory rule d then 10 else 0).

(** The score of a list of rules: the sum of their points. *)
Definition score (rules : list GhanaRule.t) (d : Declaration.t) (hs : string) : Z :=
  foldr (fun rule total => points rule d hs + total)%Z 0%Z rules.

Definition activeRules (rulePack : RulePack.t) : list GhanaRule.t :=
  List.filter GhanaRule.isActive (RulePack.rules rulePack).

(** A rule's threshold is configured and met by a score. *)
Definition thresholdMet (rule : GhanaRule.t) (s : Z) : Prop :=
  ∃ threshold,
    Criteria.riskScoreThreshold (GhanaRule.criteria rule) = Some threshold
    ∧ ¬ (threshold == 0)%Q
    ∧ (threshold <= inject_Z s)%Q.

(** The criterion of the specification: the final score meets the
    configured threshold of some active rule. *)
Definition finalScoreMeetsSomeThreshold (rulePack : RulePack.t) (s : Z) : Prop :=
  ∃ rule threshold,
    rule ∈ activeRules rulePack
    ∧ Criteria.riskScoreThreshold (GhanaRule.criteria rule) = Some threshold
    ∧ (threshold <= inject_Z s)%Q.
End RuleScoring.

(** ** Results up to the measured durations *)

(** An agent result with its measured duration blanked out. *)
Definition eraseTime (r : AgentResult.t) : AgentResult.t :=
  AgentResult.mk (AgentResult.agentId r) (AgentResult.agentType r)
    (AgentResult.declarationId r) (AgentResult.hasViolation r)
    (AgentResult.confidence r) (AgentResult.riskScore r)
    (AgentResult.findings r) 0 (AgentResult.metadata r).

(** The duration an agent is given shows up in [processingTime] only. *)
Definition timeUniform (agent : GhanaAuditRunner.Agent) : Prop :=
  ∀ t t' d, eraseTime <$> agent t d = eraseTime <$> agent t' d.

(** An execution with every recorded duration blanked out. *)
Definition eraseTimes (e : AuditExecutionResult.t) : AuditExecutionResult.t :=
  AuditExecutionResult.mk
    (AuditExecutionResult.caseId e) (AuditExecutionResult.status e)
    (AuditExecutionResult.hasEndTime e)
    (AuditExecutionResult.totalDeclarations e)
    (AuditExecutionResult.processedDeclarations e)
    (AuditExecutionResult.failedDeclarations e)
    (eraseTime <$> AuditExecutionResult.agentResults e)
    (AuditExecutionResult.ghanaMetrics e) (AuditExecutionResult.errors e).

(** ** Counting declarations along a run *)

Section CounterDefinitions.
Import AuditExecutionResult Machine.




End CounterDefinitions.

(** ** Definitions used in the further properties *)

(** The taxes that [validateAllTaxes] expects for a value. *)
Definition statutoryTaxes (v : Q) (ecowasOrigin : bool) : TaxBreakdown.t :=
  TaxBreakdown.mk (Some (v * 0.15)%Q) (Some (v * 0.025)%Q)
    (Some (v * 0.025)%Q) (Some (v * 0.01)%Q)
    (Some (if ecowasOrigin then 0 else v * 0.05)%Q) None.

(** A rule that is active and reads the HS code of the declaration. *)
Definition readsHsCode (rule : GhanaRule.t) : Prop :=
  GhanaRule.isActive rule = true
  ∧ ∃ pattern patterns,
      Criteria.hsCodePatterns (GhanaRule.criteria rule)
      = Some (pattern :: patterns).

Section ScopeStatements.
Import Declaration GhanaAuditRunner.

(** What the scope of an audit asks of a declaration. *)
Definition inScope (config : AuditExecutionConfig.t) (d : Declaration.t)
    : Prop :=
  let tf := AuditExecutionConfig.targetFilters config in
  match AuditExecutionConfig.scope config with
  | scope_all => True
  | scope_hs_codes =>
      ∀ codes, TargetFilters.hsCodes tf = Some codes →
        ∃ hs code, hsCode d = Some hs ∧ code ∈ codes
                   ∧ startsWith hs code = true
  | scope_shipments =>
      ∀ ids, TargetFilters.shipmentIds tf = Some ids →
        ∃ s, shipmentId d = Some s ∧ s ∈ ids
  | scope_declarations =>
      ∀ ids, TargetFilters.declarationIds tf = Some ids →
        ∃ s, idOrDeclarationId d = Some s ∧ s ∈ ids
  end.

(** What the common filters ask of a declaration. *)
Definition passesFilters (config : AuditExecutionConfig.t)
    (d : Declaration.t) : Prop :=
  let tf := AuditExecutionConfig.targetFilters config in
  (∀ start end_, TargetFilters.dateRange tf = Some (start, end_) →
                 (start <= date d <= end_)%Z)
  ∧ (∀ cs, TargetFilters.countries tf = Some cs →
           originCountry d ∈ cs ∨ destinationCountry d ∈ cs)
  ∧ (∀ threshold, TargetFilters.riskThreshold tf = Some threshold →
                  (threshold <= orZero (riskScore d))%Q)
  ∧ (∀ ss, TargetFilters.sectors tf = Some ss → sector d ∈ ss).

(** A declaration whose processing throws under a configuration. *)
Definition failsProcessing (config : AuditExecutionConfig.t)
    (d : Declaration.t) : bool :=
  AgentConfig.enablePetroleumAgent (AuditExecutionConfig.agentConfig config)
  && bool_decide (hsCode d = None).
End ScopeStatements.

(** The keys of the agent registry, in insertion order. *)
Definition agentTypes : list string := fst <$> initializeAgents.

(** ** The order of the execution queue *)

Definition rank (priority : Priority) : nat :=
  match priority with
  | priority_high => 2
  | priority_medium => 1
  | priority_low => 0
  end.

(** No item of the queue is behind an item of lower priority. *)
Fixpoint byPriority (queue : list QueueItem.t) : Prop :=
  match queue with
  | [] => True
  | item :: rest =>
      Forall (fun later =>
        rank (QueueItem.priority later) <= rank (QueueItem.priority item)) rest
      ∧ byPriority rest
  end.

(** The three ways in which the engine changes its queue. *)
Inductive QueueOp :=
| Enqueue (queueItem : QueueItem.t)
    (* [queueExecution] *)
| Dequeue (activeExecutions : nat)
    (* [processQueue], with that many executions active *)
| CancelQueued (executionId : string).
    (* [cancelExecution]; the queue stays as it is when the execution is
       not in it *)

Definition applyOp (executionQueue : list QueueItem.t) (op : QueueOp)
    : list QueueItem.t :=
  match op with
  | Enqueue queueItem =>
      ProductionAuditEngine.queueExecution queueItem executionQueue
  | Dequeue activeExecutions =>
      (ProductionAuditEngine.processQueue_shift activeExecutions
         executionQueue).2
  | CancelQueued executionId =>
      default executionQueue
        (ProductionAuditEngine.cancelQueued executionId executionQueue)
  end.

(** Two executions waiting, one of high and one of low priority, and an
    execution of medium priority that is queued after them. *)
Definition waitingQueue : list QueueItem.t :=
  [ QueueItem.mk "exec-1" defaultConfig [mockDeclaration] priority_high;
    QueueItem.mk "exec-2" defaultConfig [mockDeclaration] priority_low ].

Definition mediumItem : QueueItem.t :=
  QueueItem.mk "exec-3" sequentialConfig [mockDeclaration] priority_medium.

(** ** The issues of a document accepted as valid *)

(** A warning of low or medium severity. *)
Definition minorWarning (issue : Issue.t) : Prop :=
  Issue.type issue = issue_warning
  ∧ (Issue.severity issue = low ∨ Issue.severity issue = medium).

(** The verdict on a document that lets a package be compliant. *)
Definition acceptable (result : ValidationResult.t) : Prop :=
  ValidationResult.isValid result = true
  ∧ (ValidationResult.riskLevel result = low
     ∨ ValidationResult.riskLevel result = medium)
  ∧ ValidationResult.ghanaCompliance result = ComplianceFlags.allTrue.

(** What every validator keeps of the two arrays it writes to: an issue
    is an error or a minor warning, and a compliance flag is cleared only
    together with an error. *)
Definition validatorInvariant (v : GhanaEvidenceValidationService.Validation)
    : Prop :=
  Forall (fun issue => Issue.type issue = issue_error ∨ minorWarning issue)
    (GhanaEvidenceValidationService.v_issues v)
  ∧ (GhanaEvidenceValidationService.v_ghanaCompliance v
     = ComplianceFlags.allTrue
     ∨ Exists (fun issue => Issue.type issue = issue_error)
         (GhanaEvidenceValidationService.v_issues v)).

(** An invoice without extracted data, so that the stand-in for the
    extraction service fills it in. *)
Definition scannedInvoice : EvidenceDocument.t :=
  EvidenceDocument.mk "doc-1" commercial_invoice None.

(** An audit that runs the origin agent alone. *)
Definition originOnlyConfig : AuditExecutionConfig.t :=
  AuditExecutionConfig.mk "case-3" scope_all
    (TargetFilters.mk None None None None None None None)
    (AgentConfig.mk true false false false)
    (ExecutionOptions.mk false 10 30000 true).

(** ** The tax liability in the words of the specification *)

Section ClaimedLiability.
Import PrimFloat.
#[local] Set Warnings "-inexact-float".
#[local] Open Scope float_scope.



End ClaimedLiability.

(** ** The event history under emissions and the cleanup timer *)

(** The two ways in which the engine changes its event history. *)
Inductive HistoryOp :=
| Emit (event : AuditEvent.t)
    (* [emitAuditEvent] *)
| Cleanup (now : Z).
    (* [cleanupOldEvents], which the monitoring timer runs every five
       seconds; [now] is the reading of [Date.now()] *)

Definition applyHistoryOp (eventHistory : list AuditEvent.t) (op : HistoryOp)
    : list AuditEvent.t :=
  match op with
  | Emit event => ProductionAuditEngine.emitAuditEvent event eventHistory
  | Cleanup now => ProductionAuditEngine.cleanupOldEvents now eventHistory
  end.

(** The events emitted by a sequence of operations, in their order. *)
Definition emitted (ops : list HistoryOp) : list AuditEvent.t :=
  omap (fun op => match op with
                  | Emit event => Some event
                  | Cleanup _ => None
                  end) ops.

(** * Properties *)

(** ** The scenarios of the specification, run on the model *)

Example scenario_volumetric_shortfall :
  match PetroleumATGAnalyzer.analyze 0 gaugedPetroleum with
  | Some r =>
      AgentResult.hasViolation r = true
      ∧ filter (isType "atg-shortfall") (AgentResult.findings r)
        = [Finding.mk "atg-shortfall" critical]
      ∧ (15 <= AgentResult.riskScore r)%Z
      ∧ metadataGet "estimatedShortfall" r
        = Some (MNum ((5882 - 5000) * 100000 / 5882))
  | None => False
  end.
Proof. vm_compute. repeat split; discriminate. Qed.

Example scenario_origin_fraud :
  match ECOWASOriginVerificationAgent.analyze 0 chineseOrigin with
  | Some r =>
      AgentResult.hasViolation r = true
      ∧ Finding.mk "origin-fraud" critical ∈ AgentResult.findings r
  | None => False
  end.
Proof. vm_compute. split; [reflexivity|]. apply list_elem_of_here. Qed.

Example scenario_tin_of_six_digits :
  GhanaTaxComplianceAgent.tinPattern "TIN123" = false
  ∧ GhanaTaxComplianceAgent.tinPattern "TIN123456" = false
  ∧ GhanaTaxComplianceAgent.tinPattern "TIN1234567" = true
  ∧ GhanaTaxComplianceAgent.tinPattern "TIN1234567890" = true
  ∧ GhanaTaxComplianceAgent.tinPattern "TIN12345678901" = false
  ∧ GhanaTaxComplianceAgent.tinPattern "TIN12345A7" = false.
Proof. repeat split. Qed.

Example scenario_filter_by_hs_code :
  GhanaAuditRunner.filterDeclarations [mockDeclaration; nigerianCotton]
    (AuditExecutionConfig.mk "case-3" scope_hs_codes
       (TargetFilters.mk (Some ["2710"]) None None None None None None)
       (AgentConfig.mk true true true true)
       (ExecutionOptions.mk true 10 30000 true))
  = Some [mockDeclaration].
Proof. reflexivity. Qed.

(** ** The agents *)

Lemma includes_false (l : list string) (x : string) :
  x ∉ l → includes l x = false.
Proof. intros H. unfold includes. by apply bool_decide_eq_false_2. Qed.

Lemma includes_true (l : list string) (x : string) :
  x ∈ l → includes l x = true.
Proof. intros H. unfold includes. by apply bool_decide_eq_true_2. Qed.

Lemma some_false {A} (f : A → bool) (l : list A) :
  (∀ x, x ∈ l → f x = false) → some f l = false.
Proof.
  unfold some. induction l as [|a l IH]; intros H; [done|].
  cbn. rewrite (H a) by set_solver. apply IH. intros x Hx. apply H. set_solver.
Qed.

(** A declaration that carries its HS code, claims ECOWAS origin and
    names an origin country outside the ECOWAS list gets a result of the
    origin agent that has [hasViolation = true] and exactly one finding of
    type "origin-fraud", of severity critical. *)
Theorem origin_fraud_flagged (elapsed : Z) (d : Declaration.t) (hs : string) :
  Declaration.hsCode d = Some hs →
  Declaration.ecowasOrigin d = true →
  Declaration.originCountry d ∉ ECOWASOriginVerificationAgent.ecowasCountries →
  ∃ r, ECOWASOriginVerificationAgent.analyze elapsed d = Some r
       ∧ AgentResult.hasViolation r = true
       ∧ filter (isType "origin-fraud") (AgentResult.findings r)
         = [Finding.mk "origin-fraud" critical].
Proof.
  intros Hhs Heo Hnot.
  unfold ECOWASOriginVerificationAgent.analyze,
    ECOWASOriginVerificationAgent.originClaimChecks,
    ECOWASOriginVerificationAgent.isUnderValued,
    ECOWASOriginVerificationAgent.verifyDocuments.
  rewrite Heo, Hhs. cbn beta iota.
  rewrite (includes_false _ _ Hnot). cbn [negb].
  repeat case_match; simplify_eq; cbn; eexists;
    (split; [reflexivity|]); cbn; split; done.
Qed.

Lemma origin_fraud_flagged_witness :
  Declaration.hsCode chineseOrigin = Some "27101990"
  ∧ Declaration.ecowasOrigin chineseOrigin = true
  ∧ (Declaration.originCountry chineseOrigin
       ∉ ECOWASOriginVerificationAgent.ecowasCountries)
  ∧ ∃ r, ECOWASOriginVerificationAgent.analyze 3 chineseOrigin = Some r
         ∧ AgentResult.hasViolation r = true
         ∧ filter (isType "origin-fraud") (AgentResult.findings r)
           = [Finding.mk "origin-fraud" critical].
Proof.
  assert (H : Declaration.originCountry chineseOrigin
                ∉ ECOWASOriginVerificationAgent.ecowasCountries)
    by (apply (bool_decide_unpack _); vm_compute; exact I).
  split; [reflexivity|]. split; [reflexivity|]. split; [exact H|].
  apply (origin_fraud_flagged 3 chineseOrigin "27101990");
    [reflexivity | reflexivity | exact H].
Defined.

(** Without an HS code, and with a declared value, the same agent does
    not return: [isUnderValued] dereferences the missing property. *)
Example origin_agent_throws_without_hs_code (elapsed : Z) :
  ECOWASOriginVerificationAgent.analyze elapsed noHsCode = None.
Proof. reflexivity. Qed.

(** C2.  A declaration that claims ECOWAS origin, names China as its
    origin country, declares a value and has no HS code gets no result
    from the origin agent: the finding "origin-fraud" has been pushed
    when [isUnderValued] dereferences the missing HS code and [analyze]
    throws.  [processDeclaration] catches the throw, so an audit that
    runs the origin agent records nothing for the declaration.  The same
    declaration with an HS code is flagged as the claim says. *)
Theorem origin_fraud_lost_without_hs_code (elapsed : Z)
    (clock : string → Declaration.t → Z) :
  Declaration.ecowasOrigin noHsCode = true
  ∧ (Declaration.originCountry noHsCode
       ∉ ECOWASOriginVerificationAgent.ecowasCountries)
  ∧ ECOWASOriginVerificationAgent.analyze elapsed noHsCode = None
  ∧ GhanaAuditRunner.processDeclaration clock noHsCode originOnlyConfig
    = Some []
  ∧ ∃ r, ECOWASOriginVerificationAgent.analyze elapsed chineseOrigin = Some r
         ∧ AgentResult.hasViolation r = true
         ∧ filter (isType "origin-fraud") (AgentResult.findings r)
           = [Finding.mk "origin-fraud" critical].
Proof.
  assert (Hnot : Declaration.originCountry noHsCode
                   ∉ ECOWASOriginVerificationAgent.ecowasCountries)
    by (apply (bool_decide_unpack _); vm_compute; exact I).
  split; [reflexivity|]. split; [exact Hnot|]. split; [reflexivity|].
  split; [reflexivity|].
  apply (origin_fraud_flagged elapsed chineseOrigin "27101990");
    [reflexivity|reflexivity|exact Hnot].
Qed.

(** C10. A declaration that does not claim ECOWAS origin and has no
    "certificate-of-origin" among its documents gets a result of the
    origin agent with [hasViolation = false], although the findings hold a
    "missing-document" finding and the risk score is 10. *)
Theorem missing_certificate_is_not_a_violation (elapsed : Z)
    (d : Declaration.t) :
  Declaration.ecowasOrigin d = false →
  (∀ docs, Declaration.documents d = Some docs →
           "certificate-of-origin" ∉ docs) →
  ∃ r, ECOWASOriginVerificationAgent.analyze elapsed d = Some r
       ∧ AgentResult.hasViolation r = false
       ∧ (∃ f, f ∈ AgentResult.findings r ∧ Finding.type f = "missing-document")
       ∧ AgentResult.riskScore r = 10%Z.
Proof.
  intros Heo Hdocs.
  unfold ECOWASOriginVerificationAgent.analyze,
    ECOWASOriginVerificationAgent.verifyDocuments.
  rewrite Heo. cbn [mbind option_bind].
  assert (Hmissing :
    match Declaration.documents d with
    | Some docs => negb (includes docs "certificate-of-origin")
    | None => true
    end = true).
  { destruct (Declaration.documents d) as [docs|] eqn:E; [|done].
    by rewrite (includes_false _ _ (Hdocs docs eq_refl)). }
  rewrite Hmissing. cbn.
  eexists. split; [reflexivity|]. cbn. repeat split.
  exists (Finding.mk "missing-document" high). split; [set_solver | done].
Qed.

Lemma missing_certificate_is_not_a_violation_witness :
  Declaration.ecowasOrigin invoicedCotton = false
  ∧ (∀ docs, Declaration.documents invoicedCotton = Some docs →
             "certificate-of-origin" ∉ docs)
  ∧ ∃ r, ECOWASOriginVerificationAgent.analyze 3 invoicedCotton = Some r
         ∧ AgentResult.hasViolation r = false
         ∧ (∃ f, f ∈ AgentResult.findings r
                 ∧ Finding.type f = "missing-document")
         ∧ AgentResult.riskScore r = 10%Z.
Proof.
  assert (H : ∀ docs, Declaration.documents invoicedCotton = Some docs →
                      "certificate-of-origin" ∉ docs).
  { intros docs [= <-]. apply (bool_decide_unpack _). vm_compute. exact I. }
  split; [reflexivity|]. split; [exact H|].
  apply (missing_certificate_is_not_a_violation 3 invoicedCotton);
    [reflexivity|exact H].
Defined.

(** C4. A declaration whose HS code starts with none of the petroleum
    prefixes 2709, 2710, 2711, 2713 gets from the petroleum agent
    [hasViolation = false], confidence 1.0, risk score 0 and no findings,
    whatever its other properties are. *)
Theorem non_petroleum_is_a_no_op (elapsed : Z) (d : Declaration.t)
    (hs : string) :
  Declaration.hsCode d = Some hs →
  (∀ code, code ∈ PetroleumATGAnalyzer.petroleumHSCodes →
           startsWith hs code = false) →
  ∃ r, PetroleumATGAnalyzer.analyze elapsed d = Some r
       ∧ AgentResult.hasViolation r = false
       ∧ (AgentResult.confidence r == 1)%Q
       ∧ AgentResult.riskScore r = 0%Z
       ∧ AgentResult.findings r = [].
Proof.
  intros Hhs Hnone.
  unfold PetroleumATGAnalyzer.analyze. rewrite Hhs. cbn [mbind option_bind].
  rewrite (some_false (fun code => startsWith hs code) _ Hnone). cbn [negb].
  eexists. split; [reflexivity|]. by cbn.
Qed.

Lemma non_petroleum_is_a_no_op_witness :
  Declaration.hsCode nigerianCotton = Some "52010000"
  ∧ (∀ code, code ∈ PetroleumATGAnalyzer.petroleumHSCodes →
             startsWith "52010000" code = false)
  ∧ ∃ r, PetroleumATGAnalyzer.analyze 3 nigerianCotton = Some r
         ∧ AgentResult.hasViolation r = false
         ∧ (AgentResult.confidence r == 1)%Q
         ∧ AgentResult.riskScore r = 0%Z
         ∧ AgentResult.findings r = [].
Proof.
  assert (H : ∀ code, code ∈ PetroleumATGAnalyzer.petroleumHSCodes →
                      startsWith "52010000" code = false).
  { intros code Hcode. unfold PetroleumATGAnalyzer.petroleumHSCodes in Hcode.
    repeat (apply elem_of_cons in Hcode as [-> | Hcode]; [reflexivity|]).
    by apply elem_of_nil in Hcode. }
  split; [reflexivity|]. split; [exact H|].
  apply (non_petroleum_is_a_no_op 3 nigerianCotton "52010000");
    [reflexivity|exact H].
Defined.

(** The sum [calculateTotalTaxLiability] folds, in closed form. *)
Lemma totalTaxLiability_closed_form (v : Q) (ecowasOrigin : bool) :
  (totalTaxLiability v ecowasOrigin
   == v * (0.15 + 0.025 + 0.025 + 0.01)
      + (if ecowasOrigin then 0 else v * 0.05))%Q.
Proof.
  unfold totalTaxLiability, sumQ. cbn [fold_left].
  destruct ecowasOrigin; ring.
Qed.

(** Over exact rationals the [totalTaxLiability] that the tax agent
    reports in its metadata is value × (0.15 + 0.025 + 0.025 + 0.01),
    plus value × 0.05 unless the declaration claims ECOWAS origin;
    replacing the stated tax breakdown by any other, or removing it,
    leaves the reported number unchanged.  On doubles the two sides
    differ in rounding, see [tax_liability_formula_refuted]. *)
Theorem tax_liability_formula (elapsed : Z) (d : Declaration.t) :
  ∃ r q,
    GhanaTaxComplianceAgent.analyze elapsed d = Some r
    ∧ metadataGet "totalTaxLiability" r = Some (MNum q)
    ∧ (q == Declaration.value d * (0.15 + 0.025 + 0.025 + 0.01)
            + (if Declaration.ecowasOrigin d then 0
               else Declaration.value d * 0.05))%Q
    ∧ ∀ taxes, ∃ r',
        GhanaTaxComplianceAgent.analyze elapsed (withTaxes taxes d) = Some r'
        ∧ metadataGet "totalTaxLiability" r' = Some (MNum q).
Proof.
  unfold GhanaTaxComplianceAgent.analyze, metadataGet.
  eexists _, (GhanaTaxComplianceAgent.calculateTotalTaxLiability d).
  split; [reflexivity|].
  cbn [AgentResult.metadata generateResult mbind option_bind].
  split; [apply lookup_insert_eq|].
  split; [exact (totalTaxLiability_closed_form (Declaration.value d)
                   (Declaration.ecowasOrigin d))|].
  intros taxes. eexists. split; [reflexivity|].
  cbn [AgentResult.metadata generateResult mbind option_bind].
  apply lookup_insert_eq.
Qed.

Section TaxLiabilityOnDoubles.
Import PrimFloat FloatOps SpecFloat.
#[local] Set Warnings "-inexact-float".
#[local] Open Scope float_scope.

(** The doubles that the decimal rates of the source denote, as mantissa
    and binary exponent. *)
Example rates_as_doubles :
  Prim2SF 0.15 = S754_finite false 5404319552844595 (-55)
  ∧ Prim2SF 0.025 = S754_finite false 7205759403792794 (-58)
  ∧ Prim2SF 0.01 = S754_finite false 5764607523034235 (-59)
  ∧ Prim2SF 0.05 = S754_finite false 7205759403792794 (-57).
Proof. repeat split; vm_compute; reflexivity. Qed.



End TaxLiabilityOnDoubles.

Lemma ecowas_analyze_returns (elapsed : Z) (d : Declaration.t) (hs : string) :
  Declaration.hsCode d = Some hs →
  ∃ r, ECOWASOriginVerificationAgent.analyze elapsed d = Some r
       ∧ AgentResult.agentType r = "ecowas-origin".
Proof.
  intros Hhs.
  unfold ECOWASOriginVerificationAgent.analyze,
    ECOWASOriginVerificationAgent.originClaimChecks,
    ECOWASOriginVerificationAgent.isUnderValued.
  rewrite Hhs.
  repeat case_match; simplify_eq; cbn; eauto.
Qed.

Lemma petroleum_analyze_returns (elapsed : Z) (d : Declaration.t) (hs : string) :
  Declaration.hsCode d = Some hs →
  ∃ r, PetroleumATGAnalyzer.analyze elapsed d = Some r
       ∧ AgentResult.agentType r = "petroleum-atg".
Proof.
  intros Hhs. unfold PetroleumATGAnalyzer.analyze. rewrite Hhs.
  cbn [mbind option_bind]. case_match; eauto.
Qed.

Lemma tax_analyze_returns (elapsed : Z) (d : Declaration.t) :
  ∃ r, GhanaTaxComplianceAgent.analyze elapsed d = Some r
       ∧ AgentResult.agentType r = "tax-compliance".
Proof. unfold GhanaTaxComplianceAgent.analyze. eauto. Qed.

Lemma tsa_analyze_returns (elapsed : Z) (d : Declaration.t) :
  ∃ r, TSAPaymentReconciliationAgent.analyze elapsed d = Some r
       ∧ AgentResult.agentType r = "tsa-reconciliation".
Proof. unfold TSAPaymentReconciliationAgent.analyze. eauto. Qed.

(** ** Agent selection *)

Lemma some_true_iff {A} (f : A → bool) (l : list A) :
  some f l = true ↔ ∃ x, x ∈ l ∧ f x = true.
Proof.
  unfold some. rewrite existsb_exists. 
  split; intros (x & H1 & H2); exists x; split; try done; by apply list_elem_of_In.
Qed.

Lemma Qgt_bool_iff (x y : Q) : Qgt_bool x y = true ↔ (y < x)%Q.
Proof.
  unfold Qgt_bool, Qlt_bool. rewrite negb_true_iff.
  split.
  - intros H. apply Qnot_le_lt. intros Hle. apply Qle_bool_iff in Hle. congruence.
  - intros H. destruct (Qle_bool x y) eqn:E; [|done].
    apply Qle_bool_iff in E. exfalso. by apply (Qlt_not_le _ _ H).
Qed.

Lemma processDeclaration_loop_spec (clock : string → Declaration.t → Z)
    (d : Declaration.t) (enabled : list (string * GhanaAuditRunner.Agent))
    (results0 results : list AgentResult.t) :
  GhanaAuditRunner.processDeclaration_loop clock enabled d results0 = Some results →
  results = results0 ++
    omap (fun '(ty, agent) =>
            match GhanaAuditRunner.shouldAgentRun ty d with
            | Some true => agent (clock ty d) d
            | _ => None
            end) enabled
  ∧ Forall (fun entry => is_Some (GhanaAuditRunner.shouldAgentRun (fst entry) d)) enabled.
Proof.
  revert results0. induction enabled as [|[ty agent] rest IH]; intros results0 H.
  - cbn in *. simplify_eq. by rewrite app_nil_r.
  - cbn [GhanaAuditRunner.processDeclaration_loop] in H.
    destruct (GhanaAuditRunner.shouldAgentRun ty d) as [run|] eqn:Hrun; [|done].
    cbn [mbind option_bind] in H.
    assert (Hs : is_Some (GhanaAuditRunner.shouldAgentRun ty d)) by (by rewrite Hrun).
    cbn [omap list_omap]. rewrite Hrun.
    destruct run; [destruct (agent (clock ty d) d) as [r|] eqn:Hr|];
      apply IH in H as [-> HF]; (split; [|by constructor]).
    + by rewrite <- app_assoc.
    + done.
    + done.
Qed.

(** C9. With all four agents enabled, a declaration that
    [processDeclaration] processes gets a result of the origin agent
    exactly when it claims ECOWAS origin or its origin country is in the
    ECOWAS list, a result of the petroleum agent exactly when its HS code
    starts with a petroleum prefix, always a result of the tax agent, and
    a result of the payment agent exactly when its value exceeds 1000.
    An agent that is invoked on a processed declaration returns, so that
    being invoked and contributing a result are the same. *)
Theorem agent_selection (clock : string → Declaration.t → Z)
    (config : AuditExecutionConfig.t) (d : Declaration.t)
    (results : list AgentResult.t) :
  allAgentsEnabled config →
  GhanaAuditRunner.processDeclaration clock d config = Some results →
  (contributes "ecowas-origin" results
     ↔ Declaration.ecowasOrigin d = true
       ∨ Declaration.originCountry d ∈ ECOWASOriginVerificationAgent.ecowasCountries)
  ∧ (contributes "petroleum-atg" results
     ↔ ∃ hs code, Declaration.hsCode d = Some hs
                  ∧ code ∈ PetroleumATGAnalyzer.petroleumHSCodes
                  ∧ startsWith hs code = true)
  ∧ contributes "tax-compliance" results
  ∧ (contributes "tsa-reconciliation" results
     ↔ (1000 < Declaration.value d)%Q).
Proof.
  intros Hall Hrun.
  unfold GhanaAuditRunner.processDeclaration, GhanaAuditRunner.getEnabledAgents in Hrun.
  rewrite Hall in Hrun. cbn [AgentConfig.enableECOWASAgent AgentConfig.enablePetroleumAgent
    AgentConfig.enableTaxAgent AgentConfig.enableTSAgent app] in Hrun.
  apply processDeclaration_loop_spec in Hrun as [-> HF].
  rewrite !Forall_cons in HF. destruct HF as (_ & [b Hb] & _). cbn [fst] in Hb.
  unfold GhanaAuditRunner.shouldAgentRun in Hb. cbn [String.eqb Ascii.eqb Bool.eqb] in Hb.
  destruct (Declaration.hsCode d) as [hs|] eqn:Hhs; [|done].
  cbn [mbind option_bind] in Hb. 
  destruct (ecowas_analyze_returns (clock "ecowas-origin" d) d hs Hhs) as (r1 & Hr1 & Ht1).
  destruct (petroleum_analyze_returns (clock "petroleum-atg" d) d hs Hhs) as (r2 & Hr2 & Ht2).
  destruct (tax_analyze_returns (clock "tax-compliance" d) d) as (r3 & Hr3 & Ht3).
  destruct (tsa_analyze_returns (clock "tsa-reconciliation" d) d) as (r4 & Hr4 & Ht4).
  cbn [omap list_omap app]. rewrite Hr1, Hr2, Hr3, Hr4.
  unfold GhanaAuditRunner.shouldAgentRun. cbn [String.eqb Ascii.eqb Bool.eqb].
  rewrite Hhs. cbn [mbind option_bind].
  assert (P1 : Declaration.ecowasOrigin d = true
       ∨ Declaration.originCountry d ∈ ECOWASOriginVerificationAgent.ecowasCountries
       ↔ Declaration.ecowasOrigin d
         || GhanaAuditRunner.isEcowaSCountry (Declaration.originCountry d) = true).
  { rewrite orb_true_iff. unfold GhanaAuditRunner.isEcowaSCountry, includes.
    by rewrite bool_decide_eq_true. }
  assert (P2 : (∃ hs' code, Some hs = Some hs'
                  ∧ code ∈ PetroleumATGAnalyzer.petroleumHSCodes
                  ∧ startsWith hs' code = true)
       ↔ some (fun code => startsWith hs code) GhanaAuditRunner.petroleumHSCodes = true).
  { rewrite some_true_iff. split.
    - intros (hs' & code & [= <-] & Hin & Hst). eauto.
    - intros (code & Hin & Hst). eauto. }
  rewrite P1, P2, <- Qgt_bool_iff.
  clear P1 P2 Hb Hr1 Hr2 Hr3 Hr4.
  destruct (Declaration.ecowasOrigin d
            || GhanaAuditRunner.isEcowaSCountry (Declaration.originCountry d)),
    (some (fun code => startsWith hs code) GhanaAuditRunner.petroleumHSCodes),
    (Qgt_bool (Declaration.value d) 1000);
    unfold contributes; repeat split;
    try (intros (r & Hin & Hty);
         repeat (apply elem_of_cons in Hin as [-> | Hin]; [congruence|]);
         by apply elem_of_nil in Hin);
    try done;
    try (intros _); eexists; (split; [|eassumption]); set_solver.
Qed.

Lemma agent_selection_witness :
  allAgentsEnabled defaultConfig
  ∧ ∃ results,
      GhanaAuditRunner.processDeclaration (fun _ _ => 3%Z) mockDeclaration
        defaultConfig = Some results
      ∧ (contributes "ecowas-origin" results
         ↔ Declaration.ecowasOrigin mockDeclaration = true
           ∨ Declaration.originCountry mockDeclaration
               ∈ ECOWASOriginVerificationAgent.ecowasCountries)
      ∧ (contributes "petroleum-atg" results
         ↔ ∃ hs code, Declaration.hsCode mockDeclaration = Some hs
                      ∧ code ∈ PetroleumATGAnalyzer.petroleumHSCodes
                      ∧ startsWith hs code = true)
      ∧ contributes "tax-compliance" results
      ∧ (contributes "tsa-reconciliation" results
         ↔ (1000 < Declaration.value mockDeclaration)%Q).
Proof.
  split; [reflexivity|].
  destruct (GhanaAuditRunner.processDeclaration (fun _ _ => 3%Z)
              mockDeclaration defaultConfig) as [results|] eqn:E;
    [|vm_compute in E; discriminate E].
  exists results. split; [reflexivity|].
  exact (agent_selection _ defaultConfig mockDeclaration results eq_refl E).
Defined.

(** ** The simulation scoring pass *)

Section RuleScoringFacts.
Import GhanaRulePackService RuleScoring.

Lemma ruleScore_points (rule : GhanaRule.t) (d : Declaration.t) (hs : string) :
  Declaration.hsCode d = Some hs →
  ruleScore rule d = Some (points rule d hs).
Proof.
  intros Hhs. unfold ruleScore, points, hsCodeMatches, valueBelowThreshold,
    originOutsidePatterns, sectorIsCategory, matchesPattern, truthyNum.
  rewrite Hhs.
  destruct (Criteria.hsCodePatterns (GhanaRule.criteria rule)) as [[|p ps]|];
    destruct (Criteria.valueThreshold (GhanaRule.criteria rule));
    destruct (Criteria.countryPatterns (GhanaRule.criteria rule));
    destruct (GhanaCompliance.ecowasOriginCheck (GhanaRule.ghanaCompliance rule));
    cbn [mbind option_bind some existsb andb]; reflexivity.
Qed.

Lemma points_nonneg rule d hs : (0 <= points rule d hs)%Z.
Proof. unfold points. repeat case_match; lia. Qed.

Lemma score_cons rule rules d hs :
  score (rule :: rules) d hs = (points rule d hs + score rules d hs)%Z.
Proof. reflexivity. Qed.

Lemma score_nonneg rules d hs : (0 <= score rules d hs)%Z.
Proof.
  induction rules as [|r rs IH]; [done|].
  rewrite score_cons. pose proof (points_nonneg r d hs). lia.
Qed.

Lemma meetsThreshold_iff rule s :
  meetsThreshold rule s = true ↔ thresholdMet rule s.
Proof.
  unfold meetsThreshold, thresholdMet, truthyNum.
  destruct (Criteria.riskScoreThreshold _) as [t|].
  - rewrite andb_true_iff, negb_true_iff, Qle_bool_iff. split.
    + intros [H1 H2]. exists t. repeat split; [|done].
      intros Heq. apply Qeq_bool_iff in Heq. congruence.
    + intros (t' & [= <-] & H1 & H2). split; [|done].
      destruct (Qeq_bool t 0) eqn:E; [|done]. apply Qeq_bool_iff in E. done.
  - split; [done|]. by intros (t & ? & _).
Qed.

Lemma evaluateRules_spec (rules : list GhanaRule.t) (d : Declaration.t)
    (hs : string) (acc : Evaluation) :
  Declaration.hsCode d = Some hs →
  let active := List.filter GhanaRule.isActive rules in
  ∃ e, evaluateRules rules d acc = Some e
       ∧ riskScore e = (riskScore acc + score active d hs)%Z
       ∧ (hasViolation e = true
          ↔ hasViolation acc = true
            ∨ ∃ n rule, active !! n = Some rule
                ∧ thresholdMet rule (riskScore acc + score (take (S n) active) d hs)).
Proof.
  intros Hhs. revert acc. induction rules as [|rule rest IH]; intros acc; cbn zeta.
  - exists acc. cbn. split; [done|]. split; [lia|]. split; [tauto|].
    intros [H|(n & r & H & _)]; [done|]. by rewrite lookup_nil in H.
  - cbn [evaluateRules List.filter].
    destruct (GhanaRule.isActive rule) eqn:Hact; cbn [negb]; [|apply IH].
    rewrite (ruleScore_points _ _ _ Hhs). cbn [mbind option_bind].
    set (here := (riskScore acc + points rule d hs)%Z).
    destruct (IH (mkEvaluation
                    (if meetsThreshold rule here then true else hasViolation acc)
                    here))
      as (e & He & Hs & Hv).
    exists e. split; [exact He|]. cbn [riskScore hasViolation] in Hs, Hv.
    split; [rewrite score_cons; lia|].
    rewrite Hv. clear He Hs Hv.
    assert (Hhere : ∀ rules',
      (riskScore acc + score (rule :: rules') d hs = here + score rules' d hs)%Z)
      by (intros; rewrite score_cons; lia).
    split.
    + intros [H|(n & r & Hn & Hm)].
      * destruct (meetsThreshold rule here) eqn:Hm; [|by left].
        right. exists 0%nat, rule. split; [done|].
        apply meetsThreshold_iff in Hm. cbn [take]. rewrite Hhere, take_0.
        by replace (here + score [] d hs)%Z with here by (cbn; lia).
      * right. exists (S n), r. split; [done|].
        change (take (S (S n)) (rule :: List.filter GhanaRule.isActive rest))
          with (rule :: take (S n) (List.filter GhanaRule.isActive rest)).
        by rewrite Hhere.
    + intros [H|([|n] & r & Hn & Hm)].
      * left. rewrite H. by destruct (meetsThreshold rule here).
      * cbn in Hn. simplify_eq. left. cbn [take] in Hm.
        rewrite Hhere, take_0 in Hm.
        replace (here + score [] d hs)%Z with here in Hm by (cbn; lia).
        apply meetsThreshold_iff in Hm. by rewrite Hm.
      * right. exists n, r. split; [done|].
        change (take (S (S n)) (rule :: List.filter GhanaRule.isActive rest))
          with (rule :: take (S n) (List.filter GhanaRule.isActive rest)) in Hm.
        by rewrite Hhere in Hm.
Qed.

Lemma score_app rules1 rules2 d hs :
  score (rules1 ++ rules2) d hs = (score rules1 d hs + score rules2 d hs)%Z.
Proof.
  induction rules1 as [|r rs IH]; [done|].
  cbn [app]. rewrite !score_cons, IH. lia.
Qed.

Lemma score_take_le n rules d hs :
  (score (take n rules) d hs <= score rules d hs)%Z.
Proof.
  rewrite <- (take_drop n rules) at 2. rewrite score_app.
  pose proof (score_nonneg (drop n rules) d hs). lia.
Qed.

(** On the default rule pack the car collects 15 + 20 + 10 + 20 + 10 = 75
    points.  The only threshold at or below 75 is the 75 of the first
    rule, and when that rule was tested the score stood at 15. *)
Example car_scores_75_without_violation :
  evaluateDeclaration defaultRulePack importedCar
  = Some (mkEvaluation false 75).
Proof. vm_compute. reflexivity. Qed.

(** C6, as stated: the declaration is marked exactly when its final
    score reaches the threshold of some active rule.  The default rule
    pack and [importedCar] refute it. *)
Lemma violation_iff_final_score_refuted :
  ¬ (∀ rulePack d e,
       evaluateDeclaration rulePack d = Some e →
       (hasViolation e = true
        ↔ finalScoreMeetsSomeThreshold rulePack (riskScore e))).
Proof.
  intros Hspec.
  destruct (Hspec _ _ _ car_scores_75_without_violation) as [_ Hback].
  enough (false = true) by done. apply Hback.
  exists (GhanaRule.mk "petro-atg-001" "petroleum" true
            (GhanaCompliance.mk true true true true true (Some true))
            (Criteria.mk (Some 50000%Q) None (Some ["2709*"; "2710*"; "2711*"])
               None (Some 75%Q))), 75%Q.
  split; [|split; [reflexivity|]].
  - unfold activeRules. cbn. constructor.
  - cbn. apply Qle_refl.
Qed.

(** C6, amended.  For a declaration that carries its HS code the pass
    returns; the score is the sum, over the active rules, of 20 if a
    pattern of the rule (less its first asterisk) is a prefix of the HS
    code, 15 if the rule's value threshold is configured, not zero and
    above the declared value, 30 if the rule has country patterns,
    requires the ECOWAS origin check, and the declaration claims ECOWAS
    origin from a country outside the patterns, and 10 if the rule's
    category is the declaration's sector.  The declaration is marked as a
    violation exactly when some active rule has a configured, non-zero
    threshold that is met by the score accumulated over the active rules
    up to and including that rule; a marked declaration therefore has a
    final score that meets the threshold of some active rule. *)
Theorem rule_score_and_violation (rulePack : RulePack.t) (d : Declaration.t)
    (hs : string) :
  Declaration.hsCode d = Some hs →
  ∃ e, evaluateDeclaration rulePack d = Some e
       ∧ riskScore e = score (activeRules rulePack) d hs
       ∧ (hasViolation e = true
          ↔ ∃ n rule, activeRules rulePack !! n = Some rule
              ∧ thresholdMet rule (score (take (S n) (activeRules rulePack)) d hs))
       ∧ (hasViolation e = true
          → finalScoreMeetsSomeThreshold rulePack (riskScore e)).
Proof.
  intros Hhs. unfold evaluateDeclaration, activeRules.
  destruct (evaluateRules_spec (RulePack.rules rulePack) d hs
              (mkEvaluation false 0) Hhs) as (e & He & Hs & Hv).
  cbn [riskScore hasViolation] in Hs, Hv. rewrite Z.add_0_l in Hs.
  assert (Hv' : hasViolation e = true
     ↔ ∃ n rule, List.filter GhanaRule.isActive (RulePack.rules rulePack) !! n
                   = Some rule
         ∧ thresholdMet rule
             (score (take (S n)
                (List.filter GhanaRule.isActive (RulePack.rules rulePack))) d hs)).
  { rewrite Hv. split.
    - intros [?|(n & r & Hn & Hm)]; [done|]. exists n, r.
      by rewrite Z.add_0_l in Hm.
    - intros (n & r & Hn & Hm). right. exists n, r. by rewrite Z.add_0_l. }
  exists e. split; [done|]. split; [done|]. split; [done|].
  intros (n & r & Hn & (t & Ht & _ & Hle))%Hv'.
  exists r, t. split; [|split; [done|]].
  - unfold activeRules. by eapply list_elem_of_lookup_2.
  - eapply Qle_trans; [exact Hle|]. rewrite Hs.
    rewrite <- Zle_Qle. apply score_take_le.
Qed.

Lemma rule_score_and_violation_witness :
  Declaration.hsCode mockDeclaration = Some "27101990"
  ∧ ∃ e, evaluateDeclaration defaultRulePack mockDeclaration = Some e
       ∧ riskScore e = score (activeRules defaultRulePack) mockDeclaration "27101990"
       ∧ (hasViolation e = true
          ↔ ∃ n rule, activeRules defaultRulePack !! n = Some rule
              ∧ thresholdMet rule
                  (score (take (S n) (activeRules defaultRulePack))
                     mockDeclaration "27101990"))
       ∧ (hasViolation e = true
          → finalScoreMeetsSomeThreshold defaultRulePack (riskScore e)).
Proof.
  split; [reflexivity|].
  apply (rule_score_and_violation defaultRulePack mockDeclaration "27101990").
  reflexivity.
Defined.
End RuleScoringFacts.

(** ** Chunking *)

Section Chunking.
Context {T : Type}.
Implicit Types (array : list T) (chunkSize i : Z).

(** With a chunk size of zero or less the loop variable never reaches the
    length of a non-empty array: no amount of fuel is enough. *)
Lemma chunkArray_loop_diverges (fuel : nat) array chunkSize i :
  (chunkSize <= 0)%Z → (i < Z.of_nat (length array))%Z →
  chunkArray_loop fuel array chunkSize i = None.
Proof.
  intros Hc. revert i. induction fuel as [|fuel IH]; intros i Hi; cbn.
  - by rewrite (proj2 (Z.ltb_lt _ _) Hi).
  - rewrite (proj2 (Z.ltb_lt _ _) Hi). rewrite IH by lia. done.
Qed.

Lemma chunkArray_diverges (fuel : nat) array chunkSize :
  (chunkSize <= 0)%Z → array ≠ [] →
  chunkArray fuel array chunkSize = None.
Proof.
  intros Hc Hne. apply chunkArray_loop_diverges; [done|].
  destruct array; [done|]. cbn [length]. lia.
Qed.

(** Inside the array and with a positive size, a slice is a [take] of a
    [drop]. *)
Lemma slice_chunk array chunkSize i :
  (0 <= i)%Z → (1 <= chunkSize)%Z →
  slice array i (i + chunkSize)
  = take (Z.to_nat chunkSize) (drop (Z.to_nat i) array).
Proof.
  intros Hi Hc. unfold slice.
  rewrite (proj2 (Z.ltb_ge _ _)) by lia. rewrite (proj2 (Z.ltb_ge _ _)) by lia.
  set (len := Z.of_nat (length array)).
  destruct (Z.le_gt_cases len i) as [Hout|Hin].
  - rewrite !drop_ge by lia. by rewrite !take_nil.
  - rewrite (Z.min_l i len) by lia.
    destruct (Z.le_gt_cases (i + chunkSize) len) as [Hfit|Hover].
    + rewrite Z.min_l by lia. f_equal. lia.
    + rewrite Z.min_r by lia.
      rewrite !take_ge; [done| |]; rewrite length_drop; lia.
Qed.

(** With a positive chunk size the loop terminates within as many
    iterations as there are elements left, and the chunks it returns
    partition the rest of the array, in order. *)
Lemma chunkArray_loop_terminates (fuel : nat) array chunkSize i :
  (1 <= chunkSize)%Z → (0 <= i)%Z →
  (Z.of_nat (length array) - i <= Z.of_nat fuel)%Z →
  ∃ chunks, chunkArray_loop fuel array chunkSize i = Some chunks
            ∧ concat chunks = drop (Z.to_nat i) array.
Proof.
  intros Hc. revert i. induction fuel as [|fuel IH]; intros i Hi Hfuel; cbn.
  - rewrite (proj2 (Z.ltb_ge _ _)) by lia. exists []. split; [done|].
    rewrite drop_ge by lia. done.
  - destruct (Z.ltb_spec i (Z.of_nat (length array))) as [Hin|Hout].
    + destruct (IH (i + chunkSize)%Z) as (chunks & -> & Hcat); [lia|lia|].
      cbn. eexists. split; [reflexivity|]. cbn [concat]. rewrite Hcat.
      rewrite slice_chunk by lia.
      rewrite Z2Nat.inj_add by lia. rewrite <- drop_drop. apply take_drop.
    + exists []. split; [done|]. rewrite drop_ge by lia. done.
Qed.

Lemma chunkArray_terminates array chunkSize :
  (1 <= chunkSize)%Z →
  ∃ chunks, chunkArray (length array) array chunkSize = Some chunks
            ∧ concat chunks = array.
Proof.
  intros Hc.
  destruct (chunkArray_loop_terminates (length array) array chunkSize 0)
    as (chunks & H & Hcat); [lia|lia|lia|].
  exists chunks. split; [exact H|]. by rewrite Hcat.
Qed.

(** More fuel does not change the outcome. *)
Lemma chunkArray_loop_fuel_mono (fuel fuel' : nat) array chunkSize i chunks :
  chunkArray_loop fuel array chunkSize i = Some chunks → (fuel <= fuel')%nat →
  chunkArray_loop fuel' array chunkSize i = Some chunks.
Proof.
  revert fuel' i chunks. induction fuel as [|fuel IH]; intros fuel' i chunks H Hle.
  - cbn in H. destruct (i <? Z.of_nat (length array))%Z eqn:E; [done|].
    destruct fuel'; cbn; by rewrite E.
  - destruct fuel' as [|fuel']; [lia|]. cbn in *.
    destruct (i <? Z.of_nat (length array))%Z; [|done].
    destruct (chunkArray_loop fuel array chunkSize (i + chunkSize)) as [cs|] eqn:E;
      [|done].
    rewrite (IH fuel' _ cs E) by lia. done.
Qed.
End Chunking.

(** ** The two execution modes *)

Section Modes.
Import GhanaAuditRunner AuditExecutionResult.
Variable clock : string → Declaration.t → Z.
Variable config : AuditExecutionConfig.t.

Lemma recordResults_recordFailure results d execution :
  recordResults results (recordFailure d execution)
  = recordFailure d (recordResults results execution).
Proof. reflexivity. Qed.

(** Results merged before a chunk is settled end up where they would be
    if they were merged after. *)
Lemma settleAll_recordResults results chunk execution :
  settleAll clock config chunk (recordResults results execution)
  = (recordResults results (settleAll clock config chunk execution).1,
     (settleAll clock config chunk execution).2).
Proof.
  revert execution. induction chunk as [|d rest IH]; intros execution; [done|].
  cbn [settleAll]. unfold settle.
  destruct (processDeclaration clock d config) as [rs|].
  - rewrite IH. by destruct (settleAll clock config rest execution).
  - rewrite <- recordResults_recordFailure, IH.
    by destruct (settleAll clock config rest (recordFailure d execution)).
Qed.

(** A chunk leaves the execution as the sequential loop over its
    declarations would. *)
Lemma parallelChunk_sequential chunk execution :
  parallelChunk clock config execution chunk
  = fold_left (sequentialStep clock config) chunk execution.
Proof.
  unfold parallelChunk.
  revert execution. induction chunk as [|d rest IH]; intros execution; [done|].
  cbn [settleAll fold_left]. unfold settle, sequentialStep at 2.
  destruct (processDeclaration clock d config) as [rs|].
  - rewrite <- IH.
    destruct (settleAll clock config rest execution) as [e2 results] eqn:E.
    cbn [fold_left mergeResult].
    rewrite settleAll_recordResults, E. done.
  - rewrite <- IH.
    by destruct (settleAll clock config rest (recordFailure d execution)).
Qed.

Lemma parallelChunks_sequential chunks execution :
  fold_left (parallelChunk clock config) chunks execution
  = fold_left (sequentialStep clock config) (concat chunks) execution.
Proof.
  revert execution. induction chunks as [|chunk rest IH]; intros execution; [done|].
  cbn [fold_left concat]. rewrite fold_left_app, IH.
  by rewrite parallelChunk_sequential.
Qed.

(** With a positive [maxConcurrency], [executeParallel] returns, and
    returns what [executeSequential] returns. *)
Lemma executeParallel_sequential execution declarations :
  (1 <= ExecutionOptions.maxConcurrency
          (AuditExecutionConfig.executionOptions config))%Z →
  executeParallel clock (length declarations) execution declarations config
  = Some (executeSequential clock execution declarations config).
Proof.
  intros Hc. unfold executeParallel, executeSequential.
  destruct (chunkArray_terminates declarations _ Hc) as (chunks & -> & Hcat).
  cbn. by rewrite parallelChunks_sequential, Hcat.
Qed.

(** With a [maxConcurrency] of zero or less, [executeParallel] does not
    return on a non-empty list. *)
Lemma executeParallel_diverges fuel execution declarations :
  (ExecutionOptions.maxConcurrency
     (AuditExecutionConfig.executionOptions config) <= 0)%Z →
  declarations ≠ [] →
  executeParallel clock fuel execution declarations config = None.
Proof.
  intros Hc Hne. unfold executeParallel.
  by rewrite chunkArray_diverges.
Qed.
End Modes.

(** ** Durations do not reach the Ghana metrics *)

Lemma ecowas_timeUniform : timeUniform ECOWASOriginVerificationAgent.analyze.
Proof.
  intros t t' d. unfold ECOWASOriginVerificationAgent.analyze.
  by destruct (if Declaration.ecowasOrigin d then _ else _).
Qed.

Lemma petroleum_timeUniform : timeUniform PetroleumATGAnalyzer.analyze.
Proof.
  intros t t' d. unfold PetroleumATGAnalyzer.analyze.
  destruct (Declaration.hsCode d) as [hs|]; [|done]. cbn [mbind option_bind].
  by destruct (negb _).
Qed.

Lemma tax_timeUniform : timeUniform GhanaTaxComplianceAgent.analyze.
Proof. by intros t t' d. Qed.

Lemma tsa_timeUniform : timeUniform TSAPaymentReconciliationAgent.analyze.
Proof. by intros t t' d. Qed.

Lemma getEnabledAgents_timeUniform config :
  Forall (fun entry => timeUniform entry.2)
         (GhanaAuditRunner.getEnabledAgents config).
Proof.
  unfold GhanaAuditRunner.getEnabledAgents.
  repeat apply Forall_app_2; case_match; repeat constructor;
    auto using ecowas_timeUniform, petroleum_timeUniform, tax_timeUniform,
               tsa_timeUniform.
Qed.

Section TwoClocks.
Import GhanaAuditRunner AuditExecutionResult.
Variables clock clock' : string → Declaration.t → Z.
Variable config : AuditExecutionConfig.t.

Lemma processDeclaration_loop_time enabled d results results' :
  Forall (fun entry => timeUniform entry.2) enabled →
  eraseTime <$> results = eraseTime <$> results' →
  fmap (M := list) eraseTime <$> processDeclaration_loop clock enabled d results
  = fmap (M := list) eraseTime <$> processDeclaration_loop clock' enabled d results'.
Proof.
  intros Hall. revert results results'.
  induction Hall as [|[ty agent] rest Hagent _ IH]; intros results results' Heq.
  - cbn. by rewrite Heq.
  - cbn [processDeclaration_loop].
    destruct (shouldAgentRun ty d) as [[|]|]; cbn [mbind option_bind]; [|by apply IH|done].
    specialize (Hagent (clock ty d) (clock' ty d) d). cbn [snd] in Hagent.
    destruct (agent (clock ty d) d) as [r|], (agent (clock' ty d) d) as [r'|];
      cbn in Hagent; simplify_eq; [|by apply IH].
    apply IH. rewrite !fmap_app, Heq. cbn. unfold eraseTime. congruence.
Qed.

Lemma processDeclaration_time d :
  fmap (M := list) eraseTime <$> processDeclaration clock d config
  = fmap (M := list) eraseTime <$> processDeclaration clock' d config.
Proof.
  apply processDeclaration_loop_time; [apply getEnabledAgents_timeUniform|done].
Qed.

Lemma sequentialStep_time e e' d :
  eraseTimes e = eraseTimes e' →
  eraseTimes (sequentialStep clock config e d)
  = eraseTimes (sequentialStep clock' config e' d).
Proof.
  intros Heq. unfold sequentialStep. pose proof (processDeclaration_time d) as Hd.
  destruct (processDeclaration clock d config) as [rs|],
    (processDeclaration clock' d config) as [rs'|]; cbn in Hd; simplify_eq.
  - unfold eraseTimes, recordResults in *. cbn. rewrite !fmap_app. congruence.
  - unfold eraseTimes, recordFailure in *. cbn. congruence.
Qed.

Lemma executeSequential_time declarations e e' :
  eraseTimes e = eraseTimes e' →
  eraseTimes (executeSequential clock e declarations config)
  = eraseTimes (executeSequential clock' e' declarations config).
Proof.
  unfold executeSequential. revert e e'.
  induction declarations as [|d rest IH]; intros e e' Heq; [done|].
  cbn [fold_left]. apply IH. by apply sequentialStep_time.
Qed.
End TwoClocks.

Section Metrics.
Import GhanaAuditRunner AuditExecutionResult.

Lemma fold_left_fmap {A B C} (f : A → C → A) (g : B → C) (l : list B) (a : A) :
  fold_left f (g <$> l) a = fold_left (fun a x => f a (g x)) l a.
Proof. revert a. induction l as [|x l IH]; intros a; [done|]. cbn. apply IH. Qed.

Lemma filter_eraseTime (results : list AgentResult.t) :
  List.filter AgentResult.hasViolation (eraseTime <$> results)
  = eraseTime <$> List.filter AgentResult.hasViolation results.
Proof.
  induction results as [|r rs IH]; [done|]. cbn.
  destruct (AgentResult.hasViolation r); cbn; by rewrite IH.
Qed.

Lemma flat_map_eraseTime (results : list AgentResult.t) :
  flat_map AgentResult.findings (eraseTime <$> results)
  = flat_map AgentResult.findings results.
Proof. induction results as [|r rs IH]; [done|]. cbn. by rewrite IH. Qed.

Lemma sectorStats_eraseTime (results : list AgentResult.t) :
  sectorStats (eraseTime <$> results) = sectorStats results.
Proof.
  unfold sectorStats. rewrite filter_eraseTime, !length_fmap.
  by rewrite fold_left_fmap.
Qed.

Lemma groupResults_eraseTime (results : list AgentResult.t)
    (groups : gmap string (list AgentResult.t)) :
  fold_left (fun groups result =>
      <[sectorOf result := default [] (groups !! sectorOf result) ++ [result]]>
        groups)
    (eraseTime <$> results) (fmap (M := list) eraseTime <$> groups)
  = fmap (M := list) eraseTime <$>
    fold_left (fun groups result =>
        <[sectorOf result := default [] (groups !! sectorOf result) ++ [result]]>
          groups)
      results groups.
Proof.
  revert groups. induction results as [|r rs IH]; intros groups; [done|].
  cbn [fmap list_fmap fold_left]. rewrite <- IH. f_equal.
  change (sectorOf (eraseTime r)) with (sectorOf r).
  rewrite fmap_insert, lookup_fmap. f_equal.
  destruct (groups !! sectorOf r); cbn; by rewrite ?fmap_app.
Qed.

Lemma groupResultsBySector_eraseTime (results : list AgentResult.t) :
  sectorStats <$> groupResultsBySector (eraseTime <$> results)
  = sectorStats <$> groupResultsBySector results.
Proof.
  unfold groupResultsBySector.
  pose proof (groupResults_eraseTime results ∅) as H. rewrite fmap_empty in H.
  rewrite H, <- map_fmap_compose. apply map_fmap_ext.
  intros sector rs _. apply sectorStats_eraseTime.
Qed.

(** The Ghana metrics are a function of the results with their durations
    blanked out. *)
Lemma calculateGhanaMetrics_eraseTimes (e : AuditExecutionResult.t) :
  ghanaMetrics (calculateGhanaMetrics (eraseTimes e))
  = ghanaMetrics (calculateGhanaMetrics e).
Proof.
  unfold calculateGhanaMetrics, eraseTimes.
  cbn [ghanaMetrics setGhanaMetrics agentResults].
  rewrite filter_eraseTime, flat_map_eraseTime, groupResultsBySector_eraseTime.
  rewrite !length_fmap, !fold_left_fmap. reflexivity.
Qed.

Lemma executionCompleted_eraseTimes (e e' : AuditExecutionResult.t) :
  eraseTimes e = eraseTimes e' →
  ghanaMetrics (executionCompleted e) = ghanaMetrics (executionCompleted e').
Proof.
  intros Heq. unfold executionCompleted, calculateFinalMetrics.
  cbn [ghanaMetrics setEndTime setStatus].
  by rewrite <- (calculateGhanaMetrics_eraseTimes e),
             <- (calculateGhanaMetrics_eraseTimes e'), Heq.
Qed.
End Metrics.

Section ModesAgree.
Import GhanaAuditRunner AuditExecutionResult.

Lemma executeParallel_fuel clock config fuel execution declarations :
  (1 <= ExecutionOptions.maxConcurrency
          (AuditExecutionConfig.executionOptions config))%Z →
  (length declarations <= fuel)%nat →
  executeParallel clock fuel execution declarations config
  = Some (executeSequential clock execution declarations config).
Proof.
  intros Hc Hfuel.
  pose proof (executeParallel_sequential clock config execution declarations Hc) as H.
  unfold executeParallel in *.
  destruct (chunkArray (length declarations) declarations _) as [chunks|] eqn:E;
    [|done].
  unfold chunkArray in *.
  by rewrite (chunkArray_loop_fuel_mono _ fuel _ _ _ _ E Hfuel).
Qed.

Lemma eraseTimes_executionCompleted (e e' : AuditExecutionResult.t) :
  eraseTimes e = eraseTimes e' →
  eraseTimes (executionCompleted e) = eraseTimes (executionCompleted e').
Proof.
  intros Heq. pose proof (executionCompleted_eraseTimes e e' Heq) as Hm.
  change (eraseTimes (executionCompleted e))
    with (mk (caseId (eraseTimes e)) completed true
            (totalDeclarations (eraseTimes e))
            (processedDeclarations (eraseTimes e))
            (failedDeclarations (eraseTimes e))
            (agentResults (eraseTimes e))
            (ghanaMetrics (executionCompleted e))
            (errors (eraseTimes e))).
  change (eraseTimes (executionCompleted e'))
    with (mk (caseId (eraseTimes e')) completed true
            (totalDeclarations (eraseTimes e'))
            (processedDeclarations (eraseTimes e'))
            (failedDeclarations (eraseTimes e'))
            (agentResults (eraseTimes e'))
            (ghanaMetrics (executionCompleted e'))
            (errors (eraseTimes e'))).
  by rewrite Heq, Hm.
Qed.

(** X29.  For a positive [maxConcurrency] the two modes return, and return
    executions with the same Ghana metrics, whatever durations the agents
    measure in either run.  They also agree on the status, on the three
    counters and, up to the durations, on the list of agent results and
    its order. *)
Theorem modes_agree_for_positive_concurrency
    (clockS clockP : string → Declaration.t → Z)
    (config : AuditExecutionConfig.t) (maxConcurrency : Z)
    (declarations : list Declaration.t) :
  (1 <= maxConcurrency)%Z →
  ∃ fuel0, ∀ fuel, (fuel0 <= fuel)%nat →
    ∃ eS eP,
      executeAudit clockS fuel (withExecutionMode false maxConcurrency config)
        declarations = Some eS
      ∧ executeAudit clockP fuel (withExecutionMode true maxConcurrency config)
          declarations = Some eP
      ∧ ghanaMetrics eS = ghanaMetrics eP
      ∧ status eS = status eP
      ∧ totalDeclarations eS = totalDeclarations eP
      ∧ processedDeclarations eS = processedDeclarations eP
      ∧ failedDeclarations eS = failedDeclarations eP
      ∧ eraseTime <$> agentResults eS = eraseTime <$> agentResults eP.
Proof.
  intros Hc.
  enough (∃ fuel0, ∀ fuel, (fuel0 <= fuel)%nat →
    ∃ eS eP,
      executeAudit clockS fuel (withExecutionMode false maxConcurrency config)
        declarations = Some eS
      ∧ executeAudit clockP fuel (withExecutionMode true maxConcurrency config)
          declarations = Some eP
      ∧ ghanaMetrics eS = ghanaMetrics eP
      ∧ eraseTimes eS = eraseTimes eP) as (fuel0 & H).
  { exists fuel0. intros fuel Hfuel.
    destruct (H fuel Hfuel) as (eS & eP & HS & HP & Hm & Heq).
    exists eS, eP. split; [done|]. split; [done|]. split; [done|].
    split; [exact (f_equal status Heq)|].
    split; [exact (f_equal totalDeclarations Heq)|].
    split; [exact (f_equal processedDeclarations Heq)|].
    split; [exact (f_equal failedDeclarations Heq)|].
    exact (f_equal agentResults Heq). }
  unfold executeAudit.
  change (filterDeclarations declarations (withExecutionMode true maxConcurrency config))
    with (filterDeclarations declarations (withExecutionMode false maxConcurrency config)).
  destruct (filterDeclarations declarations _) as [filtered|].
  - exists (length filtered). intros fuel Hfuel.
    cbn [withExecutionMode AuditExecutionConfig.executionOptions
         ExecutionOptions.parallelExecution].
    rewrite executeParallel_fuel by done. cbn [mbind option_bind].
    eexists _, _. split; [reflexivity|]. split; [reflexivity|].
    assert (Heq : eraseTimes
      (executeSequential clockS
         (setTotalDeclarations (length filtered)
            (initial (withExecutionMode false maxConcurrency config) declarations))
         filtered (withExecutionMode false maxConcurrency config))
      = eraseTimes
      (executeSequential clockP
         (setTotalDeclarations (length filtered)
            (initial (withExecutionMode true maxConcurrency config) declarations))
         filtered (withExecutionMode true maxConcurrency config))).
    { change (executeSequential clockP ?e filtered
                (withExecutionMode true maxConcurrency config))
        with (executeSequential clockP e filtered
                (withExecutionMode false maxConcurrency config)).
      by apply executeSequential_time. }
    split; [by apply executionCompleted_eraseTimes|].
    by apply eraseTimes_executionCompleted.
  - exists 0%nat. intros fuel _. eexists _, _. by repeat split.
Qed.
End ModesAgree.

Section ModeDefect.
Import GhanaAuditRunner AuditExecutionResult.

Lemma sequential_mode_completes_on_zero_concurrency
    (clock : string → Declaration.t → Z) (fuel : nat) :
  match executeAudit clock fuel (withExecutionMode false 0 defaultConfig)
          [mockDeclaration] with
  | Some e => status e = completed
  | None => False
  end.
Proof. vm_compute. reflexivity. Qed.

(** C1.  The specification has the two modes produce the same Ghana metrics
    for every configuration.  With [maxConcurrency = 0] and the one
    declaration of the API's test data, parallel mode produces nothing:
    [chunkArray] never leaves its loop, whatever the fuel, while
    sequential mode completes.  ([modes_agree_for_positive_concurrency]
    has the agreement for every positive [maxConcurrency].) *)
Theorem parallel_mode_hangs_on_zero_concurrency
    (clock : string → Declaration.t → Z) (fuel : nat) :
  executeAudit clock fuel (withExecutionMode true 0 defaultConfig)
    [mockDeclaration] = None
  ∧ ∃ e, executeAudit clock fuel (withExecutionMode false 0 defaultConfig)
           [mockDeclaration] = Some e
         ∧ status e = completed.
Proof.
  split.
  - unfold executeAudit.
    change (filterDeclarations [mockDeclaration] (withExecutionMode true 0 defaultConfig))
      with (Some [mockDeclaration]).
    cbn [withExecutionMode AuditExecutionConfig.executionOptions
         ExecutionOptions.parallelExecution].
    by rewrite executeParallel_diverges.
  - pose proof (sequential_mode_completes_on_zero_concurrency clock fuel) as H.
    destruct (executeAudit clock fuel (withExecutionMode false 0 defaultConfig)
                [mockDeclaration]) as [e|]; [|done].
    by exists e.
Qed.
End ModeDefect.

(** ** The risk distribution *)

Section RiskDistribution.
Import GhanaAuditRunner AuditExecutionResult.

Lemma riskBucket_low (result : AgentResult.t) : riskBucket result = "low".
Proof. reflexivity. Qed.

Lemma increment_low_all (results : list AgentResult.t) (k : nat)
    (counts : gmap string nat) :
  fold_left (fun counts result => increment (riskBucket result) counts)
    results (<["low" := k]> counts)
  = <["low" := (k + length results)%nat]> counts.
Proof.
  revert k. induction results as [|r rs IH]; intros k.
  - cbn. by rewrite Nat.add_0_r.
  - cbn [fold_left length]. rewrite riskBucket_low. unfold increment at 2.
    rewrite alter_insert_eq, IH. f_equal. lia.
Qed.

Lemma executeSequential_ghanaMetrics clock config declarations execution :
  ghanaMetrics (executeSequential clock execution declarations config)
  = ghanaMetrics execution.
Proof.
  unfold executeSequential. revert execution.
  induction declarations as [|d rest IH]; intros execution; [done|].
  cbn [fold_left]. rewrite IH. unfold sequentialStep.
  by destruct (processDeclaration clock d config).
Qed.

(** Every completed execution counts all of its agent results under
    "low" and none under the other three levels, whatever their risk
    scores are; the four counts do add up to the number of results. *)
Lemma completed_riskDistribution clock fuel config declarations e :
  executeAudit clock fuel config declarations = Some e →
  status e = completed →
  GhanaMetrics.riskDistribution (ghanaMetrics e)
  = <["low" := length (agentResults e)]> (<["medium" := 0]> (<["high" := 0]>
      (<["critical" := 0]> ∅))).
Proof.
  unfold executeAudit. intros He Hst.
  destruct (filterDeclarations declarations config) as [filtered|];
    [|by simplify_eq].
  destruct (if ExecutionOptions.parallelExecution _ then _ else _)
    as [e1|] eqn:Hmode; [|done].
  cbn [mbind option_bind] in He. simplify_eq. clear Hst.
  assert (Hm : ghanaMetrics e1 = GhanaMetrics.initial).
  { destruct (ExecutionOptions.parallelExecution _).
    - unfold executeParallel in Hmode.
      destruct (chunkArray fuel filtered _) as [chunks|]; [|done].
      cbn in Hmode. simplify_eq.
      rewrite parallelChunks_sequential.
      apply (executeSequential_ghanaMetrics clock config (concat chunks)).
    - simplify_eq. apply executeSequential_ghanaMetrics. }
  unfold executionCompleted, calculateFinalMetrics, calculateGhanaMetrics.
  cbn [ghanaMetrics setEndTime setStatus setGhanaMetrics agentResults
       GhanaMetrics.riskDistribution].
  rewrite Hm. unfold GhanaMetrics.initial. cbn [GhanaMetrics.riskDistribution].
  by rewrite increment_low_all.
Qed.

Lemma cotton_audit (clock : string → Declaration.t → Z) :
  match executeAudit clock 1 sequentialConfig [divertedCotton] with
  | Some e =>
      match agentResults e with
      | r :: _ =>
          AgentResult.agentType r = "ecowas-origin"
          ∧ AgentResult.riskScore r = 85%Z
          ∧ GhanaMetrics.riskDistribution (ghanaMetrics e) !! "critical" = Some 0
          ∧ GhanaMetrics.riskDistribution (ghanaMetrics e) !! "low"
            = Some (length (agentResults e))
      | [] => False
      end
  | None => False
  end.
Proof. vm_compute. by repeat split. Qed.

(** C3.  The specification has a result with risk score 85 counted under
    "critical".  Auditing [divertedCotton] yields the origin agent's
    result with risk score 85, and the completed execution has
    [critical = 0]: the result is counted under "low", as every result
    is, because the aggregation reads [result.riskLevel], which no agent
    result has. *)
Theorem risk_score_85_is_counted_low (clock : string → Declaration.t → Z) :
  ∃ e r,
    executeAudit clock 1 sequentialConfig [divertedCotton] = Some e
    ∧ r ∈ agentResults e
    ∧ AgentResult.agentType r = "ecowas-origin"
    ∧ AgentResult.riskScore r = 85%Z
    ∧ GhanaMetrics.riskDistribution (ghanaMetrics e) !! "critical" = Some 0
    ∧ GhanaMetrics.riskDistribution (ghanaMetrics e) !! "low"
      = Some (length (agentResults e)).
Proof.
  pose proof (cotton_audit clock) as H.
  destruct (executeAudit clock 1 sequentialConfig [divertedCotton]) as [e|];
    [|done].
  destruct (agentResults e) as [|r rs] eqn:Hr; [done|].
  exists e, r. rewrite Hr. split; [done|].
  split; [apply list_elem_of_here|]. exact H.
Qed.
End RiskDistribution.

(** ** The transition system and [executeAudit] *)

Section ChunkingOutcome.
Context {T : Type}.

(** Whatever the chunk size, the chunks a returning [chunkArray] yields
    make up the array. *)
Lemma chunkArray_loop_concat (fuel : nat) (array : list T) (chunkSize i : Z)
    (chunks : list (list T)) :
  (0 <= i)%Z →
  chunkArray_loop fuel array chunkSize i = Some chunks →
  concat chunks = drop (Z.to_nat i) array.
Proof.
  revert i chunks. induction fuel as [|fuel IH]; intros i chunks Hi H; cbn in H.
  - destruct (Z.ltb_spec i (Z.of_nat (length array))); [done|].
    simplify_eq. by rewrite drop_ge by lia.
  - destruct (Z.ltb_spec i (Z.of_nat (length array))) as [Hin|Hout].
    + destruct (Z.le_gt_cases chunkSize 0) as [Hc|Hc].
      * by rewrite chunkArray_loop_diverges in H by lia.
      * destruct (chunkArray_loop fuel array chunkSize (i + chunkSize))
          as [rest|] eqn:E; [|done].
        cbn in H. simplify_eq. cbn [concat].
        rewrite (IH (i + chunkSize)%Z rest ltac:(lia) E), slice_chunk by lia.
        rewrite Z2Nat.inj_add by lia. rewrite <- drop_drop. apply take_drop.
    + simplify_eq. by rewrite drop_ge by lia.
Qed.

Lemma chunkArray_concat (fuel : nat) (array : list T) (chunkSize : Z)
    (chunks : list (list T)) :
  chunkArray fuel array chunkSize = Some chunks → concat chunks = array.
Proof. intros H. by apply chunkArray_loop_concat in H. Qed.

(** One more iteration than the array has elements is enough fuel
    whenever any fuel is. *)
Lemma chunkArray_enough_fuel (fuel : nat) (array : list T) (chunkSize : Z)
    (chunks : list (list T)) :
  chunkArray fuel array chunkSize = Some chunks →
  chunkArray (S (length array)) array chunkSize = Some chunks.
Proof.
  intros H. destruct (Z.le_gt_cases chunkSize 0) as [Hc|Hc].
  - destruct array as [|x array].
    + destruct fuel; cbn in H; by simplify_eq.
    + by rewrite chunkArray_diverges in H.
  - destruct (chunkArray_terminates array chunkSize ltac:(lia))
      as (chunks' & H' & _).
    unfold chunkArray in *.
    pose proof (chunkArray_loop_fuel_mono _ (fuel `max` S (length array))
                  _ _ _ _ H ltac:(lia)) as H1.
    pose proof (chunkArray_loop_fuel_mono _ (fuel `max` S (length array))
                  _ _ _ _ H' ltac:(lia)) as H2.
    rewrite (chunkArray_loop_fuel_mono _ (S (length array)) _ _ _ _ H') by lia.
    congruence.
Qed.
End ChunkingOutcome.

Section Agreement.
Import GhanaAuditRunner AuditExecutionResult Machine.
Variable clock : string → Declaration.t → Z.
Variable config : AuditExecutionConfig.t.

Notation "s1 '~>*' s2" := (rtc (internal clock config) s1 s2) (at level 70).

Lemma run_sequential rest execution :
  (InSequential rest, execution)
  ~>* (InSequential [], executeSequential clock execution rest config).
Proof.
  revert execution. induction rest as [|d rest IH]; intros execution.
  - apply rtc_refl.
  - eapply rtc_l; [reflexivity|]. apply IH.
Qed.

Lemma run_map pending settled chunks execution :
  (InMap pending settled chunks, execution)
  ~>* (InMap [] (settled ++ (settleAll clock config pending execution).2) chunks,
       (settleAll clock config pending execution).1).
Proof.
  revert settled execution. induction pending as [|d rest IH]; intros settled execution.
  - cbn. rewrite app_nil_r. apply rtc_refl.
  - destruct (settle clock config d execution) as [e1 r] eqn:E.
    apply rtc_l with (InMap rest (settled ++ [r]) chunks, e1).
    + unfold internal. cbn [next]. by rewrite E.
    + cbn [settleAll]. rewrite E.
      specialize (IH (settled ++ [r]) e1).
      destruct (settleAll clock config rest e1) as [e2 rs] eqn:E2.
      cbn [fst snd] in *. by rewrite <- app_assoc in IH.
Qed.

Lemma run_forEach results chunks execution :
  (InForEach results chunks, execution)
  ~>* (InForEach [] chunks, fold_left mergeResult results execution).
Proof.
  revert execution. induction results as [|r rest IH]; intros execution.
  - apply rtc_refl.
  - eapply rtc_l; [reflexivity|]. apply IH.
Qed.

Lemma run_chunks chunks execution :
  (InChunks chunks, execution)
  ~>* (InChunks [], fold_left (parallelChunk clock config) chunks execution).
Proof.
  revert execution. induction chunks as [|chunk rest IH]; intros execution.
  - apply rtc_refl.
  - eapply rtc_l; [reflexivity|].
    etrans; [apply run_map|]. cbn [app].
    eapply rtc_l; [reflexivity|].
    etrans; [apply run_forEach|].
    eapply rtc_l; [reflexivity|].
    cbn [fold_left]. unfold parallelChunk at 2.
    destruct (settleAll clock config chunk execution) as [e1 rs]. apply IH.
Qed.

(** Every result of [executeAudit] is the execution object of a run of
    the machine that ends in [Returned]. *)
Lemma executeAudit_run fuel declarations e :
  executeAudit clock fuel config declarations = Some e →
  initialState config declarations ~>* (Returned, e).
Proof.
  unfold executeAudit, initialState. intros H.
  destruct (filterDeclarations declarations config) as [filtered|] eqn:Hf.
  - destruct (ExecutionOptions.parallelExecution
                (AuditExecutionConfig.executionOptions config)) eqn:Hp.
    + unfold executeParallel in H.
      destruct (chunkArray fuel filtered _) as [chunks|] eqn:Hc; [|done].
      cbn in H. simplify_eq.
      eapply rtc_l.
      { unfold internal. cbn [next]. rewrite Hf, Hp.
        by rewrite (chunkArray_enough_fuel _ _ _ _ Hc). }
      etrans; [apply run_chunks|]. by eapply rtc_l; [|apply rtc_refl].
    + cbn in H. simplify_eq.
      eapply rtc_l.
      { unfold internal. cbn [next]. by rewrite Hf, Hp. }
      etrans; [apply run_sequential|]. by eapply rtc_l; [|apply rtc_refl].
  - simplify_eq. eapply rtc_l; [|apply rtc_refl].
    unfold internal. cbn [next]. by rewrite Hf.
Qed.

Lemma internal_step s s' : internal clock config s s' → step clock config s s'.
Proof. apply step_internal. Qed.

Lemma executeAudit_reachable fuel declarations e :
  executeAudit clock fuel config declarations = Some e →
  reachable clock config declarations (Returned, e).
Proof.
  intros H. unfold reachable.
  eapply rtc_subrel; [|by eapply executeAudit_run].
  intros ??. apply internal_step.
Qed.
End Agreement.

(** ** The declaration counters *)

Section Counters.
Import GhanaAuditRunner AuditExecutionResult Machine.
Variable clock : string → Declaration.t → Z.
Variable config : AuditExecutionConfig.t.









End Counters.

Section CountersClaim.
Import GhanaAuditRunner AuditExecutionResult Machine.




Lemma mock_audit_completes :
  match executeAudit (fun _ _ => 3%Z) 1 defaultConfig [mockDeclaration] with
  | Some e => status e = completed ∧ processedDeclarations e = 1
  | None => False
  end.
Proof. vm_compute. done. Qed.

End CountersClaim.

(** ** The status *)

Section StatusClaim.
Import GhanaAuditRunner AuditExecutionResult Machine.

Lemma sequentialStep_status clock config e d :
  status (sequentialStep clock config e d) = status e.
Proof.
  unfold sequentialStep. by destruct (processDeclaration clock d config).
Qed.

(** X30.  Once [executeAudit] has returned the status is completed or failed,
    whatever calls of [cancelExecution] came before or come after: a
    cancellation does not survive the return. *)
Lemma returned_status clock config declarations e :
  reachable clock config declarations (Returned, e) →
  status e = completed ∨ status e = failed.
Proof.
  unfold reachable.
  enough (∀ s, rtc (step clock config) (initialState config declarations) s →
               s.1 = Returned →
               status s.2 = completed ∨ status s.2 = failed) as H
    by (intros Hr; exact (H _ Hr eq_refl)).
  apply (rtc_ind_r (fun s => s.1 = Returned →
                             status s.2 = completed ∨ status s.2 = failed));
    [done|].
  intros s1 s2 _ Hstep IH Hret. destruct Hstep as [s1 s2 Hnext|pc e' _].
  - destruct s1 as [pc e1], s2 as [pc2 e2]. cbn [fst snd] in *. subst pc2.
    destruct pc as [ds|[|d rest]| |[|c cs]|[|d p] st cs|[|r rs] cs|];
      cbn [next] in Hnext; try (by simplify_eq).
    + destruct (filterDeclarations ds config); [|simplify_eq; by right].
      destruct (ExecutionOptions.parallelExecution _);
        [destruct (chunkArray _ _ _)|]; by simplify_eq.
    + simplify_eq. by left.
    + simplify_eq. by left.
    + destruct (settle clock config d e1). by simplify_eq.
  - cbn [fst snd] in *. specialize (IH Hret).
    unfold cancelExecution. case_bool_decide as Hrun; [|done].
    rewrite Hrun in IH. by destruct IH.
Qed.

(** C8.  The specification has a cancelled execution never change its status
    again.  In the sequential audit of the API's test declaration, let
    [cancelExecution] be called once the declaration has been processed,
    as the progress callback of the caller may do: the status becomes
    cancelled, and the next step of [executeAudit] overwrites it with
    completed. *)
Theorem cancelled_execution_ends_completed
    (clock : string → Declaration.t → Z) :
  ∃ pc e1 e2,
    reachable clock sequentialConfig [mockDeclaration] (pc, e1)
    ∧ status e1 = cancelled
    ∧ step clock sequentialConfig (pc, e1) (Returned, e2)
    ∧ status e2 = completed.
Proof.
  set (e0 := initial sequentialConfig [mockDeclaration]).
  set (e := sequentialStep clock sequentialConfig
              (setTotalDeclarations 1 e0) mockDeclaration).
  assert (Hrunning : status e = running) by apply sequentialStep_status.
  exists (InSequential []), (cancelExecution e).1,
         (executionCompleted (cancelExecution e).1).
  split; [|split; [|split]].
  - unfold reachable, initialState.
    eapply rtc_l; [apply step_internal; reflexivity|].
    eapply rtc_l; [apply step_internal; reflexivity|].
    eapply rtc_l; [by apply (step_cancel _ _ (InSequential []) e)|].
    apply rtc_refl.
  - unfold cancelExecution. by rewrite Hrunning.
  - by apply step_internal.
  - reflexivity.
Qed.
End StatusClaim.

(** * Further properties *)

(** ** The agents: what every result satisfies *)

(** Membership in a list that is written out. *)
Ltac explicit_list :=
  repeat match goal with
  | H : _ ∈ _ ++ _ |- _ => apply elem_of_app in H as [H|H]
  | H : _ ∈ _ :: _ |- _ => apply elem_of_cons in H as [H|H]
  | H : _ ∈ [] |- _ => by apply elem_of_nil in H
  | H : _ = _ |- _ => discriminate H
  end;
  subst; rewrite ?elem_of_app, ?elem_of_cons; auto 10.

Lemma Qlt_bool_iff (x y : Q) : Qlt_bool x y = true ↔ (x < y)%Q.
Proof. exact (Qgt_bool_iff y x). Qed.

Lemma pushIssues_riskScore issues w a :
  (0 <= w)%Z → (0 <= acc_riskScore a)%Z →
  (0 <= acc_riskScore (pushIssues issues w a))%Z.
Proof. intros Hw Ha. cbn. nia. Qed.

Lemma ecowas_result_bounds (elapsed : Z) (d : Declaration.t) (r : AgentResult.t) :
  ECOWASOriginVerificationAgent.analyze elapsed d = Some r →
  (0 <= AgentResult.riskScore r <= 100)%Z
  ∧ (0 <= AgentResult.confidence r <= 1)%Q.
Proof.
  unfold ECOWASOriginVerificationAgent.analyze,
    ECOWASOriginVerificationAgent.originClaimChecks,
    ECOWASOriginVerificationAgent.verifyDocuments.
  intros H.
  repeat case_match; simplify_eq; cbn in H; simplify_eq; cbn;
    (split; [lia | split; apply Qle_bool_imp_le; reflexivity]).
Qed.

Lemma petroleum_result_bounds (elapsed : Z) (d : Declaration.t) (r : AgentResult.t) :
  PetroleumATGAnalyzer.analyze elapsed d = Some r →
  (0 <= AgentResult.riskScore r <= 100)%Z
  ∧ (0 <= AgentResult.confidence r <= 1)%Q.
Proof.
  unfold PetroleumATGAnalyzer.analyze. intros H.
  destruct (Declaration.hsCode d) as [hs|]; [|done]. cbn [mbind option_bind] in H.
  destruct (negb _); simplify_eq.
  { cbn. split; [lia | split; apply Qle_bool_imp_le; reflexivity]. }
  cbn [AgentResult.riskScore AgentResult.confidence generateResult].
  split.
  - split; [|lia]. apply Z.min_glb; [lia|].
    repeat apply pushIssues_riskScore; try lia.
    repeat case_match; try apply pushIssues_riskScore; cbn; lia.
  - repeat case_match; cbn; split; apply Qle_bool_imp_le; reflexivity.
Qed.

Lemma tax_result_bounds (elapsed : Z) (d : Declaration.t) (r : AgentResult.t) :
  GhanaTaxComplianceAgent.analyze elapsed d = Some r →
  (0 <= AgentResult.riskScore r <= 100)%Z
  ∧ (0 <= AgentResult.confidence r <= 1)%Q.
Proof.
  unfold GhanaTaxComplianceAgent.analyze. intros [= <-].
  cbn [AgentResult.riskScore AgentResult.confidence generateResult].
  split; [|split; apply Qle_bool_imp_le; reflexivity].
  split; [|lia]. apply Z.min_glb; [lia|].
  repeat apply pushIssues_riskScore; cbn; lia.
Qed.

Lemma tsa_result_bounds (elapsed : Z) (d : Declaration.t) (r : AgentResult.t) :
  TSAPaymentReconciliationAgent.analyze elapsed d = Some r →
  (0 <= AgentResult.riskScore r <= 100)%Z
  ∧ (0 <= AgentResult.confidence r <= 1)%Q.
Proof.
  unfold TSAPaymentReconciliationAgent.analyze. intros [= <-].
  cbn [AgentResult.riskScore AgentResult.confidence generateResult].
  split; [|split; apply Qle_bool_imp_le; reflexivity].
  split; [|lia]. apply Z.min_glb; [lia|].
  repeat apply pushIssues_riskScore; cbn; lia.
Qed.

Lemma agent_result_identity (ty : string) (agent : GhanaAuditRunner.Agent)
    (elapsed : Z) (d : Declaration.t) (r : AgentResult.t) :
  (ty, agent) ∈ initializeAgents →
  agent elapsed d = Some r →
  AgentResult.agentType r = ty
  ∧ AgentResult.declarationId r = Declaration.idOrDeclarationId d
  ∧ AgentResult.processingTime r = elapsed.
Proof.
  unfold initializeAgents. intros Hin H.
  repeat (apply elem_of_cons in Hin as [[= -> ->] | Hin]);
    [| | | |by apply elem_of_nil in Hin].
  - unfold ECOWASOriginVerificationAgent.analyze in H.
    destruct (if Declaration.ecowasOrigin d then _ else _); [|done].
    cbn in H. by simplify_eq.
  - unfold PetroleumATGAnalyzer.analyze in H.
    destruct (Declaration.hsCode d); [|done]. cbn [mbind option_bind] in H.
    destruct (negb _); by simplify_eq.
  - unfold GhanaTaxComplianceAgent.analyze in H. by simplify_eq.
  - unfold TSAPaymentReconciliationAgent.analyze in H. by simplify_eq.
Qed.

Lemma registered_result_bounds (ty : string) (agent : GhanaAuditRunner.Agent)
    (elapsed : Z) (d : Declaration.t) (r : AgentResult.t) :
  (ty, agent) ∈ initializeAgents →
  agent elapsed d = Some r →
  (0 <= AgentResult.riskScore r <= 100)%Z
  ∧ (0 <= AgentResult.confidence r <= 1)%Q.
Proof.
  unfold initializeAgents. intros Hin H.
  repeat (apply elem_of_cons in Hin as [[= -> ->] | Hin]);
    [| | | |by apply elem_of_nil in Hin].
  - by apply (ecowas_result_bounds elapsed d).
  - by apply (petroleum_result_bounds elapsed d).
  - by apply (tax_result_bounds elapsed d).
  - by apply (tsa_result_bounds elapsed d).
Qed.

(** X1.  Whatever one of the four registered agents returns for a
    declaration satisfies the bounds of [AgentResultSchema] and names its
    origin: the risk score lies between 0 and 100, the confidence between
    0 and 1, the agent type is the key the agent is registered under, the
    declaration id is [id || declarationId] of the declaration, and the
    processing time is the measured duration. *)
Theorem agent_result_within_schema (ty : string)
    (agent : GhanaAuditRunner.Agent) (elapsed : Z) (d : Declaration.t)
    (r : AgentResult.t) :
  (ty, agent) ∈ initializeAgents →
  agent elapsed d = Some r →
  AgentResult.agentType r = ty
  ∧ AgentResult.declarationId r = Declaration.idOrDeclarationId d
  ∧ AgentResult.processingTime r = elapsed
  ∧ (0 <= AgentResult.riskScore r <= 100)%Z
  ∧ (0 <= AgentResult.confidence r <= 1)%Q.
Proof.
  intros Hin H.
  destruct (agent_result_identity ty agent elapsed d r Hin H) as (H1 & H2 & H3).
  destruct (registered_result_bounds ty agent elapsed d r Hin H) as [H4 H5].
  split; [exact H1|]. split; [exact H2|]. split; [exact H3|].
  split; [exact H4|exact H5].
Qed.

Lemma agent_result_within_schema_witness :
  ("ecowas-origin", ECOWASOriginVerificationAgent.analyze) ∈ initializeAgents
  ∧ ∃ r, ECOWASOriginVerificationAgent.analyze 3 divertedCotton = Some r
         ∧ AgentResult.agentType r = "ecowas-origin"
         ∧ AgentResult.declarationId r
           = Declaration.idOrDeclarationId divertedCotton
         ∧ AgentResult.processingTime r = 3%Z
         ∧ (0 <= AgentResult.riskScore r <= 100)%Z
         ∧ (0 <= AgentResult.confidence r <= 1)%Q.
Proof.
  assert (Hin : ("ecowas-origin", ECOWASOriginVerificationAgent.analyze)
                ∈ initializeAgents) by (unfold initializeAgents; constructor).
  split; [exact Hin|].
  eexists. split; [reflexivity|].
  exact (agent_result_within_schema _ _ 3 divertedCotton _ Hin eq_refl).
Defined.

(** X2.  The origin agent throws for exactly one kind of declaration: one
    that claims ECOWAS origin, declares a value other than zero and has
    no HS code.  Every other declaration, with or without an HS code,
    gets a result. *)
Theorem origin_agent_throws_iff (elapsed : Z) (d : Declaration.t) :
  ECOWASOriginVerificationAgent.analyze elapsed d = None
  ↔ Declaration.ecowasOrigin d = true
    ∧ ¬ (Declaration.value d == 0)%Q
    ∧ Declaration.hsCode d = None.
Proof.
  unfold ECOWASOriginVerificationAgent.analyze,
    ECOWASOriginVerificationAgent.originClaimChecks,
    ECOWASOriginVerificationAgent.isUnderValued, truthyNum.
  destruct (Declaration.ecowasOrigin d); [|cbn; split; [done|by intros [? _]]].
  destruct (Qeq_bool (Declaration.value d) 0) eqn:Hv; cbn [negb].
  - apply Qeq_bool_iff in Hv. cbn. split; [done|]. by intros (_ & Hn & _).
  - assert (Hne : ¬ (Declaration.value d == 0)%Q).
    { intros Heq. apply Qeq_bool_iff in Heq. congruence. }
    destruct (Declaration.hsCode d) as [hs|].
    + split; [|by intros (_ & _ & ?)].
      destruct (ECOWASOriginVerificationAgent.isUnderValued_loop _ _ _); cbn; done.
    + cbn. by split.
Qed.

(** The comparison of [isUnderValued] against 80% of a market value that
    is the declared value times a multiplier above 1.25 only asks whether
    the declared value is positive. *)
Lemma underValued_multiplier (v m : Q) :
  (1 < m * 0.8)%Q →
  Qlt_bool v (v * m * 0.8) = Qlt_bool 0 v.
Proof.
  intros Hm. apply Qlt_minus_iff in Hm.
  apply eq_true_iff_eq. rewrite !Qlt_bool_iff.
  rewrite (Qlt_minus_iff v).
  assert (Heq : (v * m * 0.8 + - v == v * (m * 0.8 + - (1)))%Q) by ring.
  rewrite Heq. clear Heq.
  split; intros H.
  - destruct (Qlt_le_dec 0 v) as [|Hle]; [done|]. exfalso.
    apply (Qlt_not_le _ _ H).
    apply Qle_trans with (0 * (m * 0.8 + - (1)))%Q;
      [|rewrite Qmult_0_l; apply Qle_refl].
    apply Qmult_le_compat_r; [exact Hle | by apply Qlt_le_weak].
  - by apply Qmult_lt_0_compat.
Qed.

Lemma isUnderValued_loop_spec (hs : string) (v : Q) :
  ECOWASOriginVerificationAgent.isUnderValued_loop hs v
    ECOWASOriginVerificationAgent.marketValueMultipliers
  = ECOWASOriginVerificationAgent.isHighRiskHSCode hs && Qlt_bool 0 v.
Proof.
  unfold ECOWASOriginVerificationAgent.marketValueMultipliers,
    ECOWASOriginVerificationAgent.isHighRiskHSCode, some.
  cbn [ECOWASOriginVerificationAgent.isUnderValued_loop existsb].
  repeat (destruct (startsWith hs _);
          [cbn [orb andb]; apply underValued_multiplier; reflexivity|]).
  reflexivity.
Qed.

(** X3.  For a declaration that claims ECOWAS origin, the origin agent
    reports under-valuation exactly when the HS code starts with one of
    the five listed prefixes and the declared value is positive: the
    amount declared plays no part beyond its sign. *)
Theorem under_valuation_ignores_amount (elapsed : Z) (d : Declaration.t)
    (hs : string) (r : AgentResult.t) :
  Declaration.hsCode d = Some hs →
  Declaration.ecowasOrigin d = true →
  ECOWASOriginVerificationAgent.analyze elapsed d = Some r →
  (Finding.mk "under-valuation" medium ∈ AgentResult.findings r
   ↔ ECOWASOriginVerificationAgent.isHighRiskHSCode hs = true
     ∧ (0 < Declaration.value d)%Q).
Proof.
  intros Hhs Heo.
  unfold ECOWASOriginVerificationAgent.analyze,
    ECOWASOriginVerificationAgent.originClaimChecks,
    ECOWASOriginVerificationAgent.isUnderValued,
    ECOWASOriginVerificationAgent.verifyDocuments, truthyNum.
  rewrite Heo, Hhs, isUnderValued_loop_spec. cbn beta iota.
  rewrite <- Qlt_bool_iff.
  destruct (Qeq_bool (Declaration.value d) 0) eqn:Hv; cbn [negb].
  - assert (Hz : Qlt_bool 0 (Declaration.value d) = false).
    { apply Qeq_bool_iff in Hv. apply not_true_is_false.
      rewrite Qlt_bool_iff, Hv. apply Qlt_irrefl. }
    rewrite Hz. intros H.
    repeat case_match; simplify_eq; cbn in H; simplify_eq; cbn;
      (split; [intros Hin; explicit_list | by intros [_ ?]]).
  - intros H.
    destruct (ECOWASOriginVerificationAgent.isHighRiskHSCode hs);
      destruct (Qlt_bool 0 (Declaration.value d)); cbn [andb] in *;
      repeat case_match; simplify_eq; cbn in H; simplify_eq; cbn;
      (split; [intros Hin; explicit_list
              | try (by intros [? ?]); intros _; explicit_list]).
Qed.

Lemma under_valuation_ignores_amount_witness :
  Declaration.hsCode divertedCotton = Some "52010000"
  ∧ Declaration.ecowasOrigin divertedCotton = true
  ∧ ∃ r, ECOWASOriginVerificationAgent.analyze 3 divertedCotton = Some r
         ∧ (Finding.mk "under-valuation" medium ∈ AgentResult.findings r
            ↔ ECOWASOriginVerificationAgent.isHighRiskHSCode "52010000" = true
              ∧ (0 < Declaration.value divertedCotton)%Q).
Proof.
  split; [reflexivity|]. split; [reflexivity|].
  eexists. split; [reflexivity|].
  exact (under_valuation_ignores_amount 3 divertedCotton "52010000" _
           eq_refl eq_refl eq_refl).
Defined.

(** X4.  For a petroleum HS code the petroleum agent reports a violation
    exactly when the tank gauge was not applied, the gauge certificate is
    missing, or the gauge read less than 95% of the declared volume.  Tax
    discrepancies, a volume-weight mismatch and a missing quality
    certificate raise the risk score but never make a violation. *)
Theorem petroleum_violation_only_from_gauge (elapsed : Z) (d : Declaration.t)
    (hs : string) (r : AgentResult.t) :
  Declaration.hsCode d = Some hs →
  (∃ code, code ∈ PetroleumATGAnalyzer.petroleumHSCodes
           ∧ startsWith hs code = true) →
  PetroleumATGAnalyzer.analyze elapsed d = Some r →
  (AgentResult.hasViolation r = true
   ↔ Declaration.atgApplicable d = false
     ∨ Declaration.atgCertificate d = false
     ∨ ∃ readings vol,
         Declaration.atgReadings d = Some readings
         ∧ Declaration.volume d = Some vol
         ∧ (ATGReadings.finalVolume readings < vol * 0.95)%Q).
Proof.
  intros Hhs Hpetro.
  apply (some_true_iff (fun code => startsWith hs code)) in Hpetro.
  unfold PetroleumATGAnalyzer.analyze. rewrite Hhs. cbn [mbind option_bind].
  rewrite Hpetro. cbn [negb]. intros [= <-].
  cbn [AgentResult.hasViolation generateResult pushIssues acc_hasViolation].
  assert (Hkeep : ∀ a b : Acc,
    acc_hasViolation
      match Declaration.volume d, Declaration.weight d with
      | Some vol, Some wt =>
          if truthyNum vol && truthyNum wt
          then pushIssues (PetroleumATGAnalyzer.analyzeVolumeWeight vol wt) 20 a
          else a
      | _, _ => a
      end = acc_hasViolation a).
  { intros a _. by repeat case_match. }
  rewrite Hkeep; [|exact (mkAcc false 0 [] 0)].
  destruct (Declaration.atgApplicable d); [|cbn; split; [by left|done]].
  cbn [acc_hasViolation pushIssues].
  unfold PetroleumATGAnalyzer.checkATGCompliance.
  destruct (Declaration.atgCertificate d); cbn [negb app];
    [|cbn; split; [right; by left|done]].
  destruct (Declaration.atgReadings d) as [readings|];
    [|cbn; split; [done|]; intros [?|[?|(? & ? & ? & _)]]; done].
  destruct (Declaration.volume d) as [vol|];
    [|cbn; split; [done|]; intros [?|[?|(? & ? & _ & ? & _)]]; done].
  destruct (Qlt_bool _ _) eqn:Hlt; cbn.
  - split; [|done]. intros _. right. right. exists readings, vol.
    by rewrite <- Qlt_bool_iff.
  - split; [done|]. intros [?|[?|(? & ? & ? & ? & Hlt')]]; try done.
    simplify_eq. apply Qlt_bool_iff in Hlt'. congruence.
Qed.

Lemma petroleum_violation_only_from_gauge_witness :
  Declaration.hsCode gaugedPetroleum = Some "27101990"
  ∧ (∃ code, code ∈ PetroleumATGAnalyzer.petroleumHSCodes
             ∧ startsWith "27101990" code = true)
  ∧ ∃ r, PetroleumATGAnalyzer.analyze 3 gaugedPetroleum = Some r
         ∧ (AgentResult.hasViolation r = true
            ↔ Declaration.atgApplicable gaugedPetroleum = false
              ∨ Declaration.atgCertificate gaugedPetroleum = false
              ∨ ∃ readings vol,
                  Declaration.atgReadings gaugedPetroleum = Some readings
                  ∧ Declaration.volume gaugedPetroleum = Some vol
                  ∧ (ATGReadings.finalVolume readings < vol * 0.95)%Q).
Proof.
  assert (Hcode : ∃ code, code ∈ PetroleumATGAnalyzer.petroleumHSCodes
                          ∧ startsWith "27101990" code = true).
  { exists "2710". split; [|reflexivity].
    unfold PetroleumATGAnalyzer.petroleumHSCodes. explicit_list. }
  split; [reflexivity|]. split; [exact Hcode|].
  eexists. split; [reflexivity|].
  exact (petroleum_violation_only_from_gauge 3 gaugedPetroleum "27101990" _
           eq_refl Hcode eq_refl).
Defined.

Lemma positive_length_iff {A} (l : list A) :
  (0 <? Z.of_nat (length l))%Z = true ↔ l ≠ [].
Proof. destruct l; cbn; split; done. Qed.

(** X5.  The tax agent always returns, reports a violation exactly when
    it has at least one finding, and reports a compliance score that is
    100 minus the risk score. *)
Theorem tax_violation_iff_finding (elapsed : Z) (d : Declaration.t) :
  ∃ r, GhanaTaxComplianceAgent.analyze elapsed d = Some r
       ∧ (AgentResult.hasViolation r = true ↔ AgentResult.findings r ≠ [])
       ∧ metadataGet "complianceScore" r
         = Some (MInt (100 - AgentResult.riskScore r)).
Proof.
  unfold GhanaTaxComplianceAgent.analyze. eexists. split; [reflexivity|].
  cbn [AgentResult.hasViolation AgentResult.findings AgentResult.riskScore
       generateResult].
  split; [apply positive_length_iff|].
  unfold metadataGet.
  cbn [AgentResult.metadata generateResult mbind option_bind].
  rewrite lookup_insert_ne by done. rewrite lookup_insert_ne by done.
  rewrite lookup_insert_eq. do 2 f_equal. lia.
Qed.

Lemma verifyTSAPayments_length (d : Declaration.t) :
  (length (TSAPaymentReconciliationAgent.verifyTSAPayments d) <= 1)%nat.
Proof.
  unfold TSAPaymentReconciliationAgent.verifyTSAPayments, truthyString.
  destruct (Declaration.tsaReference d) as [reference|]; [|cbn; lia].
  destruct (String.eqb reference ""); cbn; [lia|].
  destruct (TSAPaymentReconciliationAgent.isValidTSAReference _); cbn; lia.
Qed.

(** X6.  The payment agent always returns and reports a violation exactly
    when it has at least one finding.  It has at most three findings, one
    per check, so its risk score never exceeds 25 + 15 + 10 = 50; and the
    status it reports is "not-initiated" exactly when the finding for a
    missing TSA reference is among them. *)
Theorem payment_violation_iff_finding (elapsed : Z) (d : Declaration.t) :
  ∃ r, TSAPaymentReconciliationAgent.analyze elapsed d = Some r
       ∧ (AgentResult.hasViolation r = true ↔ AgentResult.findings r ≠ [])
       ∧ (length (AgentResult.findings r) <= 3)%nat
       ∧ (AgentResult.riskScore r <= 50)%Z
       ∧ (metadataGet "tsaStatus" r = Some (MStr "not-initiated")
          ↔ Finding.mk "missing-tsa-reference" critical
              ∈ AgentResult.findings r).
Proof.
  unfold TSAPaymentReconciliationAgent.analyze. eexists. split; [reflexivity|].
  cbn [AgentResult.hasViolation AgentResult.findings AgentResult.riskScore
       generateResult pushIssues acc_findings acc_riskScore app].
  pose proof (verifyTSAPayments_length d) as H1.
  assert (H2 : (length (TSAPaymentReconciliationAgent.reconcileBankPayments d)
                <= 1)%nat).
  { unfold TSAPaymentReconciliationAgent.reconcileBankPayments.
    repeat case_match; cbn; lia. }
  assert (H3 : (length (TSAPaymentReconciliationAgent.validateExchangeRates d)
                <= 1)%nat).
  { unfold TSAPaymentReconciliationAgent.validateExchangeRates.
    repeat case_match; cbn; lia. }
  split; [apply positive_length_iff|].
  split; [rewrite !length_app; lia|].
  split; [lia|].
  unfold metadataGet.
  cbn [AgentResult.metadata generateResult mbind option_bind].
  rewrite lookup_insert_eq.
  unfold TSAPaymentReconciliationAgent.getTSAStatus,
    TSAPaymentReconciliationAgent.verifyTSAPayments,
    TSAPaymentReconciliationAgent.reconcileBankPayments,
    TSAPaymentReconciliationAgent.validateExchangeRates.
  destruct (negb (truthyString (Declaration.tsaReference d))) eqn:Href.
  - split; [intros _; explicit_list | done].
  - split.
    + repeat case_match; intros [=].
    + intros Hin. exfalso.
      unfold truthyString in Href.
      repeat case_match; simplify_eq; cbn in Href; try done; explicit_list.
Qed.

(** The breakdown that states exactly the statutory amount of each tax. *)
Lemma orZero_eq (q : Q) : (orZero (Some q) == q)%Q.
Proof.
  unfold orZero, truthyNum. destruct (Qeq_bool q 0) eqn:E; cbn; [|reflexivity].
  apply Qeq_bool_iff in E. by rewrite E.
Qed.

Lemma within_tolerance (actual expected tolerance : Q) :
  (actual == expected)%Q → (0 <= tolerance)%Q →
  Qgt_bool (Qabs (actual - expected)) tolerance = false.
Proof.
  intros Heq Htol. apply not_true_is_false. rewrite Qgt_bool_iff.
  intros Hlt. apply (Qlt_not_le _ _ Hlt).
  assert (Hz : (actual - expected == 0)%Q) by (rewrite Heq; ring).
  rewrite Hz. exact Htol.
Qed.

(** X7.  A tax breakdown that states exactly 15% VAT, 2.5% GETFund, 2.5%
    NHIL, 1% COVID levy and the import duty due (5%, or nothing for an
    ECOWAS origin) of a value that is not negative passes the tax
    validation without a finding. *)
Theorem statutory_taxes_pass (d : Declaration.t) :
  (0 <= Declaration.value d)%Q →
  Declaration.taxes d
  = Some (statutoryTaxes (Declaration.value d) (Declaration.ecowasOrigin d)) →
  GhanaTaxComplianceAgent.validateAllTaxes d = [].
Proof.
  intros Hv Htaxes. unfold GhanaTaxComplianceAgent.validateAllTaxes.
  rewrite Htaxes. unfold statutoryTaxes.
  cbn [flat_map TaxBreakdown.vat TaxBreakdown.getFund TaxBreakdown.nhil
       TaxBreakdown.covid TaxBreakdown.importDuty app].
  assert (Hscale : ∀ k : Q, (0 <= k)%Q → (0 <= Declaration.value d * k * 0.02)%Q).
  { intros k Hk. apply Qmult_le_0_compat; [|done].
    by apply Qmult_le_0_compat. }
  rewrite !within_tolerance; try done;
    try apply orZero_eq; try (apply Hscale; done).
  destruct (Declaration.ecowasOrigin d); [done|]. by apply Hscale.
Qed.

Lemma statutory_taxes_pass_witness :
  (0 <= Declaration.value
          (withTaxes (Some (statutoryTaxes 100000 true)) mockDeclaration))%Q
  ∧ Declaration.taxes
      (withTaxes (Some (statutoryTaxes 100000 true)) mockDeclaration)
    = Some (statutoryTaxes
              (Declaration.value
                 (withTaxes (Some (statutoryTaxes 100000 true)) mockDeclaration))
              (Declaration.ecowasOrigin
                 (withTaxes (Some (statutoryTaxes 100000 true)) mockDeclaration)))
  ∧ GhanaTaxComplianceAgent.validateAllTaxes
      (withTaxes (Some (statutoryTaxes 100000 true)) mockDeclaration) = [].
Proof.
  split; [done|]. split; [reflexivity|].
  apply (statutory_taxes_pass
           (withTaxes (Some (statutoryTaxes 100000 true)) mockDeclaration));
    [done | reflexivity].
Defined.

(** ** Rule packs: errors, removal of a rule, simulation *)

Section RulePackFacts.
Import GhanaRulePackService RuleScoring RulePackSimulation.

(** A rule that makes the scoring pass read the HS code. *)
Lemma ruleScore_without_hs_code (rule : GhanaRule.t) (d : Declaration.t) :
  Declaration.hsCode d = None →
  GhanaRule.isActive rule = true →
  (ruleScore rule d = None ↔ readsHsCode rule).
Proof.
  intros Hhs Hactive. unfold ruleScore, matchesPattern, readsHsCode.
  rewrite Hhs.
  destruct (Criteria.hsCodePatterns (GhanaRule.criteria rule)) as [[|p ps]|];
    cbn; split; try done.
  - by intros (_ & ? & ? & ?).
  - intros _. split; [done|]. by exists p, ps.
  - by intros (_ & ? & ? & ?).
Qed.

Lemma evaluateRules_without_hs_code (rules : list GhanaRule.t)
    (d : Declaration.t) (acc : Evaluation) :
  Declaration.hsCode d = None →
  (evaluateRules rules d acc = None ↔ ∃ rule, rule ∈ rules ∧ readsHsCode rule).
Proof.
  intros Hhs. revert acc. induction rules as [|rule rest IH]; intros acc.
  - cbn. split; [done|]. intros (? & Hin & _). by apply elem_of_nil in Hin.
  - cbn [evaluateRules].
    destruct (GhanaRule.isActive rule) eqn:Hactive; cbn [negb].
    + destruct (ruleScore rule d) as [points|] eqn:Hscore; cbn [mbind option_bind].
      * rewrite IH. split; intros (r & Hin & Hr).
        -- exists r. split; [by apply list_elem_of_further|done].
        -- apply elem_of_cons in Hin as [->|Hin]; [|by exists r].
           apply (ruleScore_without_hs_code _ d Hhs Hactive) in Hr. congruence.
      * split; [|done]. intros _. exists rule. split; [apply list_elem_of_here|].
        by apply (ruleScore_without_hs_code _ d Hhs Hactive).
    + rewrite IH. split; intros (r & Hin & Hr).
      * exists r. split; [by apply list_elem_of_further|done].
      * apply elem_of_cons in Hin as [->|Hin]; [|by exists r].
        destruct Hr as [Hr _]. congruence.
Qed.

(** X8.  The scoring pass of the simulation throws for exactly one kind
    of input: a declaration without an HS code, evaluated against a pack
    that has an active rule with at least one HS-code pattern.  Inactive
    rules and rules without patterns never touch the HS code. *)
Theorem scoring_pass_throws_iff (rulePack : RulePack.t) (d : Declaration.t) :
  evaluateDeclaration rulePack d = None
  ↔ Declaration.hsCode d = None
    ∧ ∃ rule, rule ∈ RulePack.rules rulePack ∧ readsHsCode rule.
Proof.
  unfold evaluateDeclaration.
  destruct (Declaration.hsCode d) as [hs|] eqn:Hhs.
  - destruct (evaluateRules_spec (RulePack.rules rulePack) d hs
                (mkEvaluation false 0) Hhs) as (e & He & _).
    rewrite He. split; [done|]. by intros [? _].
  - rewrite (evaluateRules_without_hs_code _ d _ Hhs). split; [by split|].
    by intros [_ ?].
Qed.

Lemma filter_idempotent {A} (f : A → bool) (l : list A) :
  List.filter f (List.filter f l) = List.filter f l.
Proof.
  induction l as [|x l IH]; [done|]. cbn. destruct (f x) eqn:E; [|done].
  cbn. by rewrite E, IH.
Qed.

Lemma filter_length_lt {A} (f : A → bool) (l : list A) :
  (length (List.filter f l) <? length l)%nat = true
  ↔ ∃ x, x ∈ l ∧ f x = false.
Proof.
  induction l as [|x l IH].
  - cbn. split; [done|]. intros (? & Hin & _). by apply elem_of_nil in Hin.
  - pose proof (List.filter_length_le f l) as Hle.
    cbn [List.filter]. destruct (f x) eqn:E; cbn [length].
    + change (S (length (List.filter f l)) <? S (length l))%nat
        with (length (List.filter f l) <? length l)%nat.
      rewrite IH. split; intros (y & Hin & Hy).
      * exists y. split; [by apply list_elem_of_further|done].
      * apply elem_of_cons in Hin as [->|Hin]; [congruence|by exists y].
    + split.
      * intros _. exists x. split; [apply list_elem_of_here|done].
      * intros _. apply Nat.ltb_lt. lia.
Qed.

(** X9.  Removing a rule from a pack that exists returns [true] exactly
    when the pack held a rule with that id.  Afterwards the pack holds
    the rules with other ids and no others, the other packs are as they
    were, and a second removal of the same id returns [false] and changes
    nothing. *)
Theorem removeRuleFromPack_spec (rulePacks : gmap string RulePack.t)
    (rulePackId ruleId : string) (rulePack : RulePack.t) :
  rulePacks !! rulePackId = Some rulePack →
  ∃ rulePacks' removed rulePack',
    removeRuleFromPack rulePacks rulePackId ruleId = Some (rulePacks', removed)
    ∧ rulePacks' !! rulePackId = Some rulePack'
    ∧ (removed = true
       ↔ ∃ rule, rule ∈ RulePack.rules rulePack ∧ GhanaRule.id rule = ruleId)
    ∧ (∀ rule, rule ∈ RulePack.rules rulePack'
               ↔ rule ∈ RulePack.rules rulePack ∧ GhanaRule.id rule ≠ ruleId)
    ∧ (∀ other, other ≠ rulePackId → rulePacks' !! other = rulePacks !! other)
    ∧ removeRuleFromPack rulePacks' rulePackId ruleId
      = Some (rulePacks', false).
Proof.
  intros Hpack. unfold removeRuleFromPack at 1. rewrite Hpack.
  cbn [mbind option_bind].
  set (keep := fun rule : GhanaRule.t =>
                 negb (String.eqb (GhanaRule.id rule) ruleId)).
  eexists _, _, _. split; [reflexivity|].
  split; [apply lookup_insert_eq|].
  assert (Hkeep : ∀ rule, keep rule = false ↔ GhanaRule.id rule = ruleId).
  { intros rule. unfold keep. rewrite negb_false_iff. apply String.eqb_eq. }
  split; [|split; [|split]].
  - rewrite filter_length_lt. split; intros (rule & Hin & H);
      exists rule; (split; [done|]); by apply Hkeep.
  - intros rule. cbn [RulePack.rules].
    rewrite list_elem_of_In, List.filter_In, <- list_elem_of_In.
    split; intros [Hin H]; (split; [done|]).
    + intros Hid. apply Hkeep in Hid. congruence.
    + destruct (keep rule) eqn:E; [done|]. by apply Hkeep in E.
  - intros other Hne. by rewrite lookup_insert_ne.
  - unfold removeRuleFromPack. rewrite lookup_insert_eq.
    cbn [mbind option_bind RulePack.rules RulePack.id RulePack.isActive].
    fold keep. rewrite filter_idempotent, insert_insert_eq.
    by rewrite Nat.ltb_irrefl.
Qed.

Lemma removeRuleFromPack_spec_witness :
  initializeDefaultRulePacks !! "ghana-rule-pack-v1" = Some defaultRulePack
  ∧ ∃ rulePacks' removed rulePack',
      removeRuleFromPack initializeDefaultRulePacks
        "ghana-rule-pack-v1" "petro-tax-002" = Some (rulePacks', removed)
      ∧ rulePacks' !! "ghana-rule-pack-v1" = Some rulePack'
      ∧ (removed = true
         ↔ ∃ rule, rule ∈ RulePack.rules defaultRulePack
                   ∧ GhanaRule.id rule = "petro-tax-002")
      ∧ (∀ rule, rule ∈ RulePack.rules rulePack'
                 ↔ rule ∈ RulePack.rules defaultRulePack
                   ∧ GhanaRule.id rule ≠ "petro-tax-002")
      ∧ (∀ other, other ≠ "ghana-rule-pack-v1" →
                  rulePacks' !! other = initializeDefaultRulePacks !! other)
      ∧ removeRuleFromPack rulePacks' "ghana-rule-pack-v1" "petro-tax-002"
        = Some (rulePacks', false).
Proof.
  split; [apply lookup_insert_eq|].
  apply (removeRuleFromPack_spec _ "ghana-rule-pack-v1" "petro-tax-002"
           defaultRulePack).
  apply lookup_insert_eq.
Defined.

Lemma simulate_loop_counts (random : nat → Q) (rulePack : RulePack.t)
    (testDataset : list Declaration.t) (tally tally' : Tally) :
  simulate_loop random rulePack testDataset tally = Some tally' →
  (tally_falsePositives tally <= tally_violationsDetected tally)%nat →
  (tally_falsePositives tally' <= tally_violationsDetected tally')%nat
  ∧ (tally_violationsDetected tally'
     <= tally_violationsDetected tally + length testDataset)%nat.
Proof.
  revert tally. induction testDataset as [|d rest IH]; intros tally H Hle.
  - cbn in H. simplify_eq. cbn. lia.
  - cbn [simulate_loop] in H.
    destruct (evaluateDeclaration rulePack d) as [e|]; [|done].
    cbn [mbind option_bind] in H.
    destruct (hasViolation e).
    + apply IH in H; cbn [tally_falsePositives tally_violationsDetected] in *;
        [cbn [length]; lia|].
      destruct (Qlt_bool _ _); lia.
    + apply IH in H; [cbn [length]; lia|done].
Qed.

Lemma inject_nat_le (a b : nat) :
  (a <= b)%nat → (inject_Z (Z.of_nat a) <= inject_Z (Z.of_nat b))%Q.
Proof. intros H. rewrite <- Zle_Qle. lia. Qed.

Lemma inject_nat_pos (a : nat) :
  (0 < a)%nat → (0 < inject_Z (Z.of_nat a))%Q.
Proof. intros H. change 0%Q with (inject_Z 0). rewrite <- Zlt_Qlt. lia. Qed.

Lemma Qdiv_le_1 (a b : Q) : (0 < b)%Q → (a <= b)%Q → (a / b <= 1)%Q.
Proof.
  intros Hb Hab. apply Qle_shift_div_r; [done|]. by rewrite Qmult_1_l.
Qed.

Lemma Qdiv_nonneg (a b : Q) : (0 < b)%Q → (0 <= a)%Q → (0 <= a / b)%Q.
Proof.
  intros Hb Ha. apply Qle_shift_div_l; [done|]. by rewrite Qmult_0_l.
Qed.

Lemma jsDivide_finite (a b : Q) :
  (0 < b)%Q → jsDivide a b = Finite (a / b).
Proof.
  intros Hb. unfold jsDivide.
  destruct (Qeq_bool b 0) eqn:E; [|done].
  apply Qeq_bool_iff in E. rewrite E in Hb. by apply Qlt_irrefl in Hb.
Qed.

(** X10.  A simulation that returns for a dataset that is not empty has
    counted no more false positives than violations and no more
    violations than declarations.  Its accuracy, precision and recall are
    numbers between 0 and 1, the accuracy exceeds neither the precision
    nor the recall, and the Ghana compliance rate is 1 whatever the rules
    found.  These are bounds and comparisons of quotients of counts,
    which the rounding of a division keeps. *)
Theorem simulation_metrics (random : nat → Q)
    (rulePacks : gmap string RulePack.t) (rulePackId : string)
    (testDataset : list Declaration.t) (result : SimulationResult.t) :
  testDataset ≠ [] →
  simulateRulePack random rulePacks rulePackId testDataset = Some result →
  SimulationResult.totalDeclarations result = length testDataset
  ∧ (SimulationResult.falsePositives result
     <= SimulationResult.violationsDetected result
     <= SimulationResult.totalDeclarations result)%nat
  ∧ ∃ accuracy recall rate,
      SimulationResult.accuracy result = Finite accuracy
      ∧ SimulationResult.recall result = Finite recall
      ∧ SimulationResult.ghanaComplianceRate result = Finite rate
      ∧ (accuracy <= SimulationResult.precision result)%Q
      ∧ (accuracy <= recall)%Q
      ∧ (0 <= accuracy <= 1)%Q
      ∧ (0 <= SimulationResult.precision result <= 1)%Q
      ∧ (0 <= recall <= 1)%Q
      ∧ (rate == 1)%Q.
Proof.
  intros Hne H. unfold simulateRulePack in H.
  destruct (rulePacks !! rulePackId) as [rulePack|]; [|done].
  cbn [mbind option_bind] in H.
  destruct (simulate_loop random rulePack testDataset (mkTally 0 0))
    as [[v fp]|] eqn:Hloop; [|done].
  cbn [mbind option_bind tally_violationsDetected tally_falsePositives] in H.
  apply simulate_loop_counts in Hloop as [Hfp Hv]; [|cbn; lia].
  cbn [tally_violationsDetected tally_falsePositives] in Hfp, Hv.
  assert (Hn : (0 < length testDataset)%nat)
    by (destruct testDataset; [done|cbn; lia]).
  set (n := length testDataset) in *.
  pose proof (inject_nat_pos n Hn) as Hnq.
  rewrite !jsDivide_finite in H by done.
  simplify_eq.
  cbn [SimulationResult.totalDeclarations SimulationResult.falsePositives
       SimulationResult.violationsDetected SimulationResult.accuracy
       SimulationResult.recall SimulationResult.ghanaComplianceRate
       SimulationResult.precision].
  split; [done|]. split; [lia|].
  eexists _, _, _. split; [reflexivity|]. split; [reflexivity|].
  split; [reflexivity|].
  set (vq := inject_Z (Z.of_nat v)). set (fq := inject_Z (Z.of_nat fp)).
  set (nq := inject_Z (Z.of_nat n)) in *.
  assert (Hfv : (fq <= vq)%Q) by by apply inject_nat_le.
  assert (Hvn : (vq <= nq)%Q) by (apply inject_nat_le; lia).
  assert (Hf0 : (0 <= fq)%Q).
  { change 0%Q with (inject_Z (Z.of_nat 0)). apply inject_nat_le. lia. }
  assert (Hd0 : (0 <= vq - fq)%Q) by by apply Qle_minus_iff in Hfv.
  assert (Hdv : (vq - fq <= vq)%Q).
  { apply Qle_minus_iff.
    assert (E : (vq + - (vq - fq) == fq)%Q) by ring. by rewrite E. }
  assert (Hinv : (0 <= / nq)%Q) by by apply Qinv_le_0_compat, Qlt_le_weak.
  split; [|split; [|split; [|split; [|split]]]].
  - destruct (0 <? v)%nat eqn:Hpos.
    + apply Nat.ltb_lt in Hpos. pose proof (inject_nat_pos v Hpos) as Hvq.
      fold vq in Hvq.
      apply Qle_shift_div_l; [done|].
      apply Qle_trans with ((vq - fq) / nq * nq)%Q.
      * rewrite !(Qmult_comm ((vq - fq) / nq)).
        apply Qmult_le_compat_r; [done|]. by apply Qdiv_nonneg.
      * assert (E : ((vq - fq) / nq * nq == vq - fq)%Q).
        { field. intros Hz. rewrite Hz in Hnq. by apply Qlt_irrefl in Hnq. }
        rewrite E. apply Qle_refl.
    + apply Nat.ltb_ge in Hpos. assert (v = 0)%nat as -> by lia.
      assert (fp = 0)%nat as -> by lia. subst vq fq. cbn [Z.of_nat].
      unfold Qdiv. rewrite Qmult_0_l. apply Qle_refl.
  - unfold Qdiv. by apply Qmult_le_compat_r.
  - split; [by apply Qdiv_nonneg|]. apply Qdiv_le_1; [done|].
    by apply Qle_trans with vq.
  - destruct (0 <? v)%nat eqn:Hpos; [|done].
    apply Nat.ltb_lt in Hpos. pose proof (inject_nat_pos v Hpos) as Hvq.
    split; [by apply Qdiv_nonneg|by apply Qdiv_le_1].
  - split; [apply Qdiv_nonneg; [done|]|by apply Qdiv_le_1].
    change 0%Q with (inject_Z (Z.of_nat 0)). apply inject_nat_le. lia.
  - cbn [Z.of_nat]. field. intros Hz. rewrite Hz in Hnq.
    by apply Qlt_irrefl in Hnq.
Qed.

Lemma simulation_metrics_witness :
  [chineseOrigin] ≠ []
  ∧ ∃ result,
      simulateRulePack (fun _ => 0.5%Q) initializeDefaultRulePacks
        "ghana-rule-pack-v1" [chineseOrigin] = Some result
      ∧ SimulationResult.totalDeclarations result = length [chineseOrigin]
      ∧ (SimulationResult.falsePositives result
         <= SimulationResult.violationsDetected result
         <= SimulationResult.totalDeclarations result)%nat
      ∧ ∃ accuracy recall rate,
          SimulationResult.accuracy result = Finite accuracy
          ∧ SimulationResult.recall result = Finite recall
          ∧ SimulationResult.ghanaComplianceRate result = Finite rate
          ∧ (accuracy <= SimulationResult.precision result)%Q
          ∧ (accuracy <= recall)%Q
          ∧ (0 <= accuracy <= 1)%Q
          ∧ (0 <= SimulationResult.precision result <= 1)%Q
          ∧ (0 <= recall <= 1)%Q
          ∧ (rate == 1)%Q.
Proof.
  split; [done|].
  eexists. split; [reflexivity|].
  apply (simulation_metrics (fun _ => 0.5%Q) initializeDefaultRulePacks
           "ghana-rule-pack-v1" [chineseOrigin]); [done|reflexivity].
Defined.

(** X11.  The simulation recommends a rule pack for production only when
    more than nine in ten test declarations were marked as violations
    and not drawn as false positives: the accuracy it computes is the
    share of such declarations in the dataset. *)
Theorem excellent_needs_nine_in_ten (random : nat → Q)
    (rulePacks : gmap string RulePack.t) (rulePackId : string)
    (testDataset : list Declaration.t) (result : SimulationResult.t) :
  simulateRulePack random rulePacks rulePackId testDataset = Some result →
  "Rule pack is performing excellently - consider deployment to production"
    ∈ SimulationResult.recommendations result →
  (9 * SimulationResult.totalDeclarations result
   < 10 * (SimulationResult.violationsDetected result
           - SimulationResult.falsePositives result))%nat.
Proof.
  intros H Hin. unfold simulateRulePack in H.
  destruct (rulePacks !! rulePackId) as [rulePack|]; [|done].
  cbn [mbind option_bind] in H.
  destruct (simulate_loop random rulePack testDataset (mkTally 0 0))
    as [[v fp]|] eqn:Hloop; [|done].
  cbn [mbind option_bind tally_violationsDetected tally_falsePositives] in H.
  apply simulate_loop_counts in Hloop as [Hfp Hv]; [|cbn; lia].
  cbn [tally_violationsDetected tally_falsePositives] in Hfp, Hv.
  simplify_eq.
  cbn [SimulationResult.totalDeclarations SimulationResult.falsePositives
       SimulationResult.violationsDetected SimulationResult.recommendations]
    in *.
  unfold generateRecommendations in Hin.
  set (n := length testDataset) in *.
  destruct (jsGt (jsDivide _ _) 0.9) eqn:Hgt.
  2: { cbn [andb] in Hin. repeat case_match; explicit_list. }
  clear Hin. unfold jsDivide in Hgt.
  destruct (Qeq_bool (inject_Z (Z.of_nat n)) 0) eqn:Hn.
  { apply Qeq_bool_iff in Hn.
    assert (n = 0)%nat as Hn0.
    { unfold Qeq in Hn. cbn in Hn. lia. }
    assert (v = 0)%nat as -> by lia. assert (fp = 0)%nat as -> by lia.
    by cbn in Hgt. }
  assert (Hnq : (0 < inject_Z (Z.of_nat n))%Q).
  { apply inject_nat_pos. destruct n; [by cbn in Hn|lia]. }
  cbn [jsGt] in Hgt. apply Qgt_bool_iff in Hgt.
  apply (Qmult_lt_compat_r _ _ _ Hnq) in Hgt.
  assert (E : ((inject_Z (Z.of_nat v) - inject_Z (Z.of_nat fp))
               / inject_Z (Z.of_nat n) * inject_Z (Z.of_nat n)
               == inject_Z (Z.of_nat v) - inject_Z (Z.of_nat fp))%Q).
  { field. intros Hz. rewrite Hz in Hnq. by apply Qlt_irrefl in Hnq. }
  rewrite E in Hgt. clear E.
  unfold Qlt in Hgt. cbn in Hgt. lia.
Qed.

Lemma excellent_needs_nine_in_ten_witness :
  ∃ result,
    simulateRulePack (fun _ => 0.5%Q) initializeDefaultRulePacks
      "ghana-rule-pack-v1" [chineseOrigin] = Some result
    ∧ "Rule pack is performing excellently - consider deployment to production"
        ∈ SimulationResult.recommendations result
    ∧ (9 * SimulationResult.totalDeclarations result
       < 10 * (SimulationResult.violationsDetected result
               - SimulationResult.falsePositives result))%nat.
Proof.
  eexists. split; [reflexivity|].
  assert (Hin :
    "Rule pack is performing excellently - consider deployment to production"
    ∈ generateRecommendations (Finite 1) 1 (Finite 1)).
  { apply (bool_decide_unpack _). vm_compute. exact I. }
  split; [exact Hin|].
  exact (excellent_needs_nine_in_ten (fun _ => 0.5%Q)
           initializeDefaultRulePacks "ghana-rule-pack-v1" [chineseOrigin] _
           eq_refl Hin).
Defined.

(** X12.  Simulating a pack that exists on an empty dataset returns a
    result whose accuracy, recall and Ghana compliance rate are [NaN]
    (each is 0/0), whose precision and F1 score are 0, and whose
    recommendations are the one about false positives and the two fixed
    ones. *)
Theorem simulation_of_empty_dataset (random : nat → Q)
    (rulePacks : gmap string RulePack.t) (rulePackId : string)
    (rulePack : RulePack.t) :
  rulePacks !! rulePackId = Some rulePack →
  simulateRulePack random rulePacks rulePackId []
  = Some (SimulationResult.mk rulePackId 0 0 0 NaN 0 NaN (Finite 0) NaN
            ["Review false positive patterns and refine rule criteria";
             "Monitor sectoral performance and adjust focus area weights";
             "Regular validation with real-world data recommended"]).
Proof.
  intros Hpack. unfold simulateRulePack. rewrite Hpack. reflexivity.
Qed.

Lemma simulation_of_empty_dataset_witness :
  initializeDefaultRulePacks !! "ghana-rule-pack-v1" = Some defaultRulePack
  ∧ simulateRulePack (fun _ => 0.5%Q) initializeDefaultRulePacks
      "ghana-rule-pack-v1" []
    = Some (SimulationResult.mk "ghana-rule-pack-v1" 0 0 0 NaN 0 NaN
              (Finite 0) NaN
              ["Review false positive patterns and refine rule criteria";
               "Monitor sectoral performance and adjust focus area weights";
               "Regular validation with real-world data recommended"]).
Proof.
  split; [apply lookup_insert_eq|].
  apply (simulation_of_empty_dataset (fun _ => 0.5%Q)
           initializeDefaultRulePacks "ghana-rule-pack-v1" defaultRulePack).
  apply lookup_insert_eq.
Defined.
End RulePackFacts.

(** ** The orchestrator: chunks, filters, one declaration *)

Section ChunkShape.
Context {T : Type}.
Implicit Types (array : list T) (chunkSize i : Z).

Lemma chunkArray_loop_nonempty (fuel : nat) array chunkSize i chunk chunks :
  chunkArray_loop fuel array chunkSize i = Some (chunk :: chunks) →
  (i < Z.of_nat (length array))%Z.
Proof.
  destruct fuel; cbn; destruct (Z.ltb_spec i (Z.of_nat (length array)));
    done.
Qed.

Lemma chunkArray_loop_shape (fuel : nat) array chunkSize i chunks :
  (1 <= chunkSize)%Z → (0 <= i)%Z →
  chunkArray_loop fuel array chunkSize i = Some chunks →
  Forall (fun chunk => 1 <= length chunk <= Z.to_nat chunkSize) chunks
  ∧ ∀ k chunk, chunks !! k = Some chunk → S k < length chunks →
               length chunk = Z.to_nat chunkSize.
Proof.
  intros Hc. revert i chunks.
  induction fuel as [|fuel IH]; intros i chunks Hi H; cbn in H.
  - destruct (i <? Z.of_nat (length array))%Z; [done|]. simplify_eq.
    split; [constructor|]. intros k chunk Hk. by rewrite lookup_nil in Hk.
  - destruct (Z.ltb_spec i (Z.of_nat (length array))) as [Hin|Hout].
    2: { simplify_eq. split; [constructor|].
         intros k chunk Hk. by rewrite lookup_nil in Hk. }
    destruct (chunkArray_loop fuel array chunkSize (i + chunkSize))
      as [rest|] eqn:Hrest; [|done].
    cbn in H. simplify_eq.
    destruct (IH (i + chunkSize)%Z rest ltac:(lia) Hrest) as [Hall Hfull].
    rewrite slice_chunk by lia.
    assert (Hlen : length (take (Z.to_nat chunkSize) (drop (Z.to_nat i) array))
                   = Z.to_nat chunkSize `min` (length array - Z.to_nat i)).
    { by rewrite length_take, length_drop. }
    split.
    + constructor; [|done]. rewrite Hlen. lia.
    + intros [|k] chunk Hk Hlast; cbn in Hk, Hlast.
      * simplify_eq. rewrite Hlen.
        destruct rest as [|c rest]; [cbn in Hlast; lia|].
        apply chunkArray_loop_nonempty in Hrest. lia.
      * apply (Hfull k); [done|lia].
Qed.

(** X13.  For a chunk size that is an integer of at least 1,
    [chunkArray] returns: it cuts the array into consecutive chunks that
    put together give the array back.  No chunk is empty or longer than
    the chunk size, and every chunk but the last has exactly the chunk
    size.  (A size that is not an integer is outside this statement:
    [slice] then truncates both of its bounds and the chunks differ in
    length.) *)
Theorem chunkArray_partitions array chunkSize :
  (1 <= chunkSize)%Z →
  ∃ chunks,
    (∀ fuel, length array <= fuel →
             chunkArray fuel array chunkSize = Some chunks)
    ∧ concat chunks = array
    ∧ Forall (fun chunk => 1 <= length chunk <= Z.to_nat chunkSize) chunks
    ∧ ∀ k chunk, chunks !! k = Some chunk → S k < length chunks →
                 length chunk = Z.to_nat chunkSize.
Proof.
  intros Hc. destruct (chunkArray_terminates array chunkSize Hc)
    as (chunks & H & Hcat).
  exists chunks. split; [|split; [done|]].
  - intros fuel Hfuel. by apply (chunkArray_loop_fuel_mono (length array)).
  - by apply (chunkArray_loop_shape (length array) array chunkSize 0).
Qed.
End ChunkShape.

Lemma chunkArray_partitions_witness :
  (1 <= 2)%Z
  ∧ ∃ chunks : list (list nat),
      (∀ fuel, length [1; 2; 3; 4; 5] <= fuel →
               chunkArray fuel [1; 2; 3; 4; 5] 2 = Some chunks)
      ∧ concat chunks = [1; 2; 3; 4; 5]
      ∧ Forall (fun chunk => 1 <= length chunk <= Z.to_nat 2) chunks
      ∧ ∀ k chunk, chunks !! k = Some chunk → S k < length chunks →
                   length chunk = Z.to_nat 2.
Proof.
  split; [lia|]. apply (chunkArray_partitions [1; 2; 3; 4; 5] 2). lia.
Defined.

Section Filtering.
Import Declaration GhanaAuditRunner.

Lemma List_filter_sublist {A} (f : A → bool) (l : list A) :
  sublist (List.filter f l) l.
Proof.
  induction l as [|x l IH]; [constructor|]. cbn.
  destruct (f x); by constructor.
Qed.

Lemma List_filter_elem_of {A} (f : A → bool) (l : list A) (x : A) :
  x ∈ List.filter f l ↔ x ∈ l ∧ f x = true.
Proof. by rewrite !list_elem_of_In, List.filter_In. Qed.

Lemma filterThrowing_spec {A} (f : A → option bool) (l kept : list A) :
  filterThrowing f l = Some kept →
  sublist kept l ∧ ∀ x, x ∈ kept ↔ x ∈ l ∧ f x = Some true.
Proof.
  revert kept. induction l as [|x l IH]; intros kept H; cbn in H.
  - simplify_eq. split; [constructor|]. intros x. split; [|by intros [? _]].
    intros Hin. by apply elem_of_nil in Hin.
  - destruct (f x) as [keep|] eqn:Hx; [|done]. cbn in H.
    destruct (filterThrowing f l) as [kept0|]; [|done]. cbn in H.
    destruct (IH kept0 eq_refl) as [Hsub Hmem]. simplify_eq.
    destruct keep.
    + split; [by constructor|]. intros y. rewrite !elem_of_cons, Hmem.
      split; [intros [->|[? ?]]; auto|intros [[->|?] ?]; auto].
    + split; [by constructor|]. intros y. rewrite elem_of_cons, Hmem.
      split; [intros [? ?]; auto|]. intros [[->|?] ?]; [congruence|auto].
Qed.

Lemma filterThrowing_throws {A} (f : A → option bool) (l : list A) :
  filterThrowing f l = None ↔ ∃ x, x ∈ l ∧ f x = None.
Proof.
  induction l as [|x l IH]; cbn.
  - split; [done|]. intros (? & Hin & _). by apply elem_of_nil in Hin.
  - destruct (f x) as [keep|] eqn:Hx; cbn.
    + destruct (filterThrowing f l) as [kept|]; cbn.
      * split; [done|]. intros (y & Hin & Hy).
        apply elem_of_cons in Hin as [->|Hin]; [congruence|].
        assert (H : ∃ x, x ∈ l ∧ f x = None) by by exists y.
        by apply IH in H.
      * split; [|done]. intros _. destruct (proj1 IH eq_refl) as (y & Hin & Hy).
        exists y. split; [by apply list_elem_of_further|done].
    + split; [|done]. intros _. exists x. split; [apply list_elem_of_here|done].
Qed.

Lemma includes_iff (l : list string) (x : string) :
  includes l x = true ↔ x ∈ l.
Proof. unfold includes. apply bool_decide_eq_true. Qed.

(** X14.  When the filter returns, the declarations it keeps are a
    sublist of the ones it was given, in their order, and a declaration
    is kept exactly when it meets the scope and every common filter that
    is configured: the filters are a conjunction. *)
Theorem filterDeclarations_spec (declarations filtered : list Declaration.t)
    (config : AuditExecutionConfig.t) :
  filterDeclarations declarations config = Some filtered →
  sublist filtered declarations
  ∧ ∀ d, d ∈ filtered
         ↔ d ∈ declarations ∧ inScope config d ∧ passesFilters config d.
Proof.
  unfold filterDeclarations, inScope, passesFilters.
  set (tf := AuditExecutionConfig.targetFilters config).
  intros H.
  match type of H with
  | mbind _ ?m = _ => destruct m as [scoped|] eqn:Hscope; [|done]
  end.
  cbn [mbind option_bind] in H. simplify_eq.
  assert (Hs : sublist scoped declarations
               ∧ ∀ d, d ∈ scoped ↔ d ∈ declarations ∧ inScope config d).
  { unfold inScope. fold tf.
    destruct (AuditExecutionConfig.scope config).
    - simplify_eq. split; [done|]. intros d. by split; [|intros [? _]].
    - destruct (TargetFilters.hsCodes tf) as [codes|].
      2: { simplify_eq. split; [done|]. intros d. by split; [|intros [? _]]. }
      apply filterThrowing_spec in Hscope as [Hsub Hmem]. split; [done|].
      intros d. rewrite Hmem. split; intros [Hin Hd]; (split; [done|]).
      + intros ? [= <-]. destruct codes as [|c cs]; [done|].
        destruct (hsCode d) as [hs|]; [|done]. cbn [mbind option_bind] in Hd.
        assert (Hd' : some (fun code => startsWith hs code) (c :: cs) = true)
          by (injection Hd as Hd; exact Hd).
        apply (some_true_iff (fun code => startsWith hs code)) in Hd'
          as (code & ? & ?).
        by exists hs, code.
      + destruct (Hd codes eq_refl) as (hs & code & Hhs & Hcode & Hstart).
        destruct codes as [|c cs]; [by apply elem_of_nil in Hcode|].
        rewrite Hhs. cbn [mbind option_bind]. f_equal.
        apply (some_true_iff (fun code => startsWith hs code)).
        by exists code.
    - destruct (TargetFilters.shipmentIds tf) as [ids|].
      2: { simplify_eq. split; [done|]. intros d. by split; [|intros [? _]]. }
      simplify_eq. split; [apply List_filter_sublist|].
      intros d. rewrite List_filter_elem_of.
      split; intros [Hin Hd]; (split; [done|]).
      + intros ? [= <-]. destruct (shipmentId d) as [s|]; [|done].
        exists s. split; [done|]. by apply includes_iff.
      + destruct (Hd ids eq_refl) as (s & -> & Hs). by apply includes_iff.
    - destruct (TargetFilters.declarationIds tf) as [ids|].
      2: { simplify_eq. split; [done|]. intros d. by split; [|intros [? _]]. }
      simplify_eq. split; [apply List_filter_sublist|].
      intros d. rewrite List_filter_elem_of.
      split; intros [Hin Hd]; (split; [done|]).
      + intros ? [= <-]. destruct (idOrDeclarationId d) as [s|]; [|done].
        exists s. split; [done|]. by apply includes_iff.
      + destruct (Hd ids eq_refl) as (s & -> & Hs). by apply includes_iff. }
  destruct Hs as [Hsub Hmem]. clear Hscope.
  split.
  - repeat case_match;
      repeat (etrans; [apply List_filter_sublist|]); done.
  - intros d.
    assert (Hdate : ∀ l,
      d ∈ match TargetFilters.dateRange tf with
          | Some (start, end_) =>
              List.filter (fun decl =>
                (start <=? date decl)%Z && (date decl <=? end_)%Z) l
          | None => l
          end
      ↔ d ∈ l ∧ ∀ start end_, TargetFilters.dateRange tf = Some (start, end_) →
                              (start <= date d <= end_)%Z).
    { intros l. destruct (TargetFilters.dateRange tf) as [[start end_]|].
      - rewrite List_filter_elem_of, andb_true_iff, !Z.leb_le.
        split; intros [Hin Hd]; (split; [done|]).
        + by intros ?? [= <- <-].
        + by apply Hd.
      - split; [|by intros [? _]]. intros Hin. by split. }
    assert (Hcountries : ∀ l,
      d ∈ match TargetFilters.countries tf with
          | Some cs =>
              List.filter (fun decl =>
                includes cs (originCountry decl)
                || includes cs (destinationCountry decl)) l
          | None => l
          end
      ↔ d ∈ l ∧ ∀ cs, TargetFilters.countries tf = Some cs →
                      originCountry d ∈ cs ∨ destinationCountry d ∈ cs).
    { intros l. destruct (TargetFilters.countries tf) as [cs|].
      - rewrite List_filter_elem_of, orb_true_iff, !includes_iff.
        split; intros [Hin Hd]; (split; [done|]).
        + by intros ? [= <-].
        + by apply Hd.
      - split; [|by intros [? _]]. intros Hin. by split. }
    assert (Hrisk : ∀ l,
      d ∈ match TargetFilters.riskThreshold tf with
          | Some threshold =>
              List.filter (fun decl =>
                Qle_bool threshold (orZero (riskScore decl))) l
          | None => l
          end
      ↔ d ∈ l ∧ ∀ threshold, TargetFilters.riskThreshold tf = Some threshold →
                             (threshold <= orZero (riskScore d))%Q).
    { intros l. destruct (TargetFilters.riskThreshold tf) as [threshold|].
      - rewrite List_filter_elem_of, Qle_bool_iff.
        split; intros [Hin Hd]; (split; [done|]).
        + by intros ? [= <-].
        + by apply Hd.
      - split; [|by intros [? _]]. intros Hin. by split. }
    assert (Hsectors : ∀ l,
      d ∈ match TargetFilters.sectors tf with
          | Some ss => List.filter (fun decl => includes ss (sector decl)) l
          | None => l
          end
      ↔ d ∈ l ∧ ∀ ss, TargetFilters.sectors tf = Some ss → sector d ∈ ss).
    { intros l. destruct (TargetFilters.sectors tf) as [ss|].
      - rewrite List_filter_elem_of, includes_iff.
        split; intros [Hin Hd]; (split; [done|]).
        + by intros ? [= <-].
        + by apply Hd.
      - split; [|by intros [? _]]. intros Hin. by split. }
    rewrite Hsectors, Hrisk, Hcountries, Hdate, Hmem. tauto.
Qed.

Lemma filterDeclarations_spec_witness :
  filterDeclarations [mockDeclaration; nigerianCotton] chapter27Config
  = Some [mockDeclaration]
  ∧ sublist [mockDeclaration] [mockDeclaration; nigerianCotton]
  ∧ ∀ d, d ∈ [mockDeclaration]
         ↔ d ∈ [mockDeclaration; nigerianCotton]
           ∧ inScope chapter27Config d ∧ passesFilters chapter27Config d.
Proof.
  split; [reflexivity|].
  exact (filterDeclarations_spec [mockDeclaration; nigerianCotton]
           [mockDeclaration] chapter27Config eq_refl).
Defined.

(** X15.  The filter throws for exactly one kind of input: an audit
    scoped to HS codes with at least one code configured, given a
    declaration without an HS code. *)
Theorem filterDeclarations_throws_iff (declarations : list Declaration.t)
    (config : AuditExecutionConfig.t) :
  filterDeclarations declarations config = None
  ↔ AuditExecutionConfig.scope config = scope_hs_codes
    ∧ (∃ code codes,
         TargetFilters.hsCodes (AuditExecutionConfig.targetFilters config)
         = Some (code :: codes))
    ∧ ∃ d, d ∈ declarations ∧ hsCode d = None.
Proof.
  unfold filterDeclarations.
  set (tf := AuditExecutionConfig.targetFilters config).
  destruct (AuditExecutionConfig.scope config).
  1, 3, 4: split; [|by intros [? _]].
  1: by cbn [mbind option_bind].
  1: by destruct (TargetFilters.shipmentIds tf); cbn [mbind option_bind].
  1: by destruct (TargetFilters.declarationIds tf); cbn [mbind option_bind].
  destruct (TargetFilters.hsCodes tf) as [codes|];
    [|cbn; split; [done|]; by intros (_ & (? & ? & ?) & _)].
  destruct (filterThrowing _ declarations) as [kept|] eqn:E;
    cbn [mbind option_bind].
  - split; [done|]. intros (_ & (code & codes' & [= ->]) & d & Hin & Hd).
    match type of E with
    | filterThrowing ?f _ = _ =>
        assert (Hthrow : filterThrowing f declarations = None)
    end.
    { apply filterThrowing_throws. exists d. split; [done|]. by rewrite Hd. }
    congruence.
  - split; [|done]. intros _. split; [done|].
    apply filterThrowing_throws in E as (d & Hin & Hd).
    destruct codes as [|code codes]; [done|].
    split; [by exists code, codes|].
    exists d. split; [done|]. by destruct (hsCode d).
Qed.
End Filtering.

Section OneDeclaration.
Import Declaration GhanaAuditRunner.

Lemma shouldAgentRun_throws (agentType : string) (d : Declaration.t) :
  shouldAgentRun agentType d = None
  ↔ agentType = "petroleum-atg" ∧ hsCode d = None.
Proof.
  unfold shouldAgentRun.
  destruct (String.eqb_spec agentType "ecowas-origin") as [->|_];
    [split; [done|by intros [? _]]|].
  destruct (String.eqb_spec agentType "petroleum-atg") as [->|Hne].
  - destruct (hsCode d); cbn; split; try done. by intros [_ ?].
  - repeat case_match; split; try done; by intros [? _].
Qed.

Lemma processDeclaration_loop_throws (clock : string → Declaration.t → Z)
    (enabled : list (string * Agent)) (d : Declaration.t)
    (results : list AgentResult.t) :
  processDeclaration_loop clock enabled d results = None
  ↔ ∃ entry, entry ∈ enabled ∧ shouldAgentRun entry.1 d = None.
Proof.
  revert results. induction enabled as [|[ty agent] rest IH]; intros results.
  - cbn. split; [done|]. intros (? & Hin & _). by apply elem_of_nil in Hin.
  - cbn [processDeclaration_loop].
    destruct (shouldAgentRun ty d) as [run|] eqn:Hrun; cbn [mbind option_bind].
    + assert (Hrest : ∀ results',
        processDeclaration_loop clock rest d results' = None
        ↔ ∃ entry, entry ∈ (ty, agent) :: rest ∧ shouldAgentRun entry.1 d = None).
      { intros results'. rewrite IH. split; intros (entry & Hin & He).
        - exists entry. split; [by apply list_elem_of_further|done].
        - apply elem_of_cons in Hin as [->|Hin]; [cbn in He; congruence|].
          by exists entry. }
      destruct run; [destruct (agent (clock ty d) d)|]; apply Hrest.
    + split; [|done]. intros _. exists (ty, agent).
      split; [apply list_elem_of_here|done].
Qed.

Lemma getEnabledAgents_elem_of (config : AuditExecutionConfig.t)
    (entry : string * Agent) :
  entry ∈ getEnabledAgents config → entry ∈ initializeAgents.
Proof.
  unfold getEnabledAgents, initializeAgents.
  rewrite !elem_of_app. intros H.
  destruct H as [H|[H|[H|H]]]; case_match; explicit_list.
Qed.

Lemma getEnabledAgents_petroleum (config : AuditExecutionConfig.t) :
  (∃ entry, entry ∈ getEnabledAgents config ∧ entry.1 = "petroleum-atg")
  ↔ AgentConfig.enablePetroleumAgent (AuditExecutionConfig.agentConfig config)
    = true.
Proof.
  unfold getEnabledAgents. split.
  - intros (entry & Hin & Hty). rewrite !elem_of_app in Hin.
    destruct (AgentConfig.enablePetroleumAgent _); [done|].
    destruct Hin as [Hin|[Hin|[Hin|Hin]]]; try case_match;
      try (by apply elem_of_nil in Hin);
      apply list_elem_of_singleton in Hin; by subst.
  - intros ->. exists ("petroleum-atg", PetroleumATGAnalyzer.analyze).
    split; [|done]. rewrite !elem_of_app. right. left.
    apply list_elem_of_here.
Qed.

(** X16.  Processing one declaration throws, and the declaration counts
    as failed, for exactly one kind of input: a declaration without an HS
    code while the petroleum agent is enabled.  A throw of an agent's
    [analyze] is caught and never fails the declaration. *)
Theorem processDeclaration_throws_iff (clock : string → Declaration.t → Z)
    (d : Declaration.t) (config : AuditExecutionConfig.t) :
  processDeclaration clock d config = None
  ↔ AgentConfig.enablePetroleumAgent (AuditExecutionConfig.agentConfig config)
    = true
    ∧ hsCode d = None.
Proof.
  unfold processDeclaration. rewrite processDeclaration_loop_throws.
  rewrite <- getEnabledAgents_petroleum. split.
  - intros (entry & Hin & [Hty Hhs]%shouldAgentRun_throws).
    split; [by exists entry|done].
  - intros [(entry & Hin & Hty) Hhs]. exists entry. split; [done|].
    by apply shouldAgentRun_throws.
Qed.

Lemma enabled_results (clock : string → Declaration.t → Z) (d : Declaration.t)
    (enabled : list (string * Agent)) :
  Forall (fun entry => entry ∈ initializeAgents) enabled →
  let results :=
    omap (fun '(ty, agent) =>
            match shouldAgentRun ty d with
            | Some true => agent (clock ty d) d
            | _ => None
            end) enabled in
  sublist (AgentResult.agentType <$> results) (fst <$> enabled)
  ∧ Forall (fun r =>
      (∃ agent, (AgentResult.agentType r, agent) ∈ enabled)
      ∧ AgentResult.declarationId r = idOrDeclarationId d
      ∧ AgentResult.processingTime r = clock (AgentResult.agentType r) d
      ∧ (0 <= AgentResult.riskScore r <= 100)%Z
      ∧ (0 <= AgentResult.confidence r <= 1)%Q) results.
Proof.
  cbv zeta. induction enabled as [|[ty agent] rest IH]; intros Hall.
  - cbn. split; constructor.
  - apply Forall_cons in Hall as [Hin Hall]. destruct (IH Hall) as [Hsub HF].
    assert (HF' : Forall (fun r =>
      (∃ agent0, (AgentResult.agentType r, agent0) ∈ (ty, agent) :: rest)
      ∧ AgentResult.declarationId r = idOrDeclarationId d
      ∧ AgentResult.processingTime r = clock (AgentResult.agentType r) d
      ∧ (0 <= AgentResult.riskScore r <= 100)%Z
      ∧ (0 <= AgentResult.confidence r <= 1)%Q)
      (omap (fun '(ty, agent) =>
               match shouldAgentRun ty d with
               | Some true => agent (clock ty d) d
               | _ => None
               end) rest)).
    { eapply Forall_impl; [exact HF|]. intros r ((a & Ha) & ?).
      split; [|done]. exists a. by apply list_elem_of_further. }
    cbn [omap list_omap fmap list_fmap fst].
    destruct (shouldAgentRun ty d) as [[|]|];
      [|split; [by apply sublist_cons|done]..].
    destruct (agent (clock ty d) d) as [r|] eqn:Hr;
      [|split; [by apply sublist_cons|done]].
    destruct (agent_result_identity ty agent (clock ty d) d r Hin Hr)
      as (Hty & Hid & Htime).
    destruct (registered_result_bounds ty agent (clock ty d) d r Hin Hr)
      as [Hrisk Hconf].
    cbn [fmap list_fmap]. rewrite Hty. split; [by apply sublist_skip|].
    constructor; [|done]. rewrite Hty. split; [|done].
    exists agent. apply list_elem_of_here.
Qed.

Lemma getEnabledAgents_sublist (config : AuditExecutionConfig.t) :
  sublist (fst <$> getEnabledAgents config) agentTypes.
Proof.
  unfold getEnabledAgents, agentTypes, initializeAgents.
  rewrite !fmap_app.
  change (fst <$> [("ecowas-origin", ECOWASOriginVerificationAgent.analyze);
                   ("petroleum-atg", PetroleumATGAnalyzer.analyze);
                   ("tax-compliance", GhanaTaxComplianceAgent.analyze);
                   ("tsa-reconciliation", TSAPaymentReconciliationAgent.analyze)])
    with (["ecowas-origin"] ++ ["petroleum-atg"] ++ ["tax-compliance"]
          ++ ["tsa-reconciliation"]).
  repeat apply sublist_app; case_match; cbn; by repeat constructor.
Qed.

(** X17.  A declaration that is processed gets at most one result from
    each agent, in the order of the registry (origin, petroleum, tax,
    payment).  Every result comes from an enabled agent, names the
    declaration, carries the duration measured for that agent and
    satisfies the bounds of the result schema. *)
Theorem processDeclaration_results (clock : string → Declaration.t → Z)
    (d : Declaration.t) (config : AuditExecutionConfig.t)
    (results : list AgentResult.t) :
  processDeclaration clock d config = Some results →
  sublist (AgentResult.agentType <$> results) agentTypes
  ∧ Forall (fun r =>
      (∃ agent, (AgentResult.agentType r, agent) ∈ getEnabledAgents config)
      ∧ AgentResult.declarationId r = idOrDeclarationId d
      ∧ AgentResult.processingTime r = clock (AgentResult.agentType r) d
      ∧ (0 <= AgentResult.riskScore r <= 100)%Z
      ∧ (0 <= AgentResult.confidence r <= 1)%Q) results.
Proof.
  unfold processDeclaration. intros H.
  apply processDeclaration_loop_spec in H as [-> _]. cbn [app].
  destruct (enabled_results clock d (getEnabledAgents config)) as [Hsub HF].
  { apply Forall_forall. intros entry. apply getEnabledAgents_elem_of. }
  split; [|done]. etrans; [exact Hsub|]. apply getEnabledAgents_sublist.
Qed.

Lemma processDeclaration_results_witness :
  ∃ results,
    processDeclaration (fun _ _ => 3%Z) mockDeclaration defaultConfig
    = Some results
    ∧ sublist (AgentResult.agentType <$> results) agentTypes
    ∧ Forall (fun r =>
        (∃ agent, (AgentResult.agentType r, agent)
                  ∈ getEnabledAgents defaultConfig)
        ∧ AgentResult.declarationId r = idOrDeclarationId mockDeclaration
        ∧ AgentResult.processingTime r
          = (fun _ _ => 3%Z) (AgentResult.agentType r) mockDeclaration
        ∧ (0 <= AgentResult.riskScore r <= 100)%Z
        ∧ (0 <= AgentResult.confidence r <= 1)%Q) results.
Proof.
  eexists. split; [reflexivity|].
  exact (processDeclaration_results (fun _ _ => 3%Z) mockDeclaration
           defaultConfig _ eq_refl).
Defined.
End OneDeclaration.

(** ** The orchestrator: a whole audit *)

Section WholeAudit.
Import Declaration GhanaAuditRunner AuditExecutionResult.

Lemma failsProcessing_iff clock config d :
  failsProcessing config d = true ↔ processDeclaration clock d config = None.
Proof.
  rewrite processDeclaration_throws_iff. unfold failsProcessing.
  by rewrite andb_true_iff, bool_decide_eq_true.
Qed.

(** What the loop of [executeSequential] does to the execution. *)
Lemma executeSequential_effect clock config (ds : list Declaration.t)
    (e0 : AuditExecutionResult.t) :
  let e := executeSequential clock e0 ds config in
  status e = status e0
  ∧ totalDeclarations e = totalDeclarations e0
  ∧ ghanaMetrics e = ghanaMetrics e0
  ∧ failedDeclarations e
    = failedDeclarations e0 + length (List.filter (failsProcessing config) ds)
  ∧ processedDeclarations e + failedDeclarations e
    = processedDeclarations e0 + failedDeclarations e0 + length ds
  ∧ length (errors e)
    = length (errors e0) + length (List.filter (failsProcessing config) ds)
  ∧ (Forall (fun err => ExecutionError.agentType err = "system") (errors e0) →
     Forall (fun err => ExecutionError.agentType err = "system") (errors e))
  ∧ agentResults e
    = agentResults e0
      ++ concat (omap (fun d => processDeclaration clock d config) ds).
Proof.
  cbv zeta. unfold executeSequential. revert e0.
  induction ds as [|d ds IH]; intros e0.
  - cbn. rewrite app_nil_r. repeat split; try done; lia.
  - cbn [fold_left].
    destruct (IH (sequentialStep clock config e0 d))
      as (H1 & H2 & H3 & H4 & H5 & H6 & H7 & H8).
    rewrite H1, H2, H3, H5, H4, H6, H8. clear H1 H2 H3 H4 H5 H6 H8.
    unfold sequentialStep in *. cbn [List.filter omap list_omap].
    destruct (processDeclaration clock d config) as [results|] eqn:Hd.
    + assert (Hf : failsProcessing config d = false).
      { apply not_true_is_false. rewrite (failsProcessing_iff clock).
        congruence. }
      rewrite Hf. cbn. rewrite <- app_assoc.
      repeat split; try done; lia.
    + assert (Hf : failsProcessing config d = true)
        by by apply (failsProcessing_iff clock).
      rewrite Hf. cbn. rewrite length_app. cbn.
      repeat split; try done; try lia.
      intros HF. apply H7. apply Forall_app. split; [done|].
      by repeat constructor.
Qed.

(** A completed audit is the sequential loop over the filtered
    declarations, followed by the final metrics, in either mode. *)
Lemma executeAudit_completed clock fuel config declarations e :
  executeAudit clock fuel config declarations = Some e →
  status e = completed →
  ∃ filtered,
    filterDeclarations declarations config = Some filtered
    ∧ e = executionCompleted
            (executeSequential clock
               (setTotalDeclarations (length filtered)
                  (initial config declarations))
               filtered config).
Proof.
  unfold executeAudit. intros He Hst.
  destruct (filterDeclarations declarations config) as [filtered|];
    [|by simplify_eq].
  exists filtered. split; [done|].
  destruct (ExecutionOptions.parallelExecution _).
  - unfold executeParallel in He.
    destruct (chunkArray fuel filtered _) as [chunks|] eqn:Hchunks; [|done].
    cbn [mbind option_bind] in He. simplify_eq.
    rewrite parallelChunks_sequential.
    by rewrite (chunkArray_concat _ _ _ _ Hchunks).
  - cbn [mbind option_bind] in He. by simplify_eq.
Qed.



Lemma processDeclaration_Forall (P : AgentResult.t → Prop) clock d config
    (results : list AgentResult.t) :
  (∀ ty agent t r, (ty, agent) ∈ initializeAgents → agent t d = Some r → P r) →
  processDeclaration clock d config = Some results →
  Forall P results.
Proof.
  intros HP H. unfold processDeclaration in H.
  apply processDeclaration_loop_spec in H as [-> _]. cbn [app].
  pose proof (getEnabledAgents_elem_of config) as Hsub.
  induction (getEnabledAgents config) as [|[ty agent] rest IH]; [constructor|].
  cbn [omap list_omap].
  assert (Hrest : ∀ entry, entry ∈ rest → entry ∈ initializeAgents).
  { intros entry Hin. apply Hsub. by apply list_elem_of_further. }
  destruct (shouldAgentRun ty d) as [[|]|]; [|by apply IH..].
  destruct (agent (clock ty d) d) as [r|] eqn:Hr; [|by apply IH].
  constructor; [|by apply IH].
  apply (HP ty agent (clock ty d)); [|done]. apply Hsub. apply list_elem_of_here.
Qed.

Lemma registered_result_sector (ty : string) (agent : Agent) (t : Z)
    (d : Declaration.t) (r : AgentResult.t) :
  (ty, agent) ∈ initializeAgents → agent t d = Some r →
  sectorOf r = "unknown".
Proof.
  unfold initializeAgents. intros Hin H.
  repeat (apply elem_of_cons in Hin as [[= -> ->] | Hin]);
    [| | | |by apply elem_of_nil in Hin].
  - unfold ECOWASOriginVerificationAgent.analyze in H.
    destruct (if ecowasOrigin d then _ else _); [|done].
    cbn in H. by simplify_eq.
  - unfold PetroleumATGAnalyzer.analyze in H.
    destruct (hsCode d); [|done]. cbn [mbind option_bind] in H.
    destruct (negb _); by simplify_eq.
  - unfold GhanaTaxComplianceAgent.analyze in H. by simplify_eq.
  - unfold TSAPaymentReconciliationAgent.analyze in H. by simplify_eq.
Qed.

Lemma audit_results_unknown_sector clock config (ds : list Declaration.t) :
  Forall (fun r => sectorOf r = "unknown")
    (concat (omap (fun d => processDeclaration clock d config) ds)).
Proof.
  induction ds as [|d ds IH]; [constructor|]. cbn [omap list_omap].
  destruct (processDeclaration clock d config) as [results|] eqn:Hd; [|done].
  cbn [concat]. apply Forall_app. split; [|done].
  apply (processDeclaration_Forall _ clock d config); [|done].
  intros ty agent t r. apply registered_result_sector.
Qed.

(** Grouping by a key, in general: the group of a key is what it was,
    followed by the elements with that key, in order. *)
Lemma group_by_lookup {A} (key : A → string) (results : list A)
    (groups : gmap string (list A)) (k : string) :
  fold_left (fun groups result =>
      <[key result := default [] (groups !! key result) ++ [result]]> groups)
    results groups !! k
  = match List.filter (fun r => String.eqb (key r) k) results with
    | [] => groups !! k
    | group => Some (default [] (groups !! k) ++ group)
    end.
Proof.
  revert groups. induction results as [|r rs IH]; intros groups; [done|].
  cbn [fold_left List.filter]. rewrite IH.
  destruct (String.eqb_spec (key r) k) as [->|Hne].
  - rewrite lookup_insert_eq. cbn [default].
    destruct (List.filter _ rs) as [|g gs]; [done|].
    unfold Datatypes.id. by rewrite <- app_assoc.
  - by rewrite lookup_insert_ne.
Qed.

Lemma filter_all {A} (f : A → bool) (l : list A) :
  Forall (fun x => f x = true) l → List.filter f l = l.
Proof.
  induction 1 as [|x l Hx _ IH]; [done|]. cbn. by rewrite Hx, IH.
Qed.

Lemma groupResultsBySector_unknown (results : list AgentResult.t) :
  Forall (fun r => sectorOf r = "unknown") results →
  groupResultsBySector results
  = match results with
    | [] => ∅
    | _ => {["unknown" := results]}
    end.
Proof.
  intros Hall. apply map_eq. intros k. unfold groupResultsBySector.
  rewrite (group_by_lookup sectorOf). rewrite lookup_empty. cbn [default app].
  destruct (String.eqb_spec k "unknown") as [->|Hne].
  - rewrite filter_all.
    + destruct results; [by rewrite lookup_empty|].
      by rewrite lookup_singleton_eq.
    + eapply Forall_impl; [exact Hall|]. intros r ->. done.
  - replace (List.filter (fun r => String.eqb (sectorOf r) k) results)
      with (@nil AgentResult.t).
    + destruct results; [done|]. by rewrite lookup_singleton_ne.
    + symmetry. induction Hall as [|r rs Hr _ IH]; [done|]. cbn.
      rewrite Hr. destruct (String.eqb_spec "unknown" k); [congruence|done].
Qed.

(** X19.  In a completed audit the sectoral breakdown never has another
    sector than "unknown": no agent writes a sector into the metadata of
    its result, whatever the sector of the declaration.  That one entry
    repeats the totals: the number of violations, the recovery amount and
    the number of agent results. *)
Theorem completed_audit_has_one_sector (clock : string → Declaration.t → Z)
    (fuel : nat) (config : AuditExecutionConfig.t)
    (declarations : list Declaration.t) (e : AuditExecutionResult.t) :
  executeAudit clock fuel config declarations = Some e →
  status e = completed →
  GhanaMetrics.sectoralBreakdown (ghanaMetrics e)
  = match agentResults e with
    | [] => ∅
    | _ =>
        {["unknown" :=
            SectorStats.mk (GhanaMetrics.totalViolations (ghanaMetrics e))
              (GhanaMetrics.totalRecoveryAmount (ghanaMetrics e))
              (length (agentResults e))]}
    end.
Proof.
  intros He Hst.
  destruct (executeAudit_completed _ _ _ _ _ He Hst) as (filtered & Hf & ->).
  destruct (executeSequential_effect clock config filtered
              (setTotalDeclarations (length filtered)
                 (initial config declarations)))
    as (_ & _ & H3 & _ & _ & _ & _ & H8).
  set (e1 := executeSequential clock _ filtered config) in *.
  unfold executionCompleted, calculateFinalMetrics, calculateGhanaMetrics.
  cbn [ghanaMetrics agentResults setEndTime setStatus setGhanaMetrics
       GhanaMetrics.sectoralBreakdown GhanaMetrics.totalViolations
       GhanaMetrics.totalRecoveryAmount].
  rewrite H3.
  cbn [ghanaMetrics setTotalDeclarations initial GhanaMetrics.initial
       GhanaMetrics.sectoralBreakdown].
  rewrite (right_id_L ∅ (∪)).
  rewrite groupResultsBySector_unknown.
  - destruct (agentResults e1); [by rewrite fmap_empty|].
    by rewrite map_fmap_singleton.
  - rewrite H8. cbn [agentResults setTotalDeclarations initial app].
    apply audit_results_unknown_sector.
Qed.

Lemma completed_audit_has_one_sector_witness :
  ∃ e, executeAudit (fun _ _ => 3%Z) 1 defaultConfig [mockDeclaration] = Some e
       ∧ status e = completed
       ∧ GhanaMetrics.sectoralBreakdown (ghanaMetrics e)
         = match agentResults e with
           | [] => ∅
           | _ =>
               {["unknown" :=
                   SectorStats.mk
                     (GhanaMetrics.totalViolations (ghanaMetrics e))
                     (GhanaMetrics.totalRecoveryAmount (ghanaMetrics e))
                     (length (agentResults e))]}
           end.
Proof.
  pose proof mock_audit_completes as H.
  destruct (executeAudit (fun _ _ => 3%Z) 1 defaultConfig [mockDeclaration])
    as [e|] eqn:He; [|done].
  destruct H as [Hst _].
  exists e. split; [reflexivity|]. split; [exact Hst|].
  exact (completed_audit_has_one_sector _ _ _ _ _ He Hst).
Defined.
End WholeAudit.

Section AuditMetrics.
Import Declaration GhanaAuditRunner AuditExecutionResult.





End AuditMetrics.

(** ** The execution queue and the event history *)

Section EngineQueue.
Import ProductionAuditEngine.

Lemma byPriority_app (l1 l2 : list QueueItem.t) :
  byPriority (l1 ++ l2)
  ↔ byPriority l1 ∧ byPriority l2
    ∧ Forall (fun a => Forall (fun b =>
        rank (QueueItem.priority b) <= rank (QueueItem.priority a)) l2) l1.
Proof.
  induction l1 as [|x l1 IH]; cbn [app byPriority].
  - split; [intros H; by repeat split|by intros (_ & ? & _)].
  - rewrite IH, Forall_app, Forall_cons. tauto.
Qed.

Lemma byPriority_sublist (l1 l2 : list QueueItem.t) :
  sublist l1 l2 → byPriority l2 → byPriority l1.
Proof.
  induction 1 as [|x l1 l2 Hsub IH|x l1 l2 Hsub IH]; cbn [byPriority].
  - done.
  - intros [Hall Hrest]. split; [|by apply IH].
    apply Forall_forall. intros y Hy.
    apply (proj1 (Forall_forall _ _) Hall). by apply (elem_of_sublist l1 l2).
  - intros [_ Hrest]. by apply IH.
Qed.

Lemma findIndex_spec {T} (f : T → bool) (array : list T) :
  match findIndex f array with
  | Some i =>
      Forall (fun x => f x = false) (take i array)
      ∧ ∃ x, array !! i = Some x ∧ f x = true
  | None => Forall (fun x => f x = false) array
  end.
Proof.
  induction array as [|x array IH]; cbn [findIndex]; [constructor|].
  destruct (f x) eqn:Hx.
  - cbn. split; [constructor|]. by exists x.
  - destruct (findIndex f array) as [i|]; cbn.
    + destruct IH as [Hall Hi]. split; [by constructor|done].
    + by constructor.
Qed.

Lemma rank_low (item : QueueItem.t) :
  bool_decide (QueueItem.priority item = priority_low) = false →
  1 <= rank (QueueItem.priority item).
Proof.
  intros H. apply bool_decide_eq_false in H.
  destruct (QueueItem.priority item); cbn; try lia. done.
Qed.

(** Where [queueExecution] puts an item into a queue that is in order. *)
Lemma queueExecution_position (item : QueueItem.t) (queue : list QueueItem.t) :
  byPriority queue →
  ∃ ahead behind,
    queue = ahead ++ behind
    ∧ queueExecution item queue = ahead ++ item :: behind
    ∧ Forall (fun x =>
        rank (QueueItem.priority item) <= rank (QueueItem.priority x)
        ∧ QueueItem.priority item ≠ priority_high) ahead
    ∧ Forall (fun x =>
        rank (QueueItem.priority x) < rank (QueueItem.priority item)
        ∨ QueueItem.priority item = priority_high) behind.
Proof.
  intros Hsorted. unfold queueExecution.
  destruct (QueueItem.priority item) eqn:Hp.
  - exists queue, []. rewrite app_nil_r. repeat split; [|constructor].
    apply Forall_forall. intros x _. cbn. split; [lia|done].
  - pose proof (findIndex_spec
      (fun x => bool_decide (QueueItem.priority x = priority_low)) queue) as H.
    destruct (findIndex _ queue) as [i|].
    + destruct H as [Hahead (x & Hx & Hlow)].
      exists (take i queue), (drop i queue).
      rewrite take_drop. repeat split.
      * eapply Forall_impl; [exact Hahead|]. intros y Hy. cbn.
        split; [by apply rank_low|done].
      * apply bool_decide_eq_true in Hlow.
        rewrite <- (take_drop i queue) in Hsorted.
        apply byPriority_app in Hsorted as (_ & Hdrop & _).
        rewrite (drop_S _ _ _ Hx) in Hdrop |- *.
        destruct Hdrop as [Hall _]. rewrite Hlow in Hall. cbn in Hall.
        constructor; [rewrite Hlow; cbn; lia|].
        eapply Forall_impl; [exact Hall|]. intros y Hy. cbn in *. lia.
    + exists queue, []. rewrite app_nil_r. repeat split; [|constructor].
      eapply Forall_impl; [exact H|]. intros y Hy. cbn.
      split; [by apply rank_low|done].
  - exists [], queue. repeat split; [constructor|].
    apply Forall_forall. intros x _. by right.
Qed.

Lemma queueExecution_byPriority (item : QueueItem.t) (queue : list QueueItem.t) :
  byPriority queue → byPriority (queueExecution item queue).
Proof.
  intros Hsorted.
  destruct (queueExecution_position item queue Hsorted)
    as (ahead & behind & -> & -> & Hahead & Hbehind).
  apply byPriority_app in Hsorted as (H1 & H2 & H12).
  apply byPriority_app. split; [done|]. split.
  - cbn [byPriority]. split; [|done].
    eapply Forall_impl; [exact Hbehind|]. intros x [Hx| ->]; [lia|].
    cbn. destruct (QueueItem.priority x); cbn; lia.
  - apply Forall_forall. intros a Ha. constructor.
    + by apply (proj1 (Forall_forall _ _) Hahead).
    + by apply (proj1 (Forall_forall _ _) H12).
Qed.

Lemma applyOps_byPriority (ops : list QueueOp) (queue : list QueueItem.t) :
  byPriority queue → byPriority (fold_left applyOp ops queue).
Proof.
  revert queue. induction ops as [|op ops IH]; intros queue Hsorted; [done|].
  cbn [fold_left]. apply IH.
  destruct op as [item|active|executionId]; cbn [applyOp].
  - by apply queueExecution_byPriority.
  - unfold processQueue_shift. destruct queue as [|x rest]; [done|].
    destruct (maxConcurrent <=? active)%nat; cbn [snd]; [done|].
    by destruct Hsorted.
  - unfold cancelQueued. destruct (findIndex _ queue) as [i|]; [|done].
    cbn. apply (byPriority_sublist _ queue); [|done]. apply sublist_delete.
Qed.

(** X22.  Whatever executions are queued, taken off the queue and
    cancelled, and in whatever order, the queue is in order of priority
    at every moment: no execution waits behind one of lower priority.
    So the execution that [processQueue] takes off the queue is of the
    highest priority waiting, and it takes none when five executions are
    active. *)
Theorem queue_stays_in_priority_order (ops : list QueueOp)
    (activeExecutions : nat) :
  let executionQueue := fold_left applyOp ops [] in
  byPriority executionQueue
  ∧ match processQueue_shift activeExecutions executionQueue with
    | (Some queueItem, rest) =>
        activeExecutions < 5
        ∧ executionQueue = queueItem :: rest
        ∧ Forall (fun waiting =>
            rank (QueueItem.priority waiting)
            <= rank (QueueItem.priority queueItem)) rest
    | (None, rest) =>
        rest = executionQueue ∧ (executionQueue = [] ∨ 5 <= activeExecutions)
    end.
Proof.
  cbv zeta.
  pose proof (applyOps_byPriority ops [] I) as Hsorted.
  split; [exact Hsorted|].
  destruct (fold_left applyOp ops []) as [|queueItem rest];
    unfold processQueue_shift; [by auto|].
  unfold maxConcurrent.
  destruct (Nat.leb_spec 5 activeExecutions) as [Hfull|Hroom].
  - split; [done|]. by right.
  - destruct Hsorted as [Hall _]. done.
Qed.

(** X23.  Queueing an execution keeps the executions that wait in their
    order and puts the new one behind every execution of its own or a
    higher priority and ahead of every execution of lower priority, with
    one exception: an execution of high priority goes to the very front,
    ahead of the high-priority executions queued before it. *)
Theorem queueExecution_places_by_priority (queueItem : QueueItem.t)
    (executionQueue : list QueueItem.t) :
  byPriority executionQueue →
  ∃ ahead behind,
    executionQueue = ahead ++ behind
    ∧ queueExecution queueItem executionQueue = ahead ++ queueItem :: behind
    ∧ (QueueItem.priority queueItem = priority_high → ahead = [])
    ∧ (QueueItem.priority queueItem ≠ priority_high →
       Forall (fun x =>
         rank (QueueItem.priority queueItem) <= rank (QueueItem.priority x))
         ahead
       ∧ Forall (fun x =>
           rank (QueueItem.priority x) < rank (QueueItem.priority queueItem))
           behind).
Proof.
  intros Hsorted.
  destruct (queueExecution_position queueItem executionQueue Hsorted)
    as (ahead & behind & Hq & Hr & Hahead & Hbehind).
  exists ahead, behind. split; [done|]. split; [done|]. split.
  - intros Hhigh. destruct ahead as [|x ahead]; [done|].
    apply Forall_cons in Hahead as [[_ Hne] _]. done.
  - intros Hne. split.
    + eapply Forall_impl; [exact Hahead|]. by intros x [? _].
    + eapply Forall_impl; [exact Hbehind|]. by intros x [?|?].
Qed.
End EngineQueue.

Lemma queueExecution_places_by_priority_witness :
  byPriority waitingQueue
  ∧ ∃ ahead behind,
      waitingQueue = ahead ++ behind
      ∧ ProductionAuditEngine.queueExecution mediumItem waitingQueue
        = ahead ++ mediumItem :: behind
      ∧ (QueueItem.priority mediumItem = priority_high → ahead = [])
      ∧ (QueueItem.priority mediumItem ≠ priority_high →
         Forall (fun x =>
           rank (QueueItem.priority mediumItem) <= rank (QueueItem.priority x))
           ahead
         ∧ Forall (fun x =>
             rank (QueueItem.priority x) < rank (QueueItem.priority mediumItem))
             behind).
Proof.
  assert (H : byPriority waitingQueue).
  { cbn. repeat split; repeat constructor. }
  split; [exact H|].
  exact (queueExecution_places_by_priority mediumItem waitingQueue H).
Defined.

Section EventHistory.
Import ProductionAuditEngine.

Lemma emitAuditEvent_drop (event : AuditEvent.t) (history : list AuditEvent.t) :
  length history <= 1000 →
  emitAuditEvent event history
  = drop (length history + 1 - 1000) (history ++ [event])
  ∧ length (emitAuditEvent event history) <= 1000.
Proof.
  intros Hlen. unfold emitAuditEvent. rewrite length_app. cbn [length].
  destruct (Nat.ltb_spec 1000 (length history + 1)) as [Hfull|Hroom].
  - assert (length history = 1000) as Heq by lia. rewrite Heq.
    change (1000 + 1 - 1000) with 1. split; [by destruct (history ++ [event])|].
    assert (Hl : length (history ++ [event]) = 1001)
      by (rewrite length_app; cbn; lia).
    destruct (history ++ [event]); cbn in *; lia.
  - replace (length history + 1 - 1000) with 0 by lia.
    rewrite drop_0, length_app. cbn. split; [done|lia].
Qed.

Lemma emitAuditEvent_fold (events history : list AuditEvent.t) :
  length history <= 1000 →
  fold_left (fun history event => emitAuditEvent event history) events history
  = drop (length history + length events - 1000) (history ++ events)
  ∧ length (fold_left (fun history event => emitAuditEvent event history)
              events history) <= 1000.
Proof.
  revert history. induction events as [|event events IH]; intros history Hlen.
  - cbn. rewrite app_nil_r, Nat.add_0_r.
    replace (length history - 1000) with 0 by lia. by rewrite drop_0.
  - cbn [fold_left length].
    destruct (emitAuditEvent_drop event history Hlen) as [Heq Hle].
    destruct (IH _ Hle) as [IH1 IH2]. split; [|done].
    rewrite IH1, Heq. rewrite length_drop, length_app. cbn [length].
    set (k := length history + 1 - 1000).
    assert (Hk : k <= length (history ++ [event]))
      by (rewrite length_app; cbn; lia).
    rewrite <- (drop_app_le _ events) by exact Hk.
    rewrite drop_drop, <- app_assoc. cbn [app]. f_equal. lia.
Qed.

Lemma applyHistoryOps_emit (events history : list AuditEvent.t) :
  fold_left applyHistoryOp (Emit <$> events) history
  = fold_left (fun history event => emitAuditEvent event history) events
      history.
Proof.
  revert history. induction events as [|event events IH]; intros history;
    [done|]. cbn [fmap list_fmap fold_left applyHistoryOp]. apply IH.
Qed.

Lemma applyHistoryOps_invariant (ops : list HistoryOp) :
  length (fold_left applyHistoryOp ops []) <= 1000
  ∧ sublist (fold_left applyHistoryOp ops []) (emitted ops).
Proof.
  induction ops as [|op ops [IHlen IHsub]] using rev_ind;
    [cbn; split; [lia|constructor]|].
  rewrite fold_left_app. cbn [fold_left].
  unfold emitted in *. rewrite omap_app. cbn [omap list_omap].
  set (history := fold_left applyHistoryOp ops []) in *.
  destruct op as [event|now]; cbn [applyHistoryOp].
  - destruct (emitAuditEvent_drop event history IHlen) as [-> Hlen].
    rewrite length_drop. split; [rewrite length_app; cbn; lia|].
    etrans; [apply sublist_drop|]. by apply sublist_app.
  - unfold cleanupOldEvents. rewrite app_nil_r. split.
    + etrans; [apply List.filter_length_le|done].
    + etrans; [apply List_filter_sublist|done].
Qed.

(** X24.  Under every interleaving of emitted events and runs of the
    cleanup timer the event history holds at most 1000 events, and they
    are emitted events in the order of their emission.  Events emitted in
    a row are appended and the history is cut to its last 1000 entries,
    so the event emitted last is its last entry; and right after a
    cleanup every entry is younger than 24 hours. *)
Theorem event_history_under_cleanup (ops : list HistoryOp) :
  let eventHistory := fold_left applyHistoryOp ops [] in
  length eventHistory <= 1000
  ∧ sublist eventHistory (emitted ops)
  ∧ (∀ events,
       fold_left applyHistoryOp (ops ++ (Emit <$> events)) []
       = drop (length eventHistory + length events - 1000)
           (eventHistory ++ events))
  ∧ (∀ event,
       last (fold_left applyHistoryOp (ops ++ [Emit event]) []) = Some event)
  ∧ (∀ now,
       sublist (fold_left applyHistoryOp (ops ++ [Cleanup now]) [])
         eventHistory
       ∧ Forall (fun event =>
           (now - 24 * 60 * 60 * 1000 < AuditEvent.timestamp event)%Z)
           (fold_left applyHistoryOp (ops ++ [Cleanup now]) [])).
Proof.
  cbv zeta. destruct (applyHistoryOps_invariant ops) as [Hlen Hsub].
  set (history := fold_left applyHistoryOp ops []) in *.
  split; [done|]. split; [done|]. split; [|split].
  - intros events. rewrite fold_left_app, applyHistoryOps_emit. fold history.
    by apply emitAuditEvent_fold.
  - intros event. rewrite fold_left_app. fold history.
    cbn [fold_left applyHistoryOp].
    destruct (emitAuditEvent_drop event history Hlen) as [-> _].
    rewrite drop_app_le by lia. apply last_snoc.
  - intros now. rewrite fold_left_app. fold history.
    cbn [fold_left applyHistoryOp]. unfold cleanupOldEvents. split.
    + apply List_filter_sublist.
    + apply Forall_forall. intros event Hin.
      apply List_filter_elem_of in Hin as [_ Hyoung].
      by apply Z.ltb_lt in Hyoung.
Qed.

(** X25.  [getExecutionHistory] with a limit of at least 1 returns that
    many of the most recent events, or all events when there are fewer.
    With a limit of 0 it returns the whole history, not the empty list:
    [slice(-0)] is [slice(0)]. *)
Theorem getExecutionHistory_limit (history : list AuditEvent.t) :
  (∀ limit, (1 <= limit)%Z →
     getExecutionHistory limit history
     = drop (length history - Z.to_nat limit) history)
  ∧ getExecutionHistory 0 history = history.
Proof.
  unfold getExecutionHistory, slice. cbv zeta.
  set (len := Z.of_nat (length history)).
  assert (Hend : (if (len <? 0)%Z then Z.max (len + len) 0 else Z.min len len)
                 = len).
  { destruct (Z.ltb_spec len 0); lia. }
  rewrite Hend. split.
  - intros limit Hlimit.
    rewrite (proj2 (Z.ltb_lt (- limit) 0)) by lia.
    destruct (Z.le_gt_cases len limit) as [Hall|Hsome].
    + rewrite Z.max_r by lia. rewrite Z.sub_0_r.
      replace (length history - Z.to_nat limit) with 0 by lia.
      change (Z.to_nat 0) with 0. rewrite !drop_0.
      apply take_ge. lia.
    + rewrite Z.max_l by lia.
      replace (Z.to_nat (len + - limit)) with (length history - Z.to_nat limit)
        by lia.
      apply take_ge. rewrite length_drop. lia.
  - change (- 0)%Z with 0%Z. cbn [Z.ltb Z.compare].
    rewrite Z.min_l by lia. change (Z.to_nat 0) with 0.
    rewrite drop_0. apply take_ge. lia.
Qed.
End EventHistory.

(** ** Evidence validation *)

Section EvidenceValidation.
Import GhanaEvidenceValidationService.
Variable toLowerCase toUpperCase : string → string.

Lemma invariant_initial :
  validatorInvariant (mkValidation [] ComplianceFlags.allTrue).
Proof. split; [constructor|by left]. Qed.

Lemma invariant_push_error (field : string) (severity : Severity)
    (v : Validation) :
  validatorInvariant v → validatorInvariant (push issue_error field severity v).
Proof.
  intros [Hall Hflags]. unfold push. split; cbn.
  - apply Forall_app. split; [done|]. constructor; [by left|constructor].
  - destruct Hflags as [?|Hex]; [by left|]. right.
    apply Exists_app. by left.
Qed.

Lemma invariant_push_warning (field : string) (severity : Severity)
    (v : Validation) :
  severity = low ∨ severity = medium →
  validatorInvariant v →
  validatorInvariant (push issue_warning field severity v).
Proof.
  intros Hsev [Hall Hflags]. unfold push. split; cbn.
  - apply Forall_app. split; [done|]. constructor; [|constructor].
    right. by split.
  - destruct Hflags as [?|Hex]; [by left|]. right.
    apply Exists_app. by left.
Qed.

Lemma invariant_clear (clear : Validation → Validation) (field : string)
    (severity : Severity) (v : Validation) :
  (∀ v, v_issues (clear v) = v_issues v) →
  validatorInvariant v →
  validatorInvariant (clear (push issue_error field severity v)).
Proof.
  intros Hclear [Hall Hflags]. split; rewrite Hclear; cbn.
  - apply Forall_app. split; [done|]. constructor; [by left|constructor].
  - right. apply Exists_app. right. by constructor.
Qed.

Ltac invariant_step :=
  first
    [ assumption
    | apply (invariant_clear clearTinValid); [done|]
    | apply (invariant_clear clearPortValid); [done|]
    | apply (invariant_clear clearTaxRatesValid); [done|]
    | apply (invariant_clear clearEcowasCompliance); [done|]
    | apply invariant_push_error
    | apply invariant_push_warning; [by auto|] ].

Ltac invariant := repeat case_match; repeat invariant_step.

Lemma validator_invariant (document : EvidenceDocument.t)
    (data : ExtractedData.t) (declarationData : option DeclarationData.t) :
  let v0 := mkValidation [] ComplianceFlags.allTrue in
  validatorInvariant
    match EvidenceDocument.type document with
    | commercial_invoice =>
        validateCommercialInvoice data declarationData v0
    | certificate_of_origin =>
        validateCertificateOfOrigin toLowerCase data declarationData v0
    | bill_of_lading =>
        validateBillOfLading toUpperCase data declarationData v0
    | tax_clearance => validateTaxClearance data declarationData v0
    | atg_certificate =>
        validateATGCertificate toLowerCase data declarationData v0
    | _ => validateGenericDocument data declarationData v0
    end.
Proof.
  cbv zeta. pose proof invariant_initial as H0.
  destruct (EvidenceDocument.type document).
  - unfold validateCommercialInvoice. invariant.
  - unfold validateBillOfLading. invariant.
  - unfold validateCertificateOfOrigin. invariant.
  - unfold validateGenericDocument. invariant.
  - unfold validateGenericDocument. invariant.
  - unfold validateGenericDocument. invariant.
  - unfold validateTaxClearance. invariant.
  - unfold validateATGCertificate. invariant.
  - unfold validateGenericDocument. invariant.
  - unfold validateGenericDocument. invariant.
  - unfold validateGenericDocument. invariant.
  - unfold validateGenericDocument. invariant.
Qed.

Lemma score_fold_le (issues : list Issue.t) (score : Z) :
  (fold_left (fun score issue => score - penalty (Issue.severity issue))
     issues score <= score)%Z.
Proof.
  revert score. induction issues as [|issue issues IH]; intros score.
  - cbn. lia.
  - cbn [fold_left]. etrans; [apply IH|].
    destruct (Issue.severity issue); cbn; lia.
Qed.

Lemma calculateValidationScore_bounds (issues : list Issue.t) :
  (0 <= calculateValidationScore issues <= 100)%Z.
Proof.
  unfold calculateValidationScore. pose proof (score_fold_le issues 100). lia.
Qed.

Lemma some_false_Forall {A} (f : A → bool) (l : list A) :
  some f l = false ↔ Forall (fun x => f x = false) l.
Proof.
  unfold some. induction l as [|x l IH]; cbn.
  - split; [constructor|done].
  - rewrite orb_false_iff, IH, Forall_cons. done.
Qed.

Lemma validateDocument_valid (elapsed : Z) (document : EvidenceDocument.t)
    (declarationData : option DeclarationData.t) :
  let result :=
    validateDocument toLowerCase toUpperCase elapsed document declarationData in
  ValidationResult.isValid result = true →
  (70 <= ValidationResult.validationScore result)%Z
  ∧ Forall minorWarning (ValidationResult.issues result)
  ∧ ValidationResult.ghanaCompliance result = ComplianceFlags.allTrue.
Proof.
  cbv zeta. unfold validateDocument.
  cbn [ValidationResult.validationScore ValidationResult.isValid
       ValidationResult.issues ValidationResult.ghanaCompliance].
  set (data := match EvidenceDocument.extractedData document with
               | Some data => data
               | None => extractDocumentData document
               end).
  pose proof (validator_invariant document data declarationData) as Hinv.
  cbv zeta in Hinv.
  set (v := match EvidenceDocument.type document with
            | commercial_invoice => _ | _ => _ end) in *.
  clearbody v. destruct Hinv as [Hall Hflags].
  intros [Hscore Herr]%andb_true_iff.
  apply Z.leb_le in Hscore. apply negb_true_iff in Herr.
  apply some_false_Forall in Herr.
  split; [done|]. split.
  - apply Forall_forall. intros issue Hin.
    apply (proj1 (Forall_forall _ _) Herr) in Hin as Hne.
    apply (proj1 (Forall_forall _ _) Hall) in Hin as [Hty|Hw]; [|done].
    rewrite bool_decide_eq_false in Hne. done.
  - destruct Hflags as [Hflags|Hex]; [done|].
    apply Exists_exists in Hex as (issue & Hin & Hty).
    apply (proj1 (Forall_forall _ _) Herr) in Hin.
    rewrite bool_decide_eq_false in Hin. done.
Qed.

Lemma determineRiskLevel_minor (issues : list Issue.t) (score : Z) :
  Forall minorWarning issues → (70 <= score)%Z →
  determineRiskLevel issues score = (if (score <? 80)%Z then medium else low).
Proof.
  intros Hminor Hscore. unfold determineRiskLevel.
  assert (Hcrit : some (fun issue =>
            bool_decide (Issue.severity issue = critical)) issues = false).
  { apply some_false_Forall. eapply Forall_impl; [exact Hminor|].
    intros issue [_ [Hs|Hs]]; rewrite Hs; done. }
  assert (Hhigh : some (fun issue =>
            bool_decide (Issue.severity issue = high)) issues = false).
  { apply some_false_Forall. eapply Forall_impl; [exact Hminor|].
    intros issue [_ [Hs|Hs]]; rewrite Hs; done. }
  rewrite Hcrit, Hhigh. cbn [orb].
  rewrite (proj2 (Z.ltb_ge _ 40)) by lia.
  by rewrite (proj2 (Z.ltb_ge _ 60)) by lia.
Qed.

Lemma valid_acceptable (elapsed : Z) (document : EvidenceDocument.t)
    (declarationData : option DeclarationData.t) :
  ValidationResult.isValid
    (validateDocument toLowerCase toUpperCase elapsed document declarationData)
  = true →
  acceptable
    (validateDocument toLowerCase toUpperCase elapsed document declarationData).
Proof.
  intros Hvalid.
  destruct (validateDocument_valid elapsed document declarationData Hvalid)
    as (Hscore & Hminor & Hflags).
  split; [done|]. split; [|done].
  change (ValidationResult.riskLevel
            (validateDocument toLowerCase toUpperCase elapsed document
               declarationData))
    with (determineRiskLevel
            (ValidationResult.issues
               (validateDocument toLowerCase toUpperCase elapsed document
                  declarationData))
            (ValidationResult.validationScore
               (validateDocument toLowerCase toUpperCase elapsed document
                  declarationData))).
  rewrite determineRiskLevel_minor by done.
  destruct (_ <? 80)%Z; [by right|by left].
Qed.

(** X26.  The verdict on one document.  The score lies between 0 and
    100.  A document is valid only when its score is at least 70, every
    issue found is a warning of low or medium severity, all five
    compliance flags are still set and the risk level is low or medium,
    medium exactly when the score is below 80: a valid document is never
    of high or critical risk. *)
Theorem valid_document_verdict (elapsed : Z) (document : EvidenceDocument.t)
    (declarationData : option DeclarationData.t) :
  let result :=
    validateDocument toLowerCase toUpperCase elapsed document declarationData in
  (0 <= ValidationResult.validationScore result <= 100)%Z
  ∧ (ValidationResult.isValid result = true →
     (70 <= ValidationResult.validationScore result)%Z
     ∧ Forall minorWarning (ValidationResult.issues result)
     ∧ acceptable result
     ∧ (ValidationResult.riskLevel result = medium
        ↔ (ValidationResult.validationScore result < 80)%Z)).
Proof.
  cbv zeta. split; [apply calculateValidationScore_bounds|].
  intros Hvalid.
  destruct (validateDocument_valid elapsed document declarationData Hvalid)
    as (Hscore & Hminor & Hflags).
  split; [done|]. split; [done|]. split; [by apply valid_acceptable|].
  change (ValidationResult.riskLevel
            (validateDocument toLowerCase toUpperCase elapsed document
               declarationData))
    with (determineRiskLevel
            (ValidationResult.issues
               (validateDocument toLowerCase toUpperCase elapsed document
                  declarationData))
            (ValidationResult.validationScore
               (validateDocument toLowerCase toUpperCase elapsed document
                  declarationData))).
  rewrite determineRiskLevel_minor by done.
  destruct (Z.ltb_spec (ValidationResult.validationScore
              (validateDocument toLowerCase toUpperCase elapsed document
                 declarationData)) 80); split; try done; lia.
Qed.

Lemma package_fold (clock : EvidenceDocument.t → Z)
    (declarationData : option DeclarationData.t)
    (documents : list EvidenceDocument.t) (tally : PackageTally) :
  let validate document :=
    validateDocument toLowerCase toUpperCase (clock document) document
      declarationData in
  let tally' :=
    fold_left (fun tally document =>
      let result := validate document in
      mkPackageTally
        (p_validationResults tally ++ [result])
        (p_totalScore tally + ValidationResult.validationScore result)%Z
        (if negb (ValidationResult.isValid result)
            || bool_decide (ValidationResult.riskLevel result = critical)
         then false else p_allCompliant tally))
      documents tally in
  p_validationResults tally'
  = p_validationResults tally ++ (validate <$> documents)
  ∧ (p_totalScore tally <= p_totalScore tally'
     <= p_totalScore tally + 100 * Z.of_nat (length documents))%Z
  ∧ (p_allCompliant tally' = true →
     p_allCompliant tally = true
     ∧ Forall (fun document =>
         ValidationResult.isValid (validate document) = true) documents).
Proof.
  cbv zeta. revert tally.
  induction documents as [|document documents IH]; intros tally.
  - cbn. rewrite app_nil_r. split; [done|]. split; [lia|]. by split.
  - cbn [fold_left]. destruct (IH (mkPackageTally
      (p_validationResults tally
       ++ [validateDocument toLowerCase toUpperCase (clock document)
             document declarationData])
      (p_totalScore tally
       + ValidationResult.validationScore
           (validateDocument toLowerCase toUpperCase (clock document)
              document declarationData))%Z
      (if negb (ValidationResult.isValid
                  (validateDocument toLowerCase toUpperCase (clock document)
                     document declarationData))
          || bool_decide (ValidationResult.riskLevel
               (validateDocument toLowerCase toUpperCase (clock document)
                  document declarationData) = critical)
       then false else p_allCompliant tally))) as (IH1 & IH2 & IH3).
    cbn [p_validationResults p_totalScore p_allCompliant] in IH1, IH2, IH3.
    pose proof (calculateValidationScore_bounds
      (ValidationResult.issues
         (validateDocument toLowerCase toUpperCase (clock document) document
            declarationData))) as Hbounds.
    change (calculateValidationScore
              (ValidationResult.issues
                 (validateDocument toLowerCase toUpperCase (clock document)
                    document declarationData)))
      with (ValidationResult.validationScore
              (validateDocument toLowerCase toUpperCase (clock document)
                 document declarationData)) in Hbounds.
    split; [|split].
    + rewrite IH1, <- app_assoc. done.
    + cbn [length]. lia.
    + intros Hall. destruct (IH3 Hall) as [Hc HF].
      destruct (ValidationResult.isValid _) eqn:Hvalid; cbn in Hc; [|done].
      destruct (bool_decide _); [done|]. split; [done|]. by constructor.
Qed.

(** X27.  A package of evidence is compliant only when it holds at least
    one document and every document is valid, of low or medium risk and
    with all compliance flags set; its overall score then lies between
    70 and 100.  The package has one result for each document, in the
    order of the documents. *)
Theorem compliant_package (clock : EvidenceDocument.t → Z)
    (declarationId : string) (documents : list EvidenceDocument.t)
    (declarationData : option DeclarationData.t) :
  let package :=
    validateEvidencePackage toLowerCase toUpperCase clock declarationId
      documents declarationData in
  EvidencePackage.overallCompliance package = true →
  documents ≠ []
  ∧ EvidencePackage.validationResults package
    = (fun document =>
         validateDocument toLowerCase toUpperCase (clock document) document
           declarationData) <$> documents
  ∧ Forall acceptable (EvidencePackage.validationResults package)
  ∧ (70 <= EvidencePackage.overallScore package <= 100)%Q.
Proof.
  cbv zeta. unfold validateEvidencePackage.
  cbn [EvidencePackage.overallCompliance EvidencePackage.validationResults
       EvidencePackage.overallScore].
  destruct (package_fold clock declarationData documents
              (mkPackageTally [] 0 true)) as (H1 & H2 & H3).
  cbv zeta in H1, H2, H3.
  cbn [p_validationResults p_totalScore p_allCompliant app] in H1, H2, H3.
  set (tally := fold_left _ documents _) in *. clearbody tally.
  intros [Hall Hscore]%andb_true_iff. apply Qle_bool_iff in Hscore.
  destruct (H3 Hall) as [_ Hvalid].
  destruct documents as [|document documents]; [done|].
  set (docs := document :: documents) in *.
  assert (Hpos : (0 < length docs)%nat) by (cbn; lia).
  rewrite (proj2 (Nat.ltb_lt _ _) Hpos) in Hscore |- *.
  split; [done|]. split; [done|]. split.
  - rewrite H1. apply Forall_fmap. eapply Forall_impl; [exact Hvalid|].
    intros d Hd. cbn.
    by apply valid_acceptable.
  - split; [done|].
    pose proof (inject_nat_pos _ Hpos) as Hn.
    apply Qle_shift_div_r; [done|].
    change 100%Q with (inject_Z 100).
    rewrite <- inject_Z_mult. rewrite <- Zle_Qle. cbn [length] in H2. lia.
Qed.
End EvidenceValidation.

Lemma compliant_package_witness :
  let package :=
    GhanaEvidenceValidationService.validateEvidencePackage
      GhanaEvidenceValidationService.asciiToLowerCase
      GhanaEvidenceValidationService.asciiToUpperCase
      (fun _ => 2%Z) "decl-1" [scannedInvoice] None in
  EvidencePackage.overallCompliance package = true
  ∧ [scannedInvoice] ≠ []
  ∧ EvidencePackage.validationResults package
    = (fun document =>
         GhanaEvidenceValidationService.validateDocument
           GhanaEvidenceValidationService.asciiToLowerCase
           GhanaEvidenceValidationService.asciiToUpperCase
           ((fun _ => 2%Z) document) document None) <$> [scannedInvoice]
  ∧ Forall acceptable (EvidencePackage.validationResults package)
  ∧ (70 <= EvidencePackage.overallScore package <= 100)%Q.
Proof.
  split; [by vm_compute|].
  exact (compliant_package GhanaEvidenceValidationService.asciiToLowerCase
           GhanaEvidenceValidationService.asciiToUpperCase
           (fun _ => 2%Z) "decl-1" [scannedInvoice] None eq_refl).
Defined.

Section TinFormat.

Lemma substring_all (s : string) :
  String.substring 0 (String.length s) s = s.
Proof. induction s as [|c s IH]; cbn; [done|by rewrite IH]. Qed.

Lemma prefix_TIN (s : string) :
  String.prefix "TIN" s = true ↔ ∃ rest, s = ("TIN" ++ rest)%string.
Proof.
  rewrite String.prefix_correct. split.
  - destruct s as [|a [|b [|c rest]]]; cbn; try done.
    intros [= -> -> -> _]. by exists rest.
  - intros [rest ->]. cbn. by destruct rest.
Qed.

(** X28.  The tax agent and the evidence service accept the same
    taxpayer numbers: the letters TIN followed by seven to ten decimal
    digits and nothing else.  The agent reports no finding on the number
    of a declaration exactly when the declaration has a number that the
    evidence service accepts. *)
Theorem tin_validators_agree (d : Declaration.t) :
  (GhanaTaxComplianceAgent.validateTIN d = []
   ↔ ∃ tin, Declaration.declarantTin d = Some tin
            ∧ GhanaEvidenceValidationService.validateTIN tin = true)
  ∧ ∀ tin,
      GhanaEvidenceValidationService.validateTIN tin = true
      ↔ ∃ digits, tin = ("TIN" ++ digits)%string
                  ∧ 7 <= String.length digits <= 10
                  ∧ allDigits digits = true.
Proof.
  split.
  - unfold GhanaTaxComplianceAgent.validateTIN,
      GhanaEvidenceValidationService.validateTIN,
      GhanaTaxComplianceAgent.tinPattern.
    destruct (Declaration.declarantTin d) as [tin|].
    + destruct (String.eqb tin "") eqn:Hempty.
      * split; [done|]. intros (tin' & [= <-] & H). by rewrite Hempty in H.
      * destruct (prefixThenDigits "TIN" 7 10 tin) eqn:Hp; cbn.
        -- split; [|done]. intros _. exists tin. by rewrite Hempty.
        -- split; [done|]. intros (tin' & [= <-] & H).
           rewrite Hempty in H. congruence.
    + split; [done|]. by intros (? & ? & _).
  - intros tin. unfold GhanaEvidenceValidationService.validateTIN.
    assert (Hpat : prefixThenDigits "TIN" 7 10 tin = true
                   ↔ ∃ digits, tin = ("TIN" ++ digits)%string
                               ∧ 7 <= String.length digits <= 10
                               ∧ allDigits digits = true).
    { assert (Hrest : ∀ digits,
        String.substring (String.length "TIN")
          (String.length ("TIN" ++ digits) - String.length "TIN")
          ("TIN" ++ digits) = digits).
      { intros digits.
        change ("TIN" ++ digits)%string
          with (String "T" (String "I" (String "N" digits))).
        cbn [String.length String.substring Nat.sub].
        rewrite Nat.sub_0_r. apply substring_all. }
      unfold prefixThenDigits, startsWith.
      rewrite andb_true_iff, prefix_TIN. split.
      - intros [[rest ->] H]. exists rest. split; [done|].
        cbv zeta in H. rewrite Hrest in H.
        apply andb_true_iff in H as [[Hlo Hhi]%andb_true_iff Hd].
        apply Nat.leb_le in Hlo, Hhi. done.
      - intros (digits & -> & [Hlo Hhi] & Hd). split; [by exists digits|].
        cbv zeta. rewrite Hrest, Hd.
        rewrite (proj2 (Nat.leb_le _ _) Hlo), (proj2 (Nat.leb_le _ _) Hhi).
        done. }
    destruct (String.eqb_spec tin "") as [->|Hne]; [|done].
    split; [done|]. intros (digits & Heq & _). done.
Qed.
End TinFormat.

(** ** The two modes and the status, on the test data of the API *)

Section GeneralWitnesses.
Import GhanaAuditRunner AuditExecutionResult Machine.

Lemma modes_agree_for_positive_concurrency_witness :
  (1 <= 5)%Z
  ∧ ∃ fuel0, ∀ fuel, (fuel0 <= fuel)%nat →
      ∃ eS eP,
        executeAudit (fun _ _ => 3%Z) fuel
          (withExecutionMode false 5 defaultConfig) [mockDeclaration] = Some eS
        ∧ executeAudit (fun _ _ => 7%Z) fuel
            (withExecutionMode true 5 defaultConfig) [mockDeclaration] = Some eP
        ∧ ghanaMetrics eS = ghanaMetrics eP
        ∧ status eS = status eP
        ∧ totalDeclarations eS = totalDeclarations eP
        ∧ processedDeclarations eS = processedDeclarations eP
        ∧ failedDeclarations eS = failedDeclarations eP
        ∧ eraseTime <$> agentResults eS = eraseTime <$> agentResults eP.
Proof.
  assert (H : (1 <= 5)%Z) by lia.
  split; [exact H|].
  exact (modes_agree_for_positive_concurrency (fun _ _ => 3%Z) (fun _ _ => 7%Z)
           defaultConfig 5 [mockDeclaration] H).
Defined.

Lemma returned_status_witness :
  ∃ e, reachable (fun _ _ => 3%Z) defaultConfig [mockDeclaration] (Returned, e)
       ∧ (status e = completed ∨ status e = failed).
Proof.
  pose proof mock_audit_completes as H.
  destruct (executeAudit (fun _ _ => 3%Z) 1 defaultConfig [mockDeclaration])
    as [e|] eqn:He; [|done].
  pose proof (executeAudit_reachable _ _ _ _ _ He) as Hreach.
  exists e. split; [exact Hreach|].
  exact (returned_status _ _ _ _ Hreach).
Defined.
End GeneralWitnesses.
